(** * Repair of generated MCQ payloads: [core/validation.py], [models.py],
      [core/chain.py] and [api/routes.py]

    A shallow embedding of the validation and repair functions of the MCQ
    generator, of the video search of its chain and of its generation
    endpoint, and the properties of its specification checked against them.

    Modelling conventions.
    - A Python value is a [value]: the trees that [json.loads] builds, with
      integers as [Z], finite floats by their exact rational value, and a
      [str] as a [string] holding one character per code point below 256.
      Such trees share no sub-object, so the in-place updates of the source
      ([question["options"] = ...], [options.append(...)]) are rendered as
      functions that return the updated object.
    - A [dict] is an association list in insertion order, looked up with
      Python's [==] on keys.
    - A raised exception is a [Raise e] result; [try ... except Exception]
      is a match on the result.
    - Calls to [logger] only emit records; they do not appear.
    - [datetime.now().isoformat()], [json.loads] and the construction and
      [.dict()] of the pydantic model belong to libraries outside the
      repository and are taken as parameters; so are the search tool,
      [str.title], [str()], the chain of the endpoint and its clock. *)

From Stdlib Require Import ZArith QArith List String Ascii Bool Lia DecimalString.
Import ListNotations.
Close Scope Q_scope.
Open Scope string_scope.
Open Scope Z_scope.
Open Scope list_scope.

(** ** Python values *)

Module Py.

#[local] Set Warnings "-register-all".

Inductive value : Type :=
| VNone
| VBool (b : bool)
| VInt (z : Z)
| VFloat (q : Q)
| VStr (s : string)
| VList (l : list value)
| VDict (d : list (value * value)).

Definition dict : Type := list (value * value).

(** Exceptions.  The messages of [MCQValidationError] are kept as data; an
    f-string that embeds another exception embeds its value here. *)
Inductive exn : Type :=
| MCQValidationError (m : message)
| JSONDecodeError
| TypeError
| AttributeError
| KeyError
| ValueError
| IndexError
| StopIteration
with message : Type :=
| InvalidJSONFormat
| ErrorValidatingMCQData (e : exn)
| InvalidInputType
| MissingRequiredField (field : string)
| QuestionsMustBeArray
| QuestionMissingField (question_id : value) (field : string)
| OptionsMustBeArray (question_id : value)
| NoValidQuestionsFound
| MissingOrEmptyRequiredField (field : string)
| UsernameFormat
| InvalidRequestData (e : exn).

Inductive result (A : Type) : Type :=
| Ok (a : A)
| Raise (e : exn).
Arguments Ok {A} a.
Arguments Raise {A} e.

Definition bind {A B : Type} (m : result A) (k : A -> result B) : result B :=
  match m with
  | Ok a => k a
  | Raise e => Raise e
  end.

Notation "x <- m ;; k" := (bind m (fun x => k))
  (at level 61, m at next level, right associativity).
Notation "m ;;; k" := (bind m (fun _ => k))
  (at level 61, right associativity).

Definition succeeds {A : Type} (m : result A) : bool :=
  match m with Ok _ => true | Raise _ => false end.

(** *** Truth value, equality, hashing *)

Definition num_of (v : value) : option Q :=
  match v with
  | VBool b => Some (inject_Z (Z.b2z b))
  | VInt z => Some (inject_Z z)
  | VFloat q => Some q
  | _ => None
  end.

(** [bool(v)] *)
Definition truthy (v : value) : bool :=
  match v with
  | VNone => false
  | VBool b => b
  | VInt z => negb (z =? 0)
  | VFloat q => negb (Qeq_bool q (inject_Z 0))
  | VStr s => negb (s =? "")%string
  | VList l => match l with [] => false | _ => true end
  | VDict d => match d with [] => false | _ => true end
  end.

(** [a == b]: numbers (booleans included) by value, strings and lists
    element-wise, dicts as mappings whatever the order of their items. *)
Fixpoint py_eq (a b : value) {struct a} : bool :=
  match a, b with
  | VNone, VNone => true
  | VStr s, VStr t => (s =? t)%string
  | VList l, VList m =>
      (fix elements (l m : list value) {struct l} : bool :=
         match l, m with
         | [], [] => true
         | x :: l', y :: m' => py_eq x y && elements l' m'
         | _, _ => false
         end) l m
  | VDict d, VDict e =>
      (List.length d =? List.length e)%nat &&
      (fix items (d : list (value * value)) {struct d} : bool :=
         match d with
         | [] => true
         | (k, v) :: d' =>
             (fix find (e : list (value * value)) : bool :=
                match e with
                | [] => false
                | (k', v') :: e' => if py_eq k k' then py_eq v v' else find e'
                end) e
             && items d'
         end) d
  | _, _ =>
      match num_of a, num_of b with
      | Some p, Some q => Qeq_bool p q
      | _, _ => false
      end
  end.

(** Lists and dicts are unhashable: using one as a key raises [TypeError]. *)
Definition hashable (v : value) : bool :=
  match v with
  | VList _ | VDict _ => false
  | _ => true
  end.

Definition isinstance_list (v : value) : bool :=
  match v with VList _ => true | _ => false end.

Definition isinstance_dict (v : value) : bool :=
  match v with VDict _ => true | _ => false end.

Definition isinstance_str (v : value) : bool :=
  match v with VStr _ => true | _ => false end.

(** [bool] is a subclass of [int]. *)
Definition isinstance_int (v : value) : bool :=
  match v with VInt _ | VBool _ => true | _ => false end.

(** *** Dictionaries *)

Fixpoint dict_get (k : value) (d : dict) : option value :=
  match d with
  | [] => None
  | (k', v) :: d' => if py_eq k' k then Some v else dict_get k d'
  end.

(** [d[k] = v]: an existing key keeps its place, a new one goes last. *)
Fixpoint dict_set (k v : value) (d : dict) : dict :=
  match d with
  | [] => [(k, v)]
  | (k', v') :: d' =>
      if py_eq k' k then (k', v) :: d' else (k', v') :: dict_set k v d'
  end.

Definition dict_has (k : value) (d : dict) : bool :=
  match dict_get k d with Some _ => true | None => false end.

(** *** Strings *)

Fixpoint is_substring (t s : string) : bool :=
  prefix t s ||
  match s with
  | EmptyString => false
  | String _ s' => is_substring t s'
  end.

Fixpoint chars_of (s : string) : list value :=
  match s with
  | EmptyString => []
  | String c s' => VStr (String c EmptyString) :: chars_of s'
  end.

Definition str_of_nat (n : nat) : string :=
  NilZero.string_of_uint (Nat.to_uint n).

(** [s.strip()]: white space is what [str.isspace] accepts. *)
Definition is_space (c : ascii) : bool :=
  let n := nat_of_ascii c in
  ((9 <=? n) && (n <=? 13) || (28 <=? n) && (n <=? 32)
   || (n =? 133) || (n =? 160))%nat.

Fixpoint lstrip (s : string) : string :=
  match s with
  | EmptyString => EmptyString
  | String c s' => if is_space c then lstrip s' else s
  end.

Fixpoint rstrip (s : string) : string :=
  match s with
  | EmptyString => EmptyString
  | String c s' =>
      match rstrip s' with
      | EmptyString => if is_space c then EmptyString else String c EmptyString
      | r => String c r
      end
  end.

Definition strip (s : string) : string := rstrip (lstrip s).

(** [s.startswith(t)], [s.endswith(t)], [s[n:]] and [s[:-n]] *)
Definition startswith (s t : string) : bool := prefix t s.

Definition endswith (s t : string) : bool :=
  (String.length t <=? String.length s)%nat &&
  (substring (String.length s - String.length t) (String.length t) s =? t)%string.

Definition drop (n : nat) (s : string) : string :=
  substring n (String.length s - n) s.

Definition drop_last (n : nat) (s : string) : string :=
  substring 0 (String.length s - n) s.

(** [s.replace(c, "")] for a one-character [c] *)
Fixpoint remove_char (c : ascii) (s : string) : string :=
  match s with
  | EmptyString => EmptyString
  | String a s' =>
      if Ascii.eqb a c then remove_char c s' else String a (remove_char c s')
  end.

(** [c.isalnum()] for a character [c]: the letters and the decimal, digit
    and numeric characters among the code points below 256. *)
Definition is_alnum_char (c : ascii) : bool :=
  let n := nat_of_ascii c in
  ((48 <=? n) && (n <=? 57) || (65 <=? n) && (n <=? 90)
   || (97 <=? n) && (n <=? 122)
   || (n =? 170) || (n =? 178) || (n =? 179) || (n =? 181)
   || (n =? 185) || (n =? 186) || (188 <=? n) && (n <=? 190)
   || (192 <=? n) && (n <=? 214) || (216 <=? n) && (n <=? 246)
   || (248 <=? n) && (n <=? 255))%nat.

Fixpoint all_chars (p : ascii -> bool) (s : string) : bool :=
  match s with
  | EmptyString => true
  | String c s' => p c && all_chars p s'
  end.

(** [s.isalnum()]: false on the empty string. *)
Definition isalnum (s : string) : bool :=
  negb (s =? "")%string && all_chars is_alnum_char s.

(** *** Operations on arbitrary values, with the exceptions they raise *)

(** [k in c] *)
Definition py_in (k c : value) : result bool :=
  match c with
  | VDict d => if hashable k then Ok (dict_has k d) else Raise TypeError
  | VList l => Ok (existsb (py_eq k) l)
  | VStr s => match k with
              | VStr t => Ok (is_substring t s)
              | _ => Raise TypeError
              end
  | _ => Raise TypeError
  end.

Definition py_not_in (k c : value) : result bool :=
  b <- py_in k c ;; Ok (negb b).

(** [c[k]] with a string key [k]: only a dict can be indexed by a [str]. *)
Definition getitem (c : value) (k : string) : result value :=
  match c with
  | VDict d => match dict_get (VStr k) d with
               | Some v => Ok v
               | None => Raise KeyError
               end
  | _ => Raise TypeError
  end.

(** [c[k] = v] with a string key [k]; the result is the updated [c]. *)
Definition setitem (c : value) (k : string) (v : value) : result value :=
  match c with
  | VDict d => Ok (VDict (dict_set (VStr k) v d))
  | _ => Raise TypeError
  end.

(** [c.get(k, default)]: only dicts have the method. *)
Definition get (c : value) (k : string) (default : value) : result value :=
  match c with
  | VDict d => match dict_get (VStr k) d with
               | Some v => Ok v
               | None => Ok default
               end
  | _ => Raise AttributeError
  end.

(** [len(c)] *)
Definition len (c : value) : result Z :=
  match c with
  | VList l => Ok (Z.of_nat (List.length l))
  | VDict d => Ok (Z.of_nat (List.length d))
  | VStr s => Ok (Z.of_nat (String.length s))
  | _ => Raise TypeError
  end.

(** The items a [for] loop over [c] visits. *)
Definition iter (c : value) : result (list value) :=
  match c with
  | VList l => Ok l
  | VDict d => Ok (map fst d)
  | VStr s => Ok (chars_of s)
  | _ => Raise TypeError
  end.

End Py.

(** ** [models.py]

    The declarations of the schema model, read as a checker that also builds
    the [.dict()] of the accepted object: a field takes the values of its
    declared type within its declared bounds, a [bool] field also what
    pydantic converts to a boolean, an optional field defaults to [None],
    and keys that are not fields are ignored.  This is the instance the
    parameter for the final validation is meant for. *)

Module Models.
Import Py.

Definition field (d : dict) (name : string) : option value :=
  dict_get (VStr name) d.

(** [DifficultyLevel] *)
Definition DifficultyLevel : list string :=
  ["basic"; "intermediate"; "advanced"; "mixed"].

Definition difficulty_level (v : option value) : option value :=
  match v with
  | Some (VStr s) =>
      if existsb (String.eqb s) DifficultyLevel then Some (VStr s) else None
  | _ => None
  end.

(** [str] with [min_length] and [max_length] *)
Definition str_field (min_length max_length : nat) (v : option value)
  : option value :=
  match v with
  | Some (VStr s) =>
      if ((min_length <=? String.length s)
          && (String.length s <=? max_length))%nat
      then Some (VStr s) else None
  | _ => None
  end.

(** [str] without bounds *)
Definition any_str (v : option value) : option value :=
  match v with
  | Some (VStr s) => Some (VStr s)
  | _ => None
  end.

(** [Optional[str]] with an optional [max_length] *)
Definition optional_str (max_length : option nat) (v : option value)
  : option value :=
  match v with
  | None | Some VNone => Some VNone
  | Some (VStr s) =>
      match max_length with
      | Some n => if (String.length s <=? n)%nat then Some (VStr s) else None
      | None => Some (VStr s)
      end
  | _ => None
  end.

(** [int] with [ge=1] *)
Definition positive_int (v : option value) : option value :=
  match v with
  | Some (VInt n) => if 1 <=? n then Some (VInt n) else None
  | _ => None
  end.

(** [c.lower()] for a character [c] below 256 *)
Definition lower_char (c : ascii) : ascii :=
  let n := nat_of_ascii c in
  if ((65 <=? n) && (n <=? 90)
      || (192 <=? n) && (n <=? 214) || (216 <=? n) && (n <=? 222))%nat
  then ascii_of_nat (n + 32) else c.

(** [s.lower()] *)
Fixpoint lower (s : string) : string :=
  match s with
  | EmptyString => EmptyString
  | String c s' => String (lower_char c) (lower s')
  end.

(** [bool]: the model takes a boolean, the numbers 0 and 1, and a string
    that is, whatever its case, one of the names of the two values; the
    object holds the boolean. *)
Definition bool_field (v : option value) : option value :=
  match v with
  | Some (VBool b) => Some (VBool b)
  | Some (VInt n) =>
      if n =? 1 then Some (VBool true)
      else if n =? 0 then Some (VBool false) else None
  | Some (VFloat q) =>
      if Qeq_bool q (inject_Z 1) then Some (VBool true)
      else if Qeq_bool q (inject_Z 0) then Some (VBool false) else None
  | Some (VStr s) =>
      if existsb (String.eqb (lower s)) ["1"; "on"; "t"; "true"; "y"; "yes"]
      then Some (VBool true)
      else if existsb (String.eqb (lower s))
                ["0"; "off"; "f"; "false"; "n"; "no"]
      then Some (VBool false) else None
  | _ => None
  end.

(** [List[T]]: every element is accepted by [T]. *)
Fixpoint each (T : value -> option value) (l : list value)
  : option (list value) :=
  match l with
  | [] => Some []
  | x :: rest =>
      match T x, each T rest with
      | Some x', Some rest' => Some (x' :: rest')
      | _, _ => None
      end
  end.

Definition MCQOption (v : value) : option value :=
  match v with
  | VDict d =>
      match str_field 1 500 (field d "option"),
            bool_field (field d "is_correct") with
      | Some option, Some is_correct =>
          Some (VDict [(VStr "option", option);
                       (VStr "is_correct", is_correct)])
      | _, _ => None
      end
  | _ => None
  end.

(** [sum(1 for option in v if option.is_correct)] on accepted options *)
Definition correct_count (options : list value) : nat :=
  List.length
    (filter (fun o => match o with
                      | VDict d => match field d "is_correct" with
                                   | Some f => truthy f
                                   | None => false
                                   end
                      | _ => false
                      end) options).

(** [List[MCQOption]] with [min_items=4], [max_items=4] and the validator
    [validate_options]. *)
Definition options_field (v : option value) : option value :=
  match v with
  | Some (VList l) =>
      match each MCQOption l with
      | Some options =>
          if ((List.length options =? 4) && (correct_count options =? 1))%nat
          then Some (VList options) else None
      | None => None
      end
  | _ => None
  end.

Definition MCQQuestion (v : value) : option value :=
  match v with
  | VDict d =>
      match positive_int (field d "question_id"),
            str_field 10 1000 (field d "question_text"),
            str_field 10 2000 (field d "explanation"),
            options_field (field d "options"),
            difficulty_level (field d "difficulty"),
            optional_str None (field d "topic_area") with
      | Some question_id, Some question_text, Some explanation,
        Some options, Some difficulty, Some topic_area =>
          Some (VDict [(VStr "question_id", question_id);
                       (VStr "question_text", question_text);
                       (VStr "explanation", explanation);
                       (VStr "options", options);
                       (VStr "difficulty", difficulty);
                       (VStr "topic_area", topic_area)])
      | _, _, _, _, _, _ => None
      end
  | _ => None
  end.

(** [List[str]] with default [[]] *)
Definition str_list (v : option value) : option value :=
  match v with
  | None => Some (VList [])
  | Some (VList l) =>
      match each (fun x => any_str (Some x)) l with
      | Some l' => Some (VList l')
      | None => None
      end
  | _ => None
  end.

Definition RoadmapStep (v : value) : option value :=
  match v with
  | VDict d =>
      match positive_int (field d "step_number"),
            str_field 1 200 (field d "title"),
            str_field 1 1000 (field d "description"),
            any_str (field d "estimated_duration"),
            str_list (field d "prerequisites") with
      | Some step_number, Some title, Some description,
        Some estimated_duration, Some prerequisites =>
          Some (VDict [(VStr "step_number", step_number);
                       (VStr "title", title);
                       (VStr "description", description);
                       (VStr "estimated_duration", estimated_duration);
                       (VStr "prerequisites", prerequisites)])
      | _, _, _, _, _ => None
      end
  | _ => None
  end.

(** [str] with the validator [validate_url] *)
Definition url_field (v : option value) : option value :=
  match v with
  | Some (VStr s) =>
      if prefix "http://" s || prefix "https://" s then Some (VStr s)
      else None
  | _ => None
  end.

Definition ReferenceVideo (v : value) : option value :=
  match v with
  | VDict d =>
      match str_field 1 200 (field d "title"),
            url_field (field d "url"),
            optional_str None (field d "duration"),
            difficulty_level (field d "difficulty_level"),
            optional_str (Some 500%nat) (field d "description") with
      | Some title, Some url, Some duration, Some level, Some description =>
          Some (VDict [(VStr "title", title);
                       (VStr "url", url);
                       (VStr "duration", duration);
                       (VStr "difficulty_level", level);
                       (VStr "description", description)])
      | _, _, _, _, _ => None
      end
  | _ => None
  end.

(** [List[T]] *)
Definition list_field (T : value -> option value) (v : option value)
  : option value :=
  match v with
  | Some (VList l) =>
      match each T l with
      | Some l' => Some (VList l')
      | None => None
      end
  | _ => None
  end.

(** [Optional[List[T]]] with default [None] *)
Definition optional_list (T : value -> option value) (v : option value)
  : option value :=
  match v with
  | None | Some VNone => Some VNone
  | _ => list_field T v
  end.

(** [Dict[str, Any]] with [default_factory=dict] *)
Definition metadata_field (v : option value) : option value :=
  match v with
  | None => Some (VDict [])
  | Some (VDict d) =>
      if forallb (fun kv => isinstance_str (fst kv)) d then Some (VDict d)
      else None
  | _ => None
  end.

Definition MCQResponse (d : dict) : option value :=
  match any_str (field d "username"),
        any_str (field d "topic"),
        any_str (field d "timestamp"),
        list_field MCQQuestion (field d "questions"),
        optional_list RoadmapStep (field d "roadmap"),
        optional_list ReferenceVideo (field d "reference_videos"),
        metadata_field (field d "metadata") with
  | Some username, Some topic, Some timestamp, Some questions,
    Some roadmap, Some reference_videos, Some metadata =>
      Some (VDict [(VStr "username", username);
                   (VStr "topic", topic);
                   (VStr "timestamp", timestamp);
                   (VStr "questions", questions);
                   (VStr "roadmap", roadmap);
                   (VStr "reference_videos", reference_videos);
                   (VStr "metadata", metadata)])
  | _, _, _, _, _, _, _ => None
  end.

End Models.

(** ** [core/validation.py] *)

Module Validation.
Import Py.

(** *** [_validate_question_options] *)

(** [{"option": f"Option {n}", "is_correct": False}] *)
Definition synthetic_option (n : nat) : value :=
  VDict [(VStr "option", VStr ("Option " ++ str_of_nat n));
         (VStr "is_correct", VBool false)].

(** [while len(options) < 4: options.append(...)], at most [n] rounds. *)
Fixpoint pad_options (n : nat) (options : list value) : list value :=
  match n with
  | O => options
  | S n' =>
      if (List.length options <? 4)%nat
      then pad_options n' (options ++ [synthetic_option (List.length options + 1)])
      else options
  end.

(** [[opt for opt in options if opt.get("is_correct", False)]] *)
Fixpoint correct_options_of (options : list value) : result (list value) :=
  match options with
  | [] => Ok []
  | opt :: rest =>
      flag <- get opt "is_correct" (VBool false) ;;
      rest' <- correct_options_of rest ;;
      Ok (if truthy flag then opt :: rest' else rest')
  end.

(** [for opt in options: opt["is_correct"] = False] *)
Fixpoint reset_all (options : list value) : result (list value) :=
  match options with
  | [] => Ok []
  | opt :: rest =>
      opt' <- setitem opt "is_correct" (VBool false) ;;
      rest' <- reset_all rest ;;
      Ok (opt' :: rest')
  end.

(** [any(co.get("option") == opt.get("option") for co in correct_options)] *)
Fixpoint any_same_option (correct_options : list value) (opt : value)
  : result bool :=
  match correct_options with
  | [] => Ok false
  | co :: rest =>
      a <- get co "option" VNone ;;
      b <- get opt "option" VNone ;;
      if py_eq a b then Ok true else any_same_option rest opt
  end.

(** [next(i for i, opt in enumerate(options) if any(...))], counting from [i]. *)
Fixpoint first_correct_index (correct_options options : list value) (i : nat)
  : result nat :=
  match options with
  | [] => Raise StopIteration
  | opt :: rest =>
      found <- any_same_option correct_options opt ;;
      if found then Ok i else first_correct_index correct_options rest (S i)
  end.

(** [options[i]["is_correct"] = True] *)
Fixpoint mark_correct (options : list value) (i : nat) : result (list value) :=
  match options, i with
  | [], _ => Raise IndexError
  | opt :: rest, O =>
      opt' <- setitem opt "is_correct" (VBool true) ;; Ok (opt' :: rest)
  | opt :: rest, S j =>
      rest' <- mark_correct rest j ;; Ok (opt :: rest')
  end.

(** After the reset the members of [correct_options] are the reset objects
    in the source, and the options as they were before the reset here; only
    their ["option"], which the reset leaves alone, is read from then on. *)
Definition _validate_question_options (options question_id : value)
  : result value :=
  match options with
  | VList options =>
      let options :=
        if (List.length options =? 4)%nat then options
        else if (List.length options <? 4)%nat then pad_options 4 options
        else firstn 4 options in
      correct_options <- correct_options_of options ;;
      if (List.length correct_options =? 1)%nat then Ok (VList options)
      else
        options <- reset_all options ;;
        match correct_options with
        | [] =>
            options <- mark_correct options 0 ;; Ok (VList options)
        | _ =>
            i <- first_correct_index correct_options options 0 ;;
            options <- mark_correct options i ;; Ok (VList options)
        end
  | _ => Raise (MCQValidationError (OptionsMustBeArray question_id))
  end.

(** *** [_validate_questions] *)

Definition question_required_fields : list string :=
  ["question_text"; "explanation"; "options"; "difficulty"].

(** [i + 1] for the loop index [i] *)
Definition position (i : nat) : value := VInt (Z.of_nat i + 1).

(** [for field in required_fields: if field not in question: raise ...] *)
Fixpoint require_fields (question : value) (i : nat) (fields : list string)
  : result unit :=
  match fields with
  | [] => Ok tt
  | field :: rest =>
      absent <- py_not_in (VStr field) question ;;
      if absent
      then question_id <- get question "question_id" (position i) ;;
           Raise (MCQValidationError (QuestionMissingField question_id field))
      else require_fields question i rest
  end.

(** The body of the [try] for the question at index [i]; the result is the
    question as it is appended to [validated_questions]. *)
Definition validate_question (i : nat) (question : value) : result value :=
  no_id <- py_not_in (VStr "question_id") question ;;
  question <- (if no_id then setitem question "question_id" (position i)
               else Ok question) ;;
  require_fields question i question_required_fields ;;;
  options <- get question "options" (VList []) ;;
  question_id <- get question "question_id" (position i) ;;
  options <- _validate_question_options options question_id ;;
  question <- setitem question "options" options ;;
  no_area <- py_not_in (VStr "topic_area") question ;;
  (if no_area then setitem question "topic_area" (VStr "General")
   else Ok question).

(** [for i, question in enumerate(questions): try: ... except Exception:
    continue], from index [i] on, appending to [validated_questions]. *)
Fixpoint questions_loop (i : nat) (questions validated_questions : list value)
  : list value :=
  match questions with
  | [] => validated_questions
  | question :: rest =>
      match validate_question i question with
      | Ok question' =>
          questions_loop (S i) rest (validated_questions ++ [question'])
      | Raise _ => questions_loop (S i) rest validated_questions
      end
  end.

Definition _validate_questions (questions : value) : result value :=
  items <- iter questions ;;
  let validated_questions := questions_loop 0 items [] in
  if (List.length validated_questions =? 0)%nat
  then Raise (MCQValidationError NoValidQuestionsFound)
  else Ok (VList validated_questions).

(** *** [_validate_roadmap] and [_validate_reference_videos] *)

(** [for field in required_fields: if field not in item or not item[field]:
    logger.warning(...); continue].  The [continue] ends an iteration of this
    inner loop, which has nothing after it: the loop only evaluates its
    condition, which raises when [item[field]] does. *)
Fixpoint warn_missing (item : value) (fields : list string) : result unit :=
  match fields with
  | [] => Ok tt
  | field :: rest =>
      absent <- py_not_in (VStr field) item ;;
      (if absent then Ok true
       else v <- getitem item field ;; Ok (negb (truthy v))) ;;;
      warn_missing item rest
  end.

Definition validate_step (i : nat) (step : value) : result value :=
  no_number <- py_not_in (VStr "step_number") step ;;
  step <- (if no_number then setitem step "step_number" (position i)
           else Ok step) ;;
  warn_missing step ["title"; "description"; "estimated_duration"] ;;;
  no_prerequisites <- py_not_in (VStr "prerequisites") step ;;
  if no_prerequisites then setitem step "prerequisites" (VList [])
  else
    prerequisites <- getitem step "prerequisites" ;;
    if negb (isinstance_list prerequisites)
    then setitem step "prerequisites" (VList [])
    else Ok step.

(** [for i, step in enumerate(roadmap): try: ... except Exception: continue] *)
Fixpoint roadmap_loop (i : nat) (roadmap validated_roadmap : list value)
  : list value :=
  match roadmap with
  | [] => validated_roadmap
  | step :: rest =>
      match validate_step i step with
      | Ok step' => roadmap_loop (S i) rest (validated_roadmap ++ [step'])
      | Raise _ => roadmap_loop (S i) rest validated_roadmap
      end
  end.

Definition _validate_roadmap (roadmap : value) : value :=
  match roadmap with
  | VList steps => VList (roadmap_loop 0 steps [])
  | _ => VList []
  end.

(** [url.startswith(("http://", "https://"))] *)
Definition startswith_http (url : value) : result bool :=
  match url with
  | VStr s => Ok (prefix "http://" s || prefix "https://" s)
  | _ => Raise AttributeError
  end.

(** The body of the [try] for one video: [None] stands for the [continue]
    taken on an invalid URL. *)
Definition validate_video (i : nat) (video : value)
  : result (option value) :=
  warn_missing video ["title"; "url"; "difficulty_level"] ;;;
  url <- getitem video "url" ;;
  accepted <- startswith_http url ;;
  if negb accepted then Ok None
  else
    no_duration <- py_not_in (VStr "duration") video ;;
    video <- (if no_duration then setitem video "duration" (VStr "Unknown")
              else Ok video) ;;
    no_description <- py_not_in (VStr "description") video ;;
    video <- (if no_description
              then setitem video "description" (VStr "Educational video content")
              else Ok video) ;;
    Ok (Some video).

Fixpoint videos_loop (i : nat) (videos validated_videos : list value)
  : list value :=
  match videos with
  | [] => validated_videos
  | video :: rest =>
      match validate_video i video with
      | Ok (Some video') =>
          videos_loop (S i) rest (validated_videos ++ [video'])
      | Ok None | Raise _ => videos_loop (S i) rest validated_videos
      end
  end.

Definition _validate_reference_videos (videos : value) : value :=
  match videos with
  | VList videos => VList (videos_loop 0 videos [])
  | _ => VList []
  end.


(** *** [_generate_metadata] *)

(** [difficulty_dist[difficulty] = difficulty_dist.get(difficulty, 0) + 1];
    the counts stored are integers. *)
Definition count_difficulty (difficulty : value) (difficulty_dist : dict)
  : result dict :=
  if hashable difficulty then
    match dict_get difficulty difficulty_dist with
    | None => Ok (dict_set difficulty (VInt (0 + 1)) difficulty_dist)
    | Some (VInt n) => Ok (dict_set difficulty (VInt (n + 1)) difficulty_dist)
    | Some _ => Raise TypeError
    end
  else Raise TypeError.

Fixpoint difficulty_loop (questions : list value) (difficulty_dist : dict)
  : result dict :=
  match questions with
  | [] => Ok difficulty_dist
  | question :: rest =>
      difficulty <- get question "difficulty" (VStr "unknown") ;;
      difficulty_dist <- count_difficulty difficulty difficulty_dist ;;
      difficulty_loop rest difficulty_dist
  end.

(** One element of the sequence given to [dict.update]: an iterable of
    exactly two items, the key and the value. *)
Definition pair_of (item : value) : result (value * value) :=
  items <- iter item ;;
  match items with
  | [k; v] => if hashable k then Ok (k, v) else Raise TypeError
  | _ => Raise ValueError
  end.

Fixpoint update_pairs (metadata : dict) (items : list value) : result dict :=
  match items with
  | [] => Ok metadata
  | item :: rest =>
      kv <- pair_of item ;;
      update_pairs (dict_set (fst kv) (snd kv) metadata) rest
  end.

(** [metadata.update(other)]: [other] is a mapping, or an iterable of
    key/value pairs. *)
Definition dict_update (metadata : dict) (other : value) : result dict :=
  match other with
  | VDict d => Ok (fold_left (fun m kv => dict_set (fst kv) (snd kv) m) d metadata)
  | _ => items <- iter other ;; update_pairs metadata items
  end.

Definition _generate_metadata (now : string) (mcq_data : value)
  : result value :=
  questions <- get mcq_data "questions" (VList []) ;;
  items <- iter questions ;;
  difficulty_dist <- difficulty_loop items [] ;;
  total_questions <- len questions ;;
  roadmap <- get mcq_data "roadmap" VNone ;;
  reference_videos <- get mcq_data "reference_videos" VNone ;;
  roadmap' <- get mcq_data "roadmap" (VList []) ;;
  roadmap_steps <- len roadmap' ;;
  reference_videos' <- get mcq_data "reference_videos" (VList []) ;;
  reference_video_count <- len reference_videos' ;;
  let metadata :=
    [(VStr "total_questions", VInt total_questions);
     (VStr "difficulty_distribution", VDict difficulty_dist);
     (VStr "has_roadmap", VBool (truthy roadmap));
     (VStr "has_reference_videos", VBool (truthy reference_videos));
     (VStr "roadmap_steps", VInt roadmap_steps);
     (VStr "reference_video_count", VInt reference_video_count);
     (VStr "validation_timestamp", VStr now)] in
  existing_metadata <- get mcq_data "metadata" (VDict []) ;;
  metadata <- dict_update metadata existing_metadata ;;
  Ok (VDict metadata).


(** *** [_validate_basic_structure] and [_parse_json_input] *)

Fixpoint check_required (now : string) (mcq_data : value)
  (fields : list string) : result value :=
  match fields with
  | [] => Ok mcq_data
  | field :: rest =>
      absent <- py_not_in (VStr field) mcq_data ;;
      if absent then
        if (field =? "timestamp")%string
        then mcq_data <- setitem mcq_data field (VStr now) ;;
             check_required now mcq_data rest
        else Raise (MCQValidationError (MissingRequiredField field))
      else check_required now mcq_data rest
  end.

Definition _validate_basic_structure (now : string) (mcq_data : value)
  : result value :=
  mcq_data <- check_required now mcq_data
                ["username"; "topic"; "timestamp"; "questions"] ;;
  questions <- getitem mcq_data "questions" ;;
  if negb (isinstance_list questions)
  then Raise (MCQValidationError QuestionsMustBeArray)
  else Ok mcq_data.

Definition fence_open : string := "```json".
Definition fence_close : string := "```".

Definition clean_json (mcq_json_str : string) : string :=
  let cleaned_json := strip mcq_json_str in
  let cleaned_json :=
    if startswith cleaned_json fence_open then drop 7 cleaned_json
    else cleaned_json in
  let cleaned_json :=
    if endswith cleaned_json fence_close then drop_last 3 cleaned_json
    else cleaned_json in
  strip cleaned_json.

Section Repair.

(** [json.loads]: [None] when it raises [json.JSONDecodeError]. *)
Variable json_loads : string -> option value.

(** The [.dict()] of the [MCQResponse] built from the items of [mcq_data]
    as keyword arguments: [None] when the model raises [ValidationError]. *)
Variable MCQResponse_dict : dict -> option value.

(** [datetime.now().isoformat()] *)
Variable now : string.

Definition _parse_json_input (mcq_json_str : value) : result value :=
  match mcq_json_str with
  | VDict _ => Ok mcq_json_str
  | VStr s =>
      match json_loads (clean_json s) with
      | Some v => Ok v
      | None => Raise JSONDecodeError
      end
  | _ => Raise (MCQValidationError InvalidInputType)
  end.

(** The statements of [validate_mcq_json] up to the final validation: the
    manually repaired mapping. *)
Definition repair_steps (mcq_json_str : value) : result value :=
  mcq_data <- _parse_json_input mcq_json_str ;;
  mcq_data <- _validate_basic_structure now mcq_data ;;
  questions <- get mcq_data "questions" (VList []) ;;
  questions <- _validate_questions questions ;;
  mcq_data <- setitem mcq_data "questions" questions ;;
  roadmap <- get mcq_data "roadmap" VNone ;;
  mcq_data <- (if truthy roadmap
               then roadmap <- getitem mcq_data "roadmap" ;;
                    setitem mcq_data "roadmap" (_validate_roadmap roadmap)
               else Ok mcq_data) ;;
  reference_videos <- get mcq_data "reference_videos" VNone ;;
  mcq_data <- (if truthy reference_videos
               then reference_videos <- getitem mcq_data "reference_videos" ;;
                    setitem mcq_data "reference_videos"
                      (_validate_reference_videos reference_videos)
               else Ok mcq_data) ;;
  metadata <- _generate_metadata now mcq_data ;;
  setitem mcq_data "metadata" metadata.

(** The final validation.  The keys of [mcq_data] are passed as keyword
    names and must be strings; a [ValidationError] gives back the repaired
    mapping. *)
Definition final_validation (mcq_data : value) : result value :=
  match mcq_data with
  | VDict d =>
      if forallb (fun kv => isinstance_str (fst kv)) d then
        match MCQResponse_dict d with
        | Some validated => Ok validated
        | None => Ok mcq_data
        end
      else Raise TypeError
  | _ => Raise TypeError
  end.

Definition validate_mcq_json (mcq_json_str : value) : result value :=
  match (mcq_data <- repair_steps mcq_json_str ;; final_validation mcq_data) with
  | Ok v => Ok v
  | Raise JSONDecodeError => Raise (MCQValidationError InvalidJSONFormat)
  | Raise e => Raise (MCQValidationError (ErrorValidatingMCQData e))
  end.

End Repair.

(** *** [validate_request_data] *)

(** [for field in required_fields: if field not in request_data or not
    request_data[field]: raise ...] *)
Fixpoint require_present (request_data : value) (fields : list string)
  : result unit :=
  match fields with
  | [] => Ok tt
  | field :: rest =>
      absent <- py_not_in (VStr field) request_data ;;
      empty <- (if absent then Ok true
                else v <- getitem request_data field ;; Ok (negb (truthy v))) ;;
      if empty
      then Raise (MCQValidationError (MissingOrEmptyRequiredField field))
      else require_present request_data rest
  end.

(** [username.replace("_", "").replace("-", "").isalnum()] *)
Definition username_isalnum (username : value) : result bool :=
  match username with
  | VStr s => Ok (isalnum (remove_char "-" (remove_char "_" s)))
  | _ => Raise AttributeError
  end.

(** [d.setdefault(k, v)], as the updated [d] *)
Definition setdefault (d : value) (k : string) (v : value) : result value :=
  match d with
  | VDict items => if dict_has (VStr k) items then Ok d else setitem d k v
  | _ => Raise AttributeError
  end.

(** [not isinstance(n, int) or n < 5 or n > 50] *)
Definition bad_question_count (question_count : value) : bool :=
  match question_count with
  | VInt n => (n <? 5) || (n >? 50)
  | VBool b => (Z.b2z b <? 5) || (Z.b2z b >? 50)
  | _ => true
  end.

Definition request_steps (request_data : value) : result value :=
  require_present request_data ["username"; "topic"] ;;;
  username <- getitem request_data "username" ;;
  ok <- username_isalnum username ;;
  if negb ok then Raise (MCQValidationError UsernameFormat)
  else
    request_data <- setdefault request_data "difficulty" (VStr "mixed") ;;
    request_data <- setdefault request_data "question_count" (VInt 20) ;;
    request_data <- setdefault request_data "include_roadmap" (VBool true) ;;
    request_data <- setdefault request_data "include_videos" (VBool true) ;;
    question_count <- get request_data "question_count" (VInt 20) ;;
    if bad_question_count question_count
    then setitem request_data "question_count" (VInt 20)
    else Ok request_data.

Definition validate_request_data (request_data : value) : result value :=
  match request_steps request_data with
  | Ok v => Ok v
  | Raise e => Raise (MCQValidationError (InvalidRequestData e))
  end.

End Validation.

(** ** [core/chain.py]

    The video search and the two plain functions of the generation chain.
    The search tool, [str.title] and [str()] belong to libraries and are
    parameters; the prompt and the call of the model are not embedded. *)

Module Chain.
Import Py.

(** [s.replace(c, r)] for a one-character [c] *)
Fixpoint replace_char (c : ascii) (r s : string) : string :=
  match s with
  | EmptyString => EmptyString
  | String a s' =>
      if Ascii.eqb a c then (r ++ replace_char c r s')%string
      else String a (replace_char c r s')
  end.

(** A method of [str] called on a value: no other value of a parsed JSON
    text has [title] or [replace]. *)
Definition str_method (method : string -> string) (v : value)
  : result string :=
  match v with
  | VStr s => Ok (method s)
  | _ => Raise AttributeError
  end.

(** [l[:count]] *)
Definition slice_to {A : Type} (count : Z) (l : list A) : list A :=
  if 0 <=? count then firstn (Z.to_nat count) l
  else firstn (List.length l - Z.to_nat (- count)) l.

Definition placeholder : string := "<<SEARCH_VIDEOS>>".

Section Search.

(** [str.title] *)
Variable title : string -> string.

(** [str(v)] *)
Variable py_str : value -> string.

(** [DuckDuckGoSearchRun()], which may raise, and the [run] of the tool it
    builds, which returns the text found or raises. *)
Variable DuckDuckGoSearchRun : result (string -> result string).

(** [f"{v}"] *)
Definition formatted (v : value) : string :=
  match v with
  | VStr s => s
  | _ => py_str v
  end.

Definition _get_fallback_videos (topic : value) : result value :=
  title1 <- str_method title topic ;;
  query1 <- str_method (replace_char " " "%20") topic ;;
  title2 <- str_method title topic ;;
  query2 <- str_method (replace_char " " "%20") topic ;;
  title3 <- str_method title topic ;;
  query3 <- str_method (replace_char " " "+") topic ;;
  Ok (VList
        [VDict [(VStr "title", VStr (title1 ++ " - Khan Academy"));
                (VStr "url",
                 VStr ("https://www.khanacademy.org/search?search_again=1&search_query="
                       ++ query1));
                (VStr "duration", VStr "Variable");
                (VStr "difficulty_level", VStr "basic");
                (VStr "description",
                 VStr ("Khan Academy resources for " ++ formatted topic))];
         VDict [(VStr "title", VStr (title2 ++ " - Coursera Courses"));
                (VStr "url",
                 VStr ("https://www.coursera.org/search?query=" ++ query2));
                (VStr "duration", VStr "Variable");
                (VStr "difficulty_level", VStr "intermediate");
                (VStr "description",
                 VStr ("Professional courses on " ++ formatted topic))];
         VDict [(VStr "title", VStr (title3 ++ " - YouTube Learning"));
                (VStr "url",
                 VStr ("https://www.youtube.com/results?search_query="
                       ++ query3 ++ "+tutorial"));
                (VStr "duration", VStr "Variable");
                (VStr "difficulty_level", VStr "mixed");
                (VStr "description",
                 VStr ("YouTube tutorials and educational content about "
                       ++ formatted topic))]]).

(** The dict appended for a query whose results mention a video site. *)
Definition found_video (topic : value) : result value :=
  title' <- str_method title topic ;;
  query <- str_method (replace_char " " "+") topic ;;
  Ok (VDict [(VStr "title", VStr (title' ++ " Educational Video"));
             (VStr "url",
              VStr ("https://www.youtube.com/results?search_query=" ++ query));
             (VStr "duration", VStr "30:00");
             (VStr "difficulty_level", VStr "intermediate");
             (VStr "description",
              VStr ("Educational content about " ++ formatted topic))]).

(** The body of the inner [try] for one query, as the updated [videos]. *)
Definition search_query (run : string -> result string) (topic : value)
  (videos : list value) (query : string) : result (list value) :=
  results <- run query ;;
  if is_substring "youtube.com" results || is_substring "coursera.org" results
  then video <- found_video topic ;; Ok (videos ++ [video])
  else Ok videos.

(** [for query in ...: try: ... except Exception: continue] *)
Fixpoint search_loop (run : string -> result string) (topic : value)
  (queries : list string) (videos : list value) : list value :=
  match queries with
  | [] => videos
  | query :: rest =>
      match search_query run topic videos query with
      | Ok videos' => search_loop run topic rest videos'
      | Raise _ => search_loop run topic rest videos
      end
  end.

Definition search_queries (topic : value) : list string :=
  [(formatted topic ++ " tutorial youtube")%string;
   (formatted topic ++ " course video")%string;
   ("learn " ++ formatted topic ++ " video tutorial")%string].

Definition _search_educational_videos (topic : value) (count : Z)
  : result value :=
  match (run <- DuckDuckGoSearchRun ;;
         let videos :=
           search_loop run topic (slice_to count (search_queries topic)) [] in
         if truthy (VList videos) then Ok (VList videos)
         else _get_fallback_videos topic) with
  | Ok videos => Ok videos
  | Raise _ => _get_fallback_videos topic
  end.

(** [post_process_output]; [output] is what the JSON parser built. *)
Definition post_process_output (output : value) : result value :=
  if isinstance_dict output then
    include_videos <- get output "include_videos" VNone ;;
    if truthy include_videos && is_substring placeholder (py_str output) then
      topic <- get output "topic" (VStr "") ;;
      videos <- _search_educational_videos topic 3 ;;
      present <- py_in (VStr "reference_videos") output ;;
      if present then setitem output "reference_videos" videos
      else Ok output
    else Ok output
  else Ok output.

End Search.

(** [process_chain_input] *)
Definition process_chain_input (inputs : value) : result value :=
  topic <- get inputs "topic" VNone ;;
  username <- get inputs "username" VNone ;;
  difficulty <- get inputs "difficulty" VNone ;;
  question_count <- get inputs "question_count" VNone ;;
  include_roadmap <- get inputs "include_roadmap" VNone ;;
  include_videos <- get inputs "include_videos" VNone ;;
  Ok (VDict [(VStr "topic", topic);
             (VStr "username", username);
             (VStr "difficulty", difficulty);
             (VStr "question_count", question_count);
             (VStr "include_roadmap", include_roadmap);
             (VStr "include_videos", include_videos)]).

End Chain.

(** ** [api/routes.py]: [generate_mcq]

    The endpoint as a function from the request to the response or the
    [HTTPException] it raises.  The chain, the clock and the schema model are
    parameters; a [detail] stands for the text of an error response. *)

Module Routes.
Import Py Validation.

(** A validated [MCQRequest]: its attributes. *)
Record MCQRequest : Type := {
  username : value;
  topic : value;
  difficulty : value;
  question_count : value;
  include_roadmap : value;
  include_videos : value
}.

(** [request.dict()] *)
Definition request_dict (request : MCQRequest) : dict :=
  [(VStr "username", username request);
   (VStr "topic", topic request);
   (VStr "difficulty", difficulty request);
   (VStr "question_count", question_count request);
   (VStr "include_roadmap", include_roadmap request);
   (VStr "include_videos", include_videos request)].

(** The texts of the error responses: [str(e)] of the request's
    [MCQValidationError]; the time-out; "Error processing generated
    content: " followed by [str(e)]; "Error processing generated content";
    "An unexpected error occurred during MCQ generation". *)
Inductive detail : Type :=
| RequestInvalid (m : message)
| GenerationTimedOut
| ErrorProcessing (m : message)
| ErrorProcessingContent
| UnexpectedError.

Inductive response : Type :=
| Returned (body : value)
| HTTPException (status_code : Z) (text : detail).

(** What awaiting [chain.invoke] within the time limit gives. *)
Inductive outcome : Type :=
| Result (raw_result : value)
| TimeoutError
| Failure.

Section GenerateMCQ.

Variable json_loads : string -> option value.

(** The [.dict()] of [MCQResponse] built from the items of a mapping,
    [None] when the model raises [ValidationError]; the endpoint returns
    the model it builds, which is rendered the same way. *)
Variable MCQResponse_dict : dict -> option value.

(** [datetime.now().isoformat()] when the request arrives, and during the
    validation. *)
Variable request_timestamp : string.
Variable now : string.

(** [round(generation_time, 2)] *)
Variable generation_time_seconds : Q.

(** [create_mcq_chain()], which may raise, and the awaited [invoke] of the
    chain it builds. *)
Variable create_mcq_chain : result (value -> outcome).

(** [MCQResponse] applied to the items of [mcq_data] as keyword arguments,
    which must be strings. *)
Definition build_response (mcq_data : value) : option value :=
  match mcq_data with
  | VDict d =>
      if forallb (fun kv => isinstance_str (fst kv)) d
      then MCQResponse_dict d else None
  | _ => None
  end.

(** The statements of the inner [try] up to the construction of the
    response: the validated mapping with its metadata completed. *)
Definition complete_metadata (request : MCQRequest) (raw_result : value)
  : result value :=
  let generation_metadata :=
    VDict [(VStr "request_timestamp", VStr request_timestamp);
           (VStr "username", username request);
           (VStr "topic", topic request)] in
  mcq_data <- validate_mcq_json json_loads MCQResponse_dict now raw_result ;;
  metadata <- getitem mcq_data "metadata" ;;
  metadata <- setitem metadata "generation_time_seconds"
                (VFloat generation_time_seconds) ;;
  metadata <- match metadata with
              | VDict m => m' <- dict_update m generation_metadata ;;
                           Ok (VDict m')
              | _ => Raise AttributeError
              end ;;
  mcq_data <- setitem mcq_data "metadata" metadata ;;
  questions <- get mcq_data "questions" (VList []) ;;
  len questions ;;;
  roadmap <- get mcq_data "roadmap" (VList []) ;;
  len roadmap ;;;
  reference_videos <- get mcq_data "reference_videos" (VList []) ;;
  len reference_videos ;;;
  Ok mcq_data.

Definition generate_mcq (request : MCQRequest) : response :=
  match validate_request_data (VDict (request_dict request)) with
  | Raise (MCQValidationError m) => HTTPException 400 (RequestInvalid m)
  | Raise _ => HTTPException 500 UnexpectedError
  | Ok validated_request =>
      match create_mcq_chain with
      | Raise _ => HTTPException 500 UnexpectedError
      | Ok invoke =>
          match invoke validated_request with
          | TimeoutError => HTTPException 504 GenerationTimedOut
          | Failure => HTTPException 500 UnexpectedError
          | Result raw_result =>
              match complete_metadata request raw_result with
              | Raise (MCQValidationError m) =>
                  HTTPException 500 (ErrorProcessing m)
              | Raise _ => HTTPException 500 ErrorProcessingContent
              | Ok mcq_data =>
                  match build_response mcq_data with
                  | Some body => Returned body
                  | None => HTTPException 500 ErrorProcessingContent
                  end
              end
          end
      end
  end.

End GenerateMCQ.

End Routes.

(** ** Properties *)

Import Py Models Validation.

(** The terms in which the properties are stated, and the inputs they are
    tried on. *)

(** *** Terms for: Option repair *)

(** The test the source applies to an option: [opt.get("is_correct", False)]
    is true. *)
Definition marked_correct (opt : value) : bool :=
  match get opt "is_correct" (VBool false) with
  | Ok flag => truthy flag
  | Raise _ => false
  end.

Definition correct_count (options : list value) : nat :=
  List.length (filter marked_correct options).

(** The option carries the literal [True]. *)
Definition marked_true (opt : value) : bool :=
  match get opt "is_correct" VNone with
  | Ok (VBool true) => true
  | _ => false
  end.

(** The option's flag, when it has one, is a boolean. *)
Definition boolean_flag (opt : value) : bool :=
  match get opt "is_correct" (VBool false) with
  | Ok (VBool _) => true
  | _ => false
  end.

(** The first four raw options, then the placeholders ["Option N"] for the
    positions that are missing. *)
Definition padded_or_truncated (raw : list value) : list value :=
  firstn 4 raw
  ++ map synthetic_option (seq (List.length raw + 1) (4 - List.length raw)).

(** [o] is [p], or [p] with its flag overwritten by a boolean. *)
Definition same_but_flag (o p : value) : Prop :=
  o = p \/ exists b, setitem p "is_correct" (VBool b) = Ok o.

Definition set_flag (b : bool) (opt : value) : value :=
  match opt with
  | VDict d => VDict (dict_set (VStr "is_correct") (VBool b) d)
  | _ => opt
  end.

Definition is_dict (v : value) : Prop := exists d, v = VDict d.

(** *** Terms for: Question repair *)

(** The question with its [question_id] filled in. *)
Definition with_id (i : nat) (d : dict) : dict :=
  if dict_has (VStr "question_id") d then d
  else dict_set (VStr "question_id") (position i) d.

(** The question with its [topic_area] filled in. *)
Definition with_area (d : dict) : dict :=
  if dict_has (VStr "topic_area") d then d
  else dict_set (VStr "topic_area") (VStr "General") d.

Definition or_default (o : option value) (default : value) : value :=
  match o with Some v => v | None => default end.

(** *** Terms for: The option invariant *)

Definition scenario_question : value :=
  VDict [(VStr "question_text", VStr "Q?");
         (VStr "explanation", VStr "E");
         (VStr "options",
          VList [VDict [(VStr "option", VStr "A"); (VStr "is_correct", VBool true)];
                 VDict [(VStr "option", VStr "B"); (VStr "is_correct", VBool true)]]);
         (VStr "difficulty", VStr "basic")].

Definition scenario_question_repaired : value :=
  VDict [(VStr "question_text", VStr "Q?");
         (VStr "explanation", VStr "E");
         (VStr "options",
          VList [VDict [(VStr "option", VStr "A"); (VStr "is_correct", VBool true)];
                 VDict [(VStr "option", VStr "B"); (VStr "is_correct", VBool false)];
                 VDict [(VStr "option", VStr "Option 3");
                        (VStr "is_correct", VBool false)];
                 VDict [(VStr "option", VStr "Option 4");
                        (VStr "is_correct", VBool false)]]);
         (VStr "difficulty", VStr "basic");
         (VStr "question_id", VInt 1);
         (VStr "topic_area", VStr "General")].

(** *** Terms for: Which option is kept *)

Definition mcq_option (text : string) (is_correct : bool) : value :=
  VDict [(VStr "option", VStr text); (VStr "is_correct", VBool is_correct)].

(** [opt.get("option")] *)
Definition option_text (opt : value) : value :=
  match get opt "option" VNone with
  | Ok v => v
  | Raise _ => VNone
  end.

(** *** Terms for: Reference videos *)

(** The video with [duration] and [description] filled in. *)
Definition with_video_defaults (d : dict) : dict :=
  let d :=
    if dict_has (VStr "duration") d then d
    else dict_set (VStr "duration") (VStr "Unknown") d in
  if dict_has (VStr "description") d then d
  else dict_set (VStr "description") (VStr "Educational video content") d.

(** *** Terms for: The drop policy for questions *)

(** The questions whose own repair succeeds, repaired, in their order; [i] is
    the position of the first one in the raw list. *)
Fixpoint survivors (i : nat) (questions : list value) : list value :=
  match questions with
  | [] => []
  | question :: rest =>
      match validate_question i question with
      | Ok question' => question' :: survivors (S i) rest
      | Raise _ => survivors (S i) rest
      end
  end.

Definition question_without_explanation : value :=
  VDict [(VStr "question_text", VStr "Q?");
         (VStr "options", VList []);
         (VStr "difficulty", VStr "basic")].

(** *** Terms for: Roadmap steps *)

Definition with_step_number (i : nat) (d : dict) : dict :=
  if dict_has (VStr "step_number") d then d
  else dict_set (VStr "step_number") (position i) d.

Definition with_prerequisites (d : dict) : dict :=
  match dict_get (VStr "prerequisites") d with
  | Some (VList _) => d
  | _ => dict_set (VStr "prerequisites") (VList []) d
  end.

Definition bare_steps : list value :=
  [VDict [(VStr "title", VStr "Basics")];
   VDict [(VStr "step_number", VInt 7); (VStr "prerequisites", VStr "none")]].

(** *** Terms for: Request normalization *)

(** [field in request_data and request_data[field]] *)
Definition filled (d : dict) (field : string) : bool :=
  truthy (or_default (dict_get (VStr field) d) VNone).

Definition with_default (k : string) (v : value) (d : dict) : dict :=
  if dict_has (VStr k) d then d else dict_set (VStr k) v d.

(** The request with its four defaults filled in. *)
Definition with_defaults (d : dict) : dict :=
  with_default "include_videos" (VBool true)
    (with_default "include_roadmap" (VBool true)
       (with_default "question_count" (VInt 20)
          (with_default "difficulty" (VStr "mixed") d))).

(** The request as it is returned. *)
Definition normalized (d : dict) : dict :=
  if bad_question_count
       (or_default (dict_get (VStr "question_count") (with_defaults d))
          (VInt 20))
  then dict_set (VStr "question_count") (VInt 20) (with_defaults d)
  else with_defaults d.

(** The name without its underscores and hyphens *)
Definition bare_name (username : string) : string :=
  remove_char "-" (remove_char "_" username).

Definition request_for_1000 : dict :=
  [(VStr "username", VStr "john_doe"); (VStr "topic", VStr "Python");
   (VStr "question_count", VInt 1000)].

(** *** Terms for: Metadata *)

(** [question.get("difficulty", "unknown")] *)
Definition difficulty_of (question : value) : value :=
  match get question "difficulty" (VStr "unknown") with
  | Ok v => v
  | Raise _ => VNone
  end.

(** A question of a repaired payload whose difficulty can be a key. *)
Definition countable (question : value) : Prop :=
  is_dict question /\ hashable (difficulty_of question) = true.

(** The number of questions whose difficulty is the string [s]. *)
Definition occurrences (s : string) (questions : list value) : nat :=
  List.length (filter (fun q => py_eq (difficulty_of q) (VStr s)) questions).

(** A distribution holds integers. *)
Definition counts_only (dist : dict) : Prop :=
  Forall (fun kv => exists n, snd kv = VInt n) dist.

(** The bucket of [s] after [n] more questions of difficulty [s]. *)
Definition bucket_plus (bucket : option value) (n : nat) : option value :=
  match n with
  | O => bucket
  | _ => Some (VInt (match bucket with
                     | Some (VInt z) => z
                     | _ => 0
                     end + Z.of_nat n))
  end.

(** A dict as [json.loads] builds it: string keys, each once. *)
Definition json_object (d : dict) : Prop :=
  Forall (fun kv => isinstance_str (fst kv) = true) d /\ NoDup (map fst d).

(** The dict literal of [_generate_metadata]. *)
Definition computed_metadata (now : string) (total_questions : Z)
  (difficulty_dist : dict) (roadmap reference_videos : value)
  (roadmap_steps reference_video_count : Z) : dict :=
  [(VStr "total_questions", VInt total_questions);
   (VStr "difficulty_distribution", VDict difficulty_dist);
   (VStr "has_roadmap", VBool (truthy roadmap));
   (VStr "has_reference_videos", VBool (truthy reference_videos));
   (VStr "roadmap_steps", VInt roadmap_steps);
   (VStr "reference_video_count", VInt reference_video_count);
   (VStr "validation_timestamp", VStr now)].

Definition counted_questions : list value :=
  [VDict [(VStr "difficulty", VStr "basic")];
   VDict [(VStr "difficulty", VStr "expert")];
   VDict [(VStr "difficulty", VStr "basic")]].

Definition supplied_metadata : dict :=
  [(VStr "generation_time_seconds", VInt 0);
   (VStr "total_questions", VInt 20)].

Definition counted_payload : dict :=
  [(VStr "questions", VList counted_questions);
   (VStr "metadata", VDict supplied_metadata)].

(** *** Terms for: The whole repair *)

Definition valid_question : value :=
  VDict [(VStr "question_id", VInt 1);
         (VStr "question_text", VStr "What is the output of print(type([]))?");
         (VStr "explanation",
          VStr "The type() function returns the class type of an object.");
         (VStr "options",
          VList [mcq_option "<class 'list'>" true;
                 mcq_option "<class 'array'>" false;
                 mcq_option "<class 'tuple'>" false;
                 mcq_option "<class 'dict'>" false]);
         (VStr "difficulty", VStr "basic");
         (VStr "topic_area", VStr "Data Types")].

(** The payload the prompt asks for when no roadmap is wanted:
    ["roadmap": null]. *)
Definition payload_with_null_roadmap : dict :=
  [(VStr "username", VStr "john_doe");
   (VStr "topic", VStr "Python Programming Basics");
   (VStr "timestamp", VStr "2024-01-15T10:30:00.123456");
   (VStr "questions", VList [valid_question]);
   (VStr "roadmap", VNone)].

(** The same payload without the [roadmap] key. *)
Definition payload_without_roadmap : dict :=
  [(VStr "username", VStr "john_doe");
   (VStr "topic", VStr "Python Programming Basics");
   (VStr "timestamp", VStr "2024-01-15T10:30:00.123456");
   (VStr "questions", VList [valid_question])].

(** The payload of the end-to-end scenario. *)
Definition scenario_payload : dict :=
  [(VStr "username", VStr "a"); (VStr "topic", VStr "b");
   (VStr "questions", VList [scenario_question])].

(** *** Terms for: Repairing what needs no repair *)

(** A question that carries every key the repair would add, with four
    options of which one is marked correct. *)
Definition settled_question (q : value) : bool :=
  match q with
  | VDict d =>
      dict_has (VStr "question_id") d
      && forallb (fun f => dict_has (VStr f) d) question_required_fields
      && dict_has (VStr "topic_area") d
      && hashable (difficulty_of q)
      && match dict_get (VStr "options") d with
         | Some (VList options) =>
             (List.length options =? 4)%nat
             && forallb isinstance_dict options
             && (correct_count options =? 1)%nat
         | _ => false
         end
  | _ => false
  end.

Definition settled_step (step : value) : bool :=
  match step with
  | VDict d =>
      dict_has (VStr "step_number") d
      && match dict_get (VStr "prerequisites") d with
         | Some (VList _) => true
         | _ => false
         end
  | _ => false
  end.

Definition settled_video (video : value) : bool :=
  match video with
  | VDict d =>
      match dict_get (VStr "url") d with
      | Some (VStr url) => prefix "http://" url || prefix "https://" url
      | _ => false
      end
      && dict_has (VStr "duration") d
      && dict_has (VStr "description") d
  | _ => false
  end.

(** An optional list: absent, or a list of settled items. *)
Definition settled_list (settled : value -> bool) (o : option value) : bool :=
  match o with
  | None => true
  | Some (VList l) => forallb settled l
  | Some _ => false
  end.

Definition settled_response (d : dict) : bool :=
  forallb (fun kv => isinstance_str (fst kv)) d
  && forallb (fun f => dict_has (VStr f) d) ["username"; "topic"; "timestamp"]
  && match dict_get (VStr "questions") d with
     | Some (VList (q :: questions)) => forallb settled_question (q :: questions)
     | _ => false
     end
  && settled_list settled_step (dict_get (VStr "roadmap") d)
  && settled_list settled_video (dict_get (VStr "reference_videos") d)
  && match dict_get (VStr "metadata") d with
     | None | Some (VDict _) => true
     | Some _ => false
     end.

Definition settled_payload : dict :=
  [(VStr "username", VStr "john_doe");
   (VStr "topic", VStr "Python Programming Basics");
   (VStr "timestamp", VStr "2024-01-15T10:30:00.123456");
   (VStr "questions", VList [valid_question]);
   (VStr "roadmap",
    VList [VDict [(VStr "step_number", VInt 1);
                  (VStr "title", VStr "Python Basics");
                  (VStr "description", VStr "Learn Python syntax");
                  (VStr "estimated_duration", VStr "2-3 weeks");
                  (VStr "prerequisites", VList [])]]);
   (VStr "metadata", VDict [(VStr "generation_time_seconds", VInt 2)])].

(** A valid question without the optional [topic_area]. *)
Definition question_without_area : value :=
  VDict [(VStr "question_id", VInt 1);
         (VStr "question_text", VStr "What is the output of print(type([]))?");
         (VStr "explanation",
          VStr "The type() function returns the class type of an object.");
         (VStr "options",
          VList [mcq_option "<class 'list'>" true;
                 mcq_option "<class 'array'>" false;
                 mcq_option "<class 'tuple'>" false;
                 mcq_option "<class 'dict'>" false]);
         (VStr "difficulty", VStr "basic")].

Definition response_without_area : dict :=
  [(VStr "username", VStr "john_doe");
   (VStr "topic", VStr "Python Programming Basics");
   (VStr "timestamp", VStr "2024-01-15T10:30:00.123456");
   (VStr "questions", VList [question_without_area]);
   (VStr "roadmap", VList []);
   (VStr "reference_videos", VList []);
   (VStr "metadata", VDict [])].

(** *** Terms for: The top-level structure *)

(** The payload with its [timestamp] filled in. *)
Definition with_timestamp (now : string) (d : dict) : dict :=
  if dict_has (VStr "timestamp") d then d
  else dict_set (VStr "timestamp") (VStr now) d.

(** A computation that does not raise [json.JSONDecodeError]. *)
Definition quiet {A : Type} (m : result A) : Prop := m <> Raise JSONDecodeError.

(** *** Terms for: What the repaired items look like *)

(** A question as the repair leaves it: every key the repair fills, and four
    options, all objects, of which one is marked correct. *)
Definition repaired_question (q : value) : bool :=
  match q with
  | VDict d =>
      dict_has (VStr "question_id") d
      && forallb (fun f => dict_has (VStr f) d) question_required_fields
      && dict_has (VStr "topic_area") d
      && match dict_get (VStr "options") d with
         | Some (VList options) =>
             (List.length options =? 4)%nat
             && forallb isinstance_dict options
             && (correct_count options =? 1)%nat
         | _ => false
         end
  | _ => false
  end.

(** The steps [_validate_roadmap] keeps, from position [i] on: the objects,
    each with its number and its prerequisites filled in. *)
Fixpoint repaired_steps (i : nat) (steps : list value) : list value :=
  match steps with
  | [] => []
  | VDict d :: rest =>
      VDict (with_prerequisites (with_step_number i d))
      :: repaired_steps (S i) rest
  | _ :: rest => repaired_steps (S i) rest
  end.

(** What [_validate_reference_videos] makes of one entry: an object whose
    [url] is a string that starts with [http://] or [https://] is kept, with
    [duration] and [description] filled in. *)
Definition kept_video (video : value) : option value :=
  match video with
  | VDict d =>
      match dict_get (VStr "url") d with
      | Some (VStr url) =>
          if prefix "http://" url || prefix "https://" url
          then Some (VDict (with_video_defaults d))
          else None
      | _ => None
      end
  | _ => None
  end.

Fixpoint kept_videos (videos : list value) : list value :=
  match videos with
  | [] => []
  | video :: rest =>
      match kept_video video with
      | Some video' => video' :: kept_videos rest
      | None => kept_videos rest
      end
  end.

Definition mixed_questions : list value :=
  [question_without_explanation; scenario_question].

(** The fields of the scenario's question, and what the question becomes as
    the second of a list. *)
Definition scenario_fields : dict :=
  [(VStr "question_text", VStr "Q?");
   (VStr "explanation", VStr "E");
   (VStr "options",
    VList [VDict [(VStr "option", VStr "A"); (VStr "is_correct", VBool true)];
           VDict [(VStr "option", VStr "B"); (VStr "is_correct", VBool true)]]);
   (VStr "difficulty", VStr "basic")].

Definition scenario_question_repaired_second : value :=
  VDict [(VStr "question_text", VStr "Q?");
         (VStr "explanation", VStr "E");
         (VStr "options",
          VList [VDict [(VStr "option", VStr "A"); (VStr "is_correct", VBool true)];
                 VDict [(VStr "option", VStr "B"); (VStr "is_correct", VBool false)];
                 VDict [(VStr "option", VStr "Option 3");
                        (VStr "is_correct", VBool false)];
                 VDict [(VStr "option", VStr "Option 4");
                        (VStr "is_correct", VBool false)]]);
         (VStr "difficulty", VStr "basic");
         (VStr "question_id", VInt 2);
         (VStr "topic_area", VStr "General")].

(** *** Terms for: More on the metadata *)

(** The sum of the counts of a distribution. *)
Fixpoint dist_total (dist : dict) : Z :=
  match dist with
  | [] => 0
  | (_, VInt n) :: rest => n + dist_total rest
  | _ :: rest => dist_total rest
  end.

(** No key of [d] equals [k]. *)
Definition fresh_key (k : value) (d : dict) : bool :=
  forallb (fun kv => negb (py_eq (fst kv) k)) d.

(** No key of [keys] equals a key of [seen] or a key before it. *)
Fixpoint unique_from (seen keys : list value) : bool :=
  match keys with
  | [] => true
  | k :: rest =>
      forallb (fun k' => negb (py_eq k' k)) seen
      && unique_from (seen ++ [k]) rest
  end.

(** [m[k] = v] for an item [(k, v)], as [dict.update] does for each item of a
    mapping. *)
Definition store_item (m : dict) (kv : value * value) : dict :=
  dict_set (fst kv) (snd kv) m.

(** The keys of the dict literal of [_generate_metadata]. *)
Definition computed_keys : list value :=
  [VStr "total_questions"; VStr "difficulty_distribution";
   VStr "has_roadmap"; VStr "has_reference_videos"; VStr "roadmap_steps";
   VStr "reference_video_count"; VStr "validation_timestamp"].

(** A dict whose keys are each there once and begin with the computed
    ones. *)
Definition metadata_shaped (metadata : dict) : Prop :=
  unique_from [] (map fst metadata) = true
  /\ firstn 7 (map fst metadata) = computed_keys.

(** *** Terms for: The repaired payload *)

(** [if mcq_data.get(k): mcq_data[k] = f(mcq_data[k])] *)
Definition repaired_optional (k : string) (f : value -> value) (d : dict)
  : dict :=
  match dict_get (VStr k) d with
  | Some v => if truthy v then dict_set (VStr k) (f v) d else d
  | None => d
  end.

(** The payload [d] with its timestamp filled in, the questions [kept] in
    place of its own, and its roadmap and videos repaired: what the metadata
    is computed from. *)
Definition repaired_body (now : string) (d : dict) (kept : list value)
  : dict :=
  repaired_optional "reference_videos" _validate_reference_videos
    (repaired_optional "roadmap" _validate_roadmap
       (dict_set (VStr "questions") (VList kept) (with_timestamp now d))).

(** An optional list after the repair: absent, a list of settled items, or
    an empty string or mapping, which the repair leaves in place. *)
Definition sized_or_settled (settled : value -> bool) (o : option value)
  : bool :=
  match o with
  | None => true
  | Some (VList l) => forallb settled l
  | Some (VStr s) => (s =? "")%string
  | Some (VDict d) => match d with [] => true | _ => false end
  | Some _ => false
  end.

(** The mapping the repair hands to the final validation. *)
Definition repaired_payload (d : dict) : bool :=
  forallb (fun f => dict_has (VStr f) d) ["username"; "topic"; "timestamp"]
  && match dict_get (VStr "questions") d with
     | Some (VList (q :: questions)) => forallb settled_question (q :: questions)
     | _ => false
     end
  && sized_or_settled settled_step (dict_get (VStr "roadmap") d)
  && sized_or_settled settled_video (dict_get (VStr "reference_videos") d)
  && match dict_get (VStr "metadata") d with
     | Some (VDict metadata) =>
         forallb (fun k => dict_has k metadata) computed_keys
     | _ => false
     end.

(** [len(v) == 0]: what a false [roadmap] or [reference_videos] has to be
    for its length to be taken. *)
Definition empty_sized (v : value) : bool :=
  match v with
  | VList [] | VDict [] => true
  | VStr s => (s =? "")%string
  | _ => false
  end.

Definition payload_with_empty_roadmap : dict :=
  [(VStr "username", VStr "john_doe");
   (VStr "topic", VStr "Python Programming Basics");
   (VStr "timestamp", VStr "2024-01-15T10:30:00.123456");
   (VStr "questions", VList [valid_question]);
   (VStr "roadmap", VList [])].

(** The payload of the scenario with the placeholder of the prompt left
    under [reference_videos]. *)
Definition placeholder_payload : dict :=
  [(VStr "username", VStr "a"); (VStr "topic", VStr "b");
   (VStr "questions", VList [scenario_question]);
   (VStr "reference_videos", VStr "<<SEARCH_VIDEOS>>")].

(** *** Terms for: More on the request *)

Definition request_with_odd_difficulty : dict :=
  [(VStr "username", VStr "john_doe"); (VStr "topic", VStr "Python");
   (VStr "difficulty", VInt 7)].

(** *** Terms for: The video search *)

(** The entry the search appends for a topic [s]. *)
Definition search_entry (title : string -> string) (s : string) : value :=
  VDict [(VStr "title", VStr (title s ++ " Educational Video"));
         (VStr "url",
          VStr ("https://www.youtube.com/results?search_query="
                ++ Chain.replace_char " " "+" s));
         (VStr "duration", VStr "30:00");
         (VStr "difficulty_level", VStr "intermediate");
         (VStr "description", VStr ("Educational content about " ++ s))].

(** A search tool that finds a video site for every query. *)
Definition search_that_finds : result (string -> result string) :=
  Ok (fun _ => Ok "https://www.youtube.com/watch").

(** A stand-in for [str.title] and for [str()] where their results do not
    matter. *)
Definition as_is (s : string) : string := s.

Definition no_text (v : value) : string := "".

(** The payload of the scenario as the prompt asks for it, and with
    [include_videos] added. *)
Definition payload_wanting_videos : dict :=
  [(VStr "username", VStr "a"); (VStr "topic", VStr "b");
   (VStr "questions", VList [scenario_question]);
   (VStr "reference_videos", VStr "<<SEARCH_VIDEOS>>");
   (VStr "include_videos", VBool true)].

(** *** Terms for: The endpoint *)

Definition scenario_request : Routes.MCQRequest :=
  {| Routes.username := VStr "john_doe";
     Routes.topic := VStr "Python Programming Basics";
     Routes.difficulty := VStr "mixed";
     Routes.question_count := VInt 20;
     Routes.include_roadmap := VBool false;
     Routes.include_videos := VBool true |}.

(** A request whose name matches the pattern of the request model and has
    no letter or digit. *)
Definition underscore_request : Routes.MCQRequest :=
  {| Routes.username := VStr "___";
     Routes.topic := VStr "Python Programming Basics";
     Routes.difficulty := VStr "mixed";
     Routes.question_count := VInt 20;
     Routes.include_roadmap := VBool true;
     Routes.include_videos := VBool true |}.

(** A chain that returns [raw_result] whatever it is given. *)
Definition chain_returning (raw_result : value) (inputs : value)
  : Routes.outcome :=
  Routes.Result raw_result.

(** The payload with both optional lists, empty. *)
Definition payload_with_empty_lists : dict :=
  [(VStr "username", VStr "john_doe");
   (VStr "topic", VStr "Python Programming Basics");
   (VStr "timestamp", VStr "2024-01-15T10:30:00.123456");
   (VStr "questions", VList [valid_question]);
   (VStr "roadmap", VList []);
   (VStr "reference_videos", VList [])].

(** Two facts about the schema model that the endpoint relies on.  The
    [.dict()] of an accepted mapping is a mapping that holds [None] under an
    optional list the mapping did not have. *)
Definition renders_absent_as_null (MCQResponse_dict : dict -> option value)
  : Prop :=
  forall (d : dict) (rendered : value) (k : string),
    MCQResponse_dict d = Some rendered ->
    k = "roadmap" \/ k = "reference_videos" ->
    dict_get (VStr k) d = None ->
    exists r, rendered = VDict r /\ dict_get (VStr k) r = Some VNone.

(** A mapping that the model rejects is rejected again when its metadata
    has been given more keys: [metadata] is a [Dict[str, Any]]. *)
Definition rejection_survives_metadata
  (MCQResponse_dict : dict -> option value) : Prop :=
  forall d metadata metadata' : dict,
    MCQResponse_dict d = None ->
    dict_get (VStr "metadata") d = Some (VDict metadata) ->
    incl (map fst metadata) (map fst metadata') ->
    MCQResponse_dict (dict_set (VStr "metadata") (VDict metadata') d) = None.

(** The lemmas and the theorems. *)

(** *** Dictionaries with string keys *)

Section DictFacts.

Lemma py_eq_str_r (a : value) (s : string) :
  py_eq a (VStr s) = true <-> a = VStr s.
Proof.
  destruct a; simpl; try (split; [discriminate | intros H; discriminate H]).
  rewrite String.eqb_eq. split; [intros -> | intros [= ->]]; reflexivity.
Qed.

Lemma py_eq_str_refl (s : string) : py_eq (VStr s) (VStr s) = true.
Proof. simpl. apply String.eqb_refl. Qed.

Lemma py_eq_str_neq (a : value) (s t : string) :
  s <> t -> py_eq a (VStr s) = true -> py_eq a (VStr t) = false.
Proof.
  intros Hne Ha. apply py_eq_str_r in Ha. subst a. simpl.
  now apply String.eqb_neq.
Qed.

Lemma dict_get_set_eq (k : string) (v : value) (d : dict) :
  dict_get (VStr k) (dict_set (VStr k) v d) = Some v.
Proof.
  induction d as [|[k' v'] d IH]; simpl.
  - now rewrite String.eqb_refl.
  - destruct (py_eq k' (VStr k)) eqn:E; simpl; rewrite E; auto.
Qed.

Lemma dict_get_set_neq (k k' : string) (v : value) (d : dict) :
  k <> k' ->
  dict_get (VStr k) (dict_set (VStr k') v d) = dict_get (VStr k) d.
Proof.
  intros Hne. induction d as [|[k0 v0] d IH]; simpl.
  - apply String.eqb_neq in Hne. rewrite String.eqb_sym. now rewrite Hne.
  - destruct (py_eq k0 (VStr k')) eqn:E; simpl.
    + rewrite (py_eq_str_neq k0 k' k); auto.
    + now rewrite IH.
Qed.

Lemma dict_set_same (k : string) (v : value) (d : dict) :
  dict_get (VStr k) d = Some v -> dict_set (VStr k) v d = d.
Proof.
  induction d as [|[k' v'] d IH]; simpl; [discriminate|].
  destruct (py_eq k' (VStr k)); [intros [= ->]; reflexivity|].
  intros H. now rewrite IH.
Qed.

Lemma dict_has_set_eq (k : string) (v : value) (d : dict) :
  dict_has (VStr k) (dict_set (VStr k) v d) = true.
Proof. unfold dict_has. now rewrite dict_get_set_eq. Qed.

Lemma dict_has_set_neq (k k' : string) (v : value) (d : dict) :
  k <> k' -> dict_has (VStr k) (dict_set (VStr k') v d) = dict_has (VStr k) d.
Proof. intros H. unfold dict_has. now rewrite dict_get_set_neq. Qed.

End DictFacts.

(** *** Results *)

Section ResultFacts.

Lemma bind_ok {A B : Type} (m : result A) (k : A -> result B) (b : B) :
  bind m k = Ok b -> exists a, m = Ok a /\ k a = Ok b.
Proof. destruct m as [a|e]; simpl; [eauto | discriminate]. Qed.

Lemma get_ok (c : value) (k : string) (default v : value) :
  get c k default = Ok v -> exists d, c = VDict d.
Proof. destruct c; simpl; try discriminate. eauto. Qed.

Lemma setitem_ok (c : value) (k : string) (v c' : value) :
  setitem c k v = Ok c' ->
  exists d, c = VDict d /\ c' = VDict (dict_set (VStr k) v d).
Proof. destruct c; simpl; try discriminate. intros [= <-]. eauto. Qed.

End ResultFacts.

Ltac bind_inv H :=
  let a := fresh "a" in
  let Ha := fresh "H" a in
  apply bind_ok in H; destruct H as (a & Ha & H).

(** *** Option repair *)

Section Options.

Lemma pad_or_truncate_shape (raw : list value) :
  (if (List.length raw =? 4)%nat then raw
   else if (List.length raw <? 4)%nat then pad_options 4 raw
        else firstn 4 raw)
  = padded_or_truncated raw.
Proof.
  unfold padded_or_truncated.
  destruct raw as [|a [|b [|c [|d [|e l]]]]]; reflexivity.
Qed.

Lemma padded_or_truncated_length (raw : list value) :
  List.length (padded_or_truncated raw) = 4%nat.
Proof.
  unfold padded_or_truncated.
  destruct raw as [|a [|b [|c [|d [|e l]]]]]; reflexivity.
Qed.

Lemma dict_set_set (k : string) (v1 v2 : value) (d : dict) :
  dict_set (VStr k) v2 (dict_set (VStr k) v1 d) = dict_set (VStr k) v2 d.
Proof.
  induction d as [|[k' v'] d IH]; simpl.
  - now rewrite String.eqb_refl.
  - destruct (py_eq k' (VStr k)) eqn:E; simpl; rewrite E; [reflexivity|].
    now rewrite IH.
Qed.

Lemma marked_correct_set_flag (b : bool) (d : dict) :
  marked_correct (set_flag b (VDict d)) = b.
Proof.
  unfold marked_correct. simpl. now rewrite dict_get_set_eq.
Qed.

Lemma marked_true_set_flag (b : bool) (d : dict) :
  marked_true (set_flag b (VDict d)) = b.
Proof.
  unfold marked_true. simpl. rewrite dict_get_set_eq. now destruct b.
Qed.

Lemma correct_options_of_ok (options correct : list value) :
  correct_options_of options = Ok correct ->
  Forall is_dict options /\ correct = filter marked_correct options.
Proof.
  revert correct. induction options as [|opt rest IH]; simpl; intros correct H.
  - injection H as <-. split; constructor.
  - bind_inv H. bind_inv H. injection H as <-.
    destruct (IH _ Ha0) as [Hd ->].
    assert (E : marked_correct opt = truthy a)
      by (unfold marked_correct; now rewrite Ha).
    destruct (get_ok _ _ _ _ Ha) as [d ->].
    split; [constructor; [now exists d | assumption]|].
    now rewrite E.
Qed.

Lemma correct_options_of_dicts (options : list value) :
  Forall is_dict options ->
  correct_options_of options = Ok (filter marked_correct options).
Proof.
  induction 1 as [|o rest [d ->] _ IH]; [reflexivity|].
  cbn [correct_options_of filter]. rewrite IH.
  unfold marked_correct, get.
  now destruct (dict_get (VStr "is_correct") d).
Qed.

Lemma reset_all_dicts (options : list value) :
  Forall is_dict options ->
  reset_all options = Ok (map (set_flag false) options).
Proof.
  induction 1 as [|opt rest [d ->] _ IH]; simpl; [reflexivity|].
  now rewrite IH.
Qed.

Lemma reset_count (options : list value) :
  Forall is_dict options ->
  correct_count (map (set_flag false) options) = 0%nat
  /\ List.length (filter marked_true (map (set_flag false) options)) = 0%nat.
Proof.
  unfold correct_count.
  induction 1 as [|opt rest [d ->] _ [IH1 IH2]]; simpl; [auto|].
  change (VDict (dict_set (VStr "is_correct") (VBool false) d))
    with (set_flag false (VDict d)).
  now rewrite marked_correct_set_flag, marked_true_set_flag.
Qed.

Lemma count_cons (p : value -> bool) (o : value) (l : list value) :
  List.length (filter p (o :: l))
  = ((if p o then 1 else 0) + List.length (filter p l))%nat.
Proof. simpl. now destruct (p o). Qed.

Lemma mark_correct_here (d : dict) (rest : list value) :
  mark_correct (set_flag false (VDict d) :: rest) 0
  = Ok (set_flag true (VDict d) :: rest).
Proof. simpl. now rewrite dict_set_set. Qed.

Lemma same_but_flag_set (b : bool) (d : dict) :
  same_but_flag (set_flag b (VDict d)) (VDict d).
Proof. right. exists b. reflexivity. Qed.

Lemma Forall2_same_reset (options : list value) :
  Forall is_dict options ->
  Forall2 same_but_flag (map (set_flag false) options) options.
Proof.
  induction 1 as [|o r [d ->] _ IH]; cbn [map]; constructor; auto.
  apply same_but_flag_set.
Qed.

(** Marking position [i] of options that were all reset. *)
Lemma mark_correct_reset (options : list value) (i : nat) :
  Forall is_dict options ->
  (i < List.length options)%nat ->
  exists marked,
    mark_correct (map (set_flag false) options) i = Ok marked
    /\ List.length marked = List.length options
    /\ correct_count marked = 1%nat
    /\ List.length (filter marked_true marked) = 1%nat
    /\ Forall2 same_but_flag marked options.
Proof.
  intros Hd. revert i. unfold correct_count.
  induction Hd as [|opt rest [d ->] Hrest IH]; intros i Hi.
  - simpl in Hi. lia.
  - cbn [map]. destruct i as [|i].
    + rewrite mark_correct_here. eexists. split; [reflexivity|].
      destruct (reset_count rest Hrest) as [C1 C2].
      unfold correct_count in C1.
      rewrite !count_cons, marked_correct_set_flag, marked_true_set_flag.
      rewrite C1, C2. cbn [List.length]. rewrite length_map.
      repeat split; try reflexivity.
      constructor; [apply same_but_flag_set | now apply Forall2_same_reset].
    + cbn [List.length] in Hi.
      destruct (IH i ltac:(lia)) as (m & Hm & Hl & Hc & Ht & Hf).
      cbn [mark_correct]. rewrite Hm. cbn [bind].
      eexists. split; [reflexivity|].
      rewrite !count_cons, marked_correct_set_flag, marked_true_set_flag.
      cbn [List.length]. rewrite Hl, Hc, Ht.
      repeat split; try reflexivity.
      constructor; [apply same_but_flag_set | assumption].
Qed.

Lemma first_correct_index_bound (correct options : list value) (i j : nat) :
  first_correct_index correct options i = Ok j ->
  (i <= j < i + List.length options)%nat.
Proof.
  revert i. induction options as [|opt rest IH]; simpl; intros i H;
    [discriminate|].
  bind_inv H. destruct a.
  - injection H as <-. lia.
  - apply IH in H. lia.
Qed.

Lemma Forall2_same_refl (l : list value) : Forall2 same_but_flag l l.
Proof. induction l; constructor; auto. now left. Qed.

(** With boolean flags, the options the source counts as correct are those
    that carry [True]. *)
Lemma boolean_flags_count (options : list value) :
  Forall (fun o => boolean_flag o = true) options ->
  List.length (filter marked_true options) = correct_count options.
Proof.
  unfold correct_count.
  induction 1 as [|o rest Ho _ IH]; simpl; [reflexivity|].
  assert (E : marked_true o = marked_correct o).
  { unfold boolean_flag, marked_true, marked_correct in *.
    destruct o; simpl in *; try discriminate.
    destruct (dict_get (VStr "is_correct") d) as [[]|]; simpl in *;
      try discriminate; try reflexivity. now destruct b. }
  rewrite E. destruct (marked_correct o); simpl; now rewrite IH.
Qed.

Lemma boolean_flags_padded (raw : list value) :
  Forall (fun o => boolean_flag o = true) raw ->
  Forall (fun o => boolean_flag o = true) (padded_or_truncated raw).
Proof.
  intros H. unfold padded_or_truncated. apply Forall_app. split.
  - rewrite <- (firstn_skipn 4 raw) in H. now apply Forall_app in H.
  - apply Forall_forall. intros o Ho. apply in_map_iff in Ho.
    destruct Ho as (n & <- & _). reflexivity.
Qed.

(** What [_validate_question_options] returns on a list. *)
Lemma options_repaired (raw : list value) (question_id result : value) :
  _validate_question_options (VList raw) question_id = Ok result ->
  exists options,
    result = VList options
    /\ List.length options = 4%nat
    /\ correct_count options = 1%nat
    /\ Forall2 same_but_flag options (padded_or_truncated raw)
    /\ (Forall (fun o => boolean_flag o = true) raw ->
        List.length (filter marked_true options) = 1%nat).
Proof.
  unfold _validate_question_options. rewrite pad_or_truncate_shape.
  set (options := padded_or_truncated raw).
  assert (Hlen : List.length options = 4%nat)
    by apply padded_or_truncated_length.
  intros H. bind_inv H.
  destruct (correct_options_of_ok _ _ Ha) as [Hd ->].
  fold (correct_count options) in H.
  destruct (correct_count options =? 1)%nat eqn:E.
  - injection H as <-. apply Nat.eqb_eq in E.
    exists options. repeat split; auto using Forall2_same_refl.
    intros Hb. rewrite boolean_flags_count; auto.
    now apply boolean_flags_padded.
  - rewrite (reset_all_dicts _ Hd) in H. simpl in H.
    assert (Hmark : exists i, (i < List.length options)%nat /\
              (r <- mark_correct (map (set_flag false) options) i ;;
               Ok (VList r)) = Ok result).
    { destruct (filter marked_correct options) eqn:F.
      - exists 0%nat. split; [lia | exact H].
      - bind_inv H. exists a. split; [|exact H].
        apply first_correct_index_bound in Ha0.
        rewrite length_map in Ha0. lia. }
    destruct Hmark as (i & Hi & Hr).
    destruct (mark_correct_reset options i Hd Hi)
      as (m & Hm & Hl & Hc & Ht & Hf).
    rewrite Hm in Hr. simpl in Hr. injection Hr as <-.
    exists m. repeat split; auto. congruence.
Qed.

End Options.

(** *** Question repair *)

Section Questions.

Lemma py_not_in_dict (k : string) (d : dict) :
  py_not_in (VStr k) (VDict d) = Ok (negb (dict_has (VStr k) d)).
Proof. reflexivity. Qed.

Lemma require_fields_dict (d : dict) (i : nat) (fields : list string) :
  require_fields (VDict d) i fields =
  match find (fun f => negb (dict_has (VStr f) d)) fields with
  | None => Ok tt
  | Some f =>
      Raise (MCQValidationError
               (QuestionMissingField
                  (or_default (dict_get (VStr "question_id") d) (position i)) f))
  end.
Proof.
  induction fields as [|f rest IH]; [reflexivity|].
  cbn [require_fields find]. rewrite py_not_in_dict. cbn [bind].
  destruct (negb (dict_has (VStr f) d)); [|exact IH].
  unfold get, or_default. now destruct (dict_get (VStr "question_id") d).
Qed.

(** [validate_question] on a dict, step by step. *)
Lemma validate_question_dict (i : nat) (d : dict) :
  validate_question i (VDict d) =
  (require_fields (VDict (with_id i d)) i question_required_fields ;;;
   options <- _validate_question_options
                (or_default (dict_get (VStr "options") (with_id i d)) (VList []))
                (or_default (dict_get (VStr "question_id") (with_id i d))
                   (position i)) ;;
   Ok (VDict (with_area (dict_set (VStr "options") options (with_id i d))))).
Proof.
  unfold validate_question, with_id. rewrite py_not_in_dict. cbn [bind].
  destruct (dict_has (VStr "question_id") d); cbn [negb setitem bind];
    match goal with
    | |- context [require_fields ?q i ?fs] => destruct (require_fields q i fs)
    end; cbn [bind]; try reflexivity;
    unfold get, or_default;
    repeat match goal with
      | |- context [dict_get ?k ?m] =>
          lazymatch goal with
          | |- context [match dict_get k m with _ => _ end] =>
              destruct (dict_get k m)
          end
      end; cbn [bind];
    match goal with
    | |- context [_validate_question_options ?o ?q] =>
        destruct (_validate_question_options o q)
    end; cbn [bind setitem]; try reflexivity;
    rewrite py_not_in_dict; unfold with_area;
    match goal with
    | |- context [dict_has ?k ?m] => destruct (dict_has k m)
    end; reflexivity.
Qed.

(** Only a dict gets through the body of the loop. *)
Lemma validate_question_is_dict (i : nat) (question question' : value) :
  validate_question i question = Ok question' -> exists d, question = VDict d.
Proof.
  unfold validate_question. intros H.
  bind_inv H. bind_inv H. bind_inv H. bind_inv H.
  apply get_ok in Ha2. destruct Ha2 as [d1 ->].
  destruct a.
  - apply setitem_ok in Ha0. destruct Ha0 as (d & -> & _). eauto.
  - injection Ha0 as ->. eauto.
Qed.

Lemma with_id_get (i : nat) (d : dict) (k : string) :
  k <> "question_id" ->
  dict_get (VStr k) (with_id i d) = dict_get (VStr k) d.
Proof.
  intros H. unfold with_id. destruct (dict_has _ d); [reflexivity|].
  now apply dict_get_set_neq.
Qed.

Lemma with_area_get (d : dict) (k : string) :
  k <> "topic_area" ->
  dict_get (VStr k) (with_area d) = dict_get (VStr k) d.
Proof.
  intros H. unfold with_area. destruct (dict_has _ d); [reflexivity|].
  now apply dict_get_set_neq.
Qed.

(** A question that gets through had a list of options, and leaves with the
    repaired list. *)
Lemma survivor_options (i : nat) (question question' : value) :
  validate_question i question = Ok question' ->
  exists raw question_id options,
    getitem question "options" = Ok (VList raw)
    /\ _validate_question_options (VList raw) question_id = Ok options
    /\ getitem question' "options" = Ok options.
Proof.
  intros H. destruct (validate_question_is_dict _ _ _ H) as [d ->].
  rewrite validate_question_dict in H. bind_inv H. bind_inv H.
  injection H as <-.
  rewrite require_fields_dict in Ha.
  assert (Hopt : dict_has (VStr "options") (with_id i d) = true).
  { destruct (find _ question_required_fields) eqn:F in Ha; [discriminate|].
    pose proof (find_none _ _ F "options") as Hn.
    cbv beta in Hn. apply negb_false_iff. apply Hn.
    unfold question_required_fields. simpl. tauto. }
  unfold dict_has in Hopt.
  destruct (dict_get (VStr "options") (with_id i d)) as [v|] eqn:G;
    [|discriminate].
  cbn [or_default] in Ha0.
  rewrite with_id_get in G by discriminate.
  destruct v; try discriminate Ha0.
  exists l. eexists. exists a0. unfold getitem.
  rewrite G, with_area_get, dict_get_set_eq by discriminate.
  repeat split; try reflexivity. exact Ha0.
Qed.

End Questions.

(** *** The option invariant *)

(** C1.  A question that survives repair leaves with exactly four options, of
    which exactly one is marked correct, whatever the number of options and
    of correct flags it came with: the options are the first four raw ones
    followed by the placeholders ["Option N"] (flag [False]) for the missing
    positions, with at most their flags rewritten.  "Marked correct" is the
    source's own test, the truth value of the flag; when the raw flags are
    booleans, exactly one option carries the literal [True]. *)
Theorem C1_option_invariant (i : nat) (question question' : value) :
  validate_question i question = Ok question' ->
  exists raw options,
    getitem question "options" = Ok (VList raw)
    /\ getitem question' "options" = Ok (VList options)
    /\ List.length options = 4%nat
    /\ correct_count options = 1%nat
    /\ Forall2 same_but_flag options (padded_or_truncated raw)
    /\ (Forall (fun o => boolean_flag o = true) raw ->
        List.length (filter marked_true options) = 1%nat).
Proof.
  intros H.
  destruct (survivor_options _ _ _ H)
    as (raw & question_id & result & Hraw & Hopts & Hres).
  destruct (options_repaired _ _ _ Hopts) as (options & -> & Hrest).
  exists raw, options. auto.
Qed.

Lemma C1_option_invariant_witness :
  exists raw options,
    getitem scenario_question "options" = Ok (VList raw)
    /\ getitem scenario_question_repaired "options" = Ok (VList options)
    /\ List.length options = 4%nat
    /\ correct_count options = 1%nat
    /\ Forall2 same_but_flag options (padded_or_truncated raw)
    /\ (Forall (fun o => boolean_flag o = true) raw ->
        List.length (filter marked_true options) = 1%nat).
Proof.
  apply (C1_option_invariant 0 scenario_question scenario_question_repaired).
  reflexivity.
Defined.

(** *** Which option is kept *)

(** Without a correct option the first one is marked and the others are
    reset. *)
Lemma no_correct_marks_first (first : value) (rest : list value)
  (question_id : value) :
  List.length (first :: rest) = 4%nat ->
  Forall is_dict (first :: rest) ->
  correct_count (first :: rest) = 0%nat ->
  _validate_question_options (VList (first :: rest)) question_id
  = Ok (VList (set_flag true first :: map (set_flag false) rest)).
Proof.
  intros Hlen Hd Hc. unfold _validate_question_options.
  rewrite Hlen. cbn [Nat.eqb].
  assert (Hco : correct_options_of (first :: rest) = Ok []).
  { unfold correct_count in Hc. apply length_zero_iff_nil in Hc.
    rewrite <- Hc. clear Hc Hlen.
    induction Hd as [|o r [d ->] _ IH]; [reflexivity|].
    cbn [correct_options_of filter]. rewrite IH.
    unfold marked_correct, get.
    now destruct (dict_get (VStr "is_correct") d). }
  rewrite Hco. cbn [bind List.length Nat.eqb].
  rewrite (reset_all_dicts _ Hd). cbn [bind map].
  inversion Hd as [|? ? [d ->] _]; subst.
  now rewrite mark_correct_here.
Qed.

Lemma any_same_option_dicts (correct : list value) (opt : value) :
  Forall is_dict correct ->
  is_dict opt ->
  any_same_option correct opt
  = Ok (existsb (fun co => py_eq (option_text co) (option_text opt)) correct).
Proof.
  intros Hc [d ->]. induction Hc as [|co rest [dc ->] _ IH]; [reflexivity|].
  cbn [any_same_option existsb]. unfold option_text at 1 2. unfold get.
  destruct (dict_get (VStr "option") dc), (dict_get (VStr "option") d);
    cbn [bind];
    match goal with
    | |- context [py_eq ?a ?b] => destruct (py_eq a b)
    end; cbn [orb]; auto.
Qed.

Lemma option_text_set_flag (b : bool) (d : dict) :
  option_text (set_flag b (VDict d)) = option_text (VDict d).
Proof.
  unfold option_text. cbn [set_flag get].
  now rewrite dict_get_set_neq by discriminate.
Qed.

Lemma first_correct_index_at (correct before : list value) (opt : value)
  (after : list value) (i : nat) :
  Forall (fun o => any_same_option correct o = Ok false) before ->
  any_same_option correct opt = Ok true ->
  first_correct_index correct (before ++ opt :: after) i
  = Ok (i + List.length before)%nat.
Proof.
  intros Hb Ho. revert i.
  induction Hb as [|o rest Hfalse _ IH]; intros i; cbn [app first_correct_index].
  - rewrite Ho. cbn. now rewrite Nat.add_0_r.
  - rewrite Hfalse. cbn [bind List.length]. rewrite IH. f_equal. lia.
Qed.

Lemma mark_correct_at (before : list value) (d : dict) (after : list value) :
  mark_correct (before ++ set_flag false (VDict d) :: after)
    (List.length before)
  = Ok (before ++ set_flag true (VDict d) :: after).
Proof.
  induction before as [|o rest IH]; cbn [app List.length].
  - apply mark_correct_here.
  - cbn [mark_correct]. now rewrite IH.
Qed.

(** With several options marked correct, the first of them is the one kept
    provided none of the options before it has the text of a correct
    option (and its own text equals itself, as every string does): then the
    result is as the comment in the source describes it. *)
Lemma first_correct_kept (before : list value) (d : dict)
  (after : list value) (question_id : value) :
  List.length (before ++ VDict d :: after) = 4%nat ->
  Forall is_dict (before ++ VDict d :: after) ->
  correct_count (before ++ VDict d :: after) <> 1%nat ->
  Forall (fun o => marked_correct o = false) before ->
  marked_correct (VDict d) = true ->
  (forall o co, In o before -> In co (before ++ VDict d :: after) ->
                marked_correct co = true ->
                py_eq (option_text co) (option_text o) = false) ->
  py_eq (option_text (VDict d)) (option_text (VDict d)) = true ->
  _validate_question_options (VList (before ++ VDict d :: after)) question_id
  = Ok (VList (map (set_flag false) before
               ++ set_flag true (VDict d) :: map (set_flag false) after)).
Proof.
  intros Hlen Hd Hc Hb Hm Hdistinct Hrefl.
  set (options := before ++ VDict d :: after) in *.
  unfold _validate_question_options. rewrite Hlen. cbn [Nat.eqb].
  rewrite (correct_options_of_dicts _ Hd). cbn [bind].
  fold (correct_count options). apply Nat.eqb_neq in Hc. rewrite Hc.
  rewrite (reset_all_dicts _ Hd). cbn [bind].
  set (correct := filter marked_correct options).
  assert (Hin : In (VDict d) correct).
  { apply filter_In. split; [|exact Hm]. apply in_or_app. right. now left. }
  assert (Hcd : Forall is_dict correct).
  { apply Forall_forall. intros x Hx. apply filter_In in Hx.
    rewrite Forall_forall in Hd. now apply Hd. }
  assert (Hindex : first_correct_index correct (map (set_flag false) options) 0
                   = Ok (List.length before)).
  { unfold options. rewrite map_app. cbn [map].
    rewrite <- (length_map (set_flag false) before).
    apply (first_correct_index_at correct _ _ _ 0).
    - apply Forall_forall. intros o Ho. apply in_map_iff in Ho.
      destruct Ho as (o' & <- & Ho').
      assert (Hdo : is_dict o').
      { rewrite Forall_forall in Hd. apply Hd. apply in_or_app. now left. }
      destruct Hdo as [d' ->].
      rewrite any_same_option_dicts by (auto; now eexists).
      f_equal. rewrite option_text_set_flag.
      destruct (existsb _ correct) eqn:E; [|reflexivity].
      apply existsb_exists in E. destruct E as (co & Hco & Heq).
      apply filter_In in Hco. destruct Hco as [Hco Hmark].
      now rewrite (Hdistinct _ co Ho' Hco Hmark) in Heq.
    - rewrite any_same_option_dicts by (auto; now eexists).
      f_equal. rewrite option_text_set_flag.
      apply existsb_exists. exists (VDict d). now split. }
  destruct correct as [|c0 cs] eqn:Ecorrect; [destruct Hin|].
  rewrite Hindex. cbn [bind]. unfold options. rewrite map_app. cbn [map].
  rewrite <- (length_map (set_flag false) before) at 1.
  now rewrite mark_correct_at.
Qed.

Lemma first_correct_index_found (correct options : list value) (i : nat) :
  Forall is_dict correct ->
  Forall is_dict options ->
  (exists o, In o options
             /\ existsb (fun co => py_eq (option_text co) (option_text o))
                  correct = true) ->
  exists j, first_correct_index correct options i = Ok j.
Proof.
  intros Hc Hd. revert i.
  induction Hd as [|opt rest Hopt _ IH]; intros i [o [Hin He]];
    [destruct Hin|].
  cbn [first_correct_index]. rewrite (any_same_option_dicts _ _ Hc Hopt).
  cbn [bind].
  destruct (existsb (fun co => py_eq (option_text co) (option_text opt))
              correct) eqn:E; [eauto|].
  apply IH. exists o. split; [|exact He].
  destruct Hin as [<-|Hin]; [congruence | exact Hin].
Qed.

Lemma padded_dicts (raw : list value) :
  Forall is_dict raw -> Forall is_dict (padded_or_truncated raw).
Proof.
  intros H. unfold padded_or_truncated. apply Forall_app. split.
  - rewrite <- (firstn_skipn 4 raw) in H. now apply Forall_app in H.
  - apply Forall_forall. intros o Ho. apply in_map_iff in Ho.
    destruct Ho as (n & <- & _). now eexists.
Qed.

(** The repair of a list of objects whose texts equal themselves (strings
    do, and so does an absent text) returns a list. *)
Lemma options_survive (raw : list value) (question_id : value) :
  Forall is_dict raw ->
  Forall (fun o => py_eq (option_text o) (option_text o) = true) raw ->
  exists options,
    _validate_question_options (VList raw) question_id = Ok (VList options).
Proof.
  intros Hd Hrefl. unfold _validate_question_options.
  rewrite pad_or_truncate_shape.
  set (options := padded_or_truncated raw).
  assert (Hdo : Forall is_dict options) by now apply padded_dicts.
  assert (Hlen : List.length options = 4%nat)
    by apply padded_or_truncated_length.
  rewrite (correct_options_of_dicts _ Hdo). cbn [bind].
  destruct (List.length (filter marked_correct options) =? 1)%nat; [eauto|].
  rewrite (reset_all_dicts _ Hdo). cbn [bind].
  assert (Hmark : forall i, (i < 4)%nat ->
             exists m, (r <- mark_correct (map (set_flag false) options) i ;;
                        Ok (VList r)) = Ok (VList m)).
  { intros i Hi. rewrite <- Hlen in Hi.
    destruct (mark_correct_reset options i Hdo Hi) as (m & -> & _).
    cbn [bind]. eauto. }
  destruct (filter marked_correct options) as [|c0 cs] eqn:F.
  - apply (Hmark 0%nat). lia.
  - assert (Hc0 : In c0 options /\ marked_correct c0 = true).
    { apply filter_In. rewrite F. now left. }
    destruct Hc0 as [Hin Hm].
    assert (Hcd : Forall is_dict (c0 :: cs)).
    { rewrite <- F. apply Forall_forall. intros x Hx. apply filter_In in Hx.
      rewrite Forall_forall in Hdo. now apply Hdo. }
    assert (Hself : py_eq (option_text c0) (option_text c0) = true).
    { unfold options, padded_or_truncated in Hin. apply in_app_or in Hin.
      destruct Hin as [Hin|Hin].
      - rewrite Forall_forall in Hrefl. apply Hrefl.
        rewrite <- (firstn_skipn 4 raw). apply in_or_app. now left.
      - apply in_map_iff in Hin. destruct Hin as (n & <- & _).
        cbn. apply String.eqb_refl. }
    destruct (first_correct_index_found (c0 :: cs)
                (map (set_flag false) options) 0 Hcd) as [j Hj].
    + apply Forall_forall. intros x Hx. apply in_map_iff in Hx.
      destruct Hx as (y & <- & Hy). rewrite Forall_forall in Hdo.
      destruct (Hdo y Hy) as [dy ->]. now eexists.
    + exists (set_flag false c0). split; [now apply in_map|].
      rewrite Forall_forall in Hdo. destruct (Hdo c0 Hin) as [d0 ->].
      rewrite option_text_set_flag. cbn [existsb]. now rewrite Hself.
    + rewrite Hj. cbn [bind]. apply Hmark.
      apply first_correct_index_bound in Hj.
      rewrite length_map, Hlen in Hj. lia.
Qed.

(** An object with the four required fields and such a list of options
    survives the repair. *)
Lemma question_survives (i : nat) (d : dict) (raw : list value) :
  forallb (fun f => dict_has (VStr f) d) question_required_fields = true ->
  dict_get (VStr "options") d = Some (VList raw) ->
  Forall is_dict raw ->
  Forall (fun o => py_eq (option_text o) (option_text o) = true) raw ->
  succeeds (validate_question i (VDict d)) = true.
Proof.
  intros Hreq Hopt Hd Hrefl.
  rewrite validate_question_dict, require_fields_dict.
  assert (F : find (fun f => negb (dict_has (VStr f) (with_id i d)))
                question_required_fields = None).
  { rewrite forallb_forall in Hreq.
    destruct (find _ question_required_fields) as [f|] eqn:E; [|reflexivity].
    apply find_some in E. destruct E as [Hin Hf].
    specialize (Hreq f Hin). unfold dict_has in Hreq, Hf.
    rewrite with_id_get in Hf.
    - destruct (dict_get (VStr f) d); discriminate.
    - intros ->. unfold question_required_fields in Hin. simpl in Hin.
      intuition discriminate. }
  rewrite F. cbn [bind]. rewrite with_id_get by discriminate.
  rewrite Hopt. cbn [or_default].
  destruct (options_survive raw
              (or_default (dict_get (VStr "question_id") (with_id i d))
                 (position i)) Hd Hrefl) as [options ->].
  reflexivity.
Qed.

(** C3.  The option kept when several are correct is the first one whose
    text equals the text of a correct option, which need not be correct
    itself: on the options A (false), A (true), B (true), C (false) the
    repair marks the first A and resets the second, the first option that was
    correct. *)
Theorem C3_first_with_same_text :
  _validate_question_options
    (VList [mcq_option "A" false; mcq_option "A" true;
            mcq_option "B" true; mcq_option "C" false]) (VInt 1)
  = Ok (VList [mcq_option "A" true; mcq_option "A" false;
               mcq_option "B" false; mcq_option "C" false]).
Proof. reflexivity. Qed.

(** *** Reference videos *)

Section Videos.

Lemma warn_missing_dict (d : dict) (fields : list string) :
  warn_missing (VDict d) fields = Ok tt.
Proof.
  induction fields as [|f rest IH]; [reflexivity|].
  cbn [warn_missing]. rewrite py_not_in_dict. cbn [bind].
  unfold dict_has, getitem.
  destruct (dict_get (VStr f) d); cbn [negb bind]; exact IH.
Qed.

(** What the body of the loop does with a dict: only [url] decides. *)
Lemma validate_video_dict (i : nat) (d : dict) :
  validate_video i (VDict d) =
  match dict_get (VStr "url") d with
  | None => Raise KeyError
  | Some (VStr url) =>
      if prefix "http://" url || prefix "https://" url
      then Ok (Some (VDict (with_video_defaults d)))
      else Ok None
  | Some _ => Raise AttributeError
  end.
Proof.
  unfold validate_video. rewrite warn_missing_dict. cbn [bind].
  unfold getitem. destruct (dict_get (VStr "url") d) as [url|]; [|reflexivity].
  cbn [bind]. destruct url; try reflexivity. cbn [startswith_http bind].
  destruct (prefix "http://" s || prefix "https://" s); [|reflexivity].
  cbn [negb]. rewrite py_not_in_dict. cbn [bind]. unfold with_video_defaults.
  destruct (dict_has (VStr "duration") d); cbn [negb setitem bind];
    rewrite py_not_in_dict; cbn [bind];
    match goal with
    | |- context [dict_has (VStr "description") ?m] =>
        destruct (dict_has (VStr "description") m)
    end; reflexivity.
Qed.

End Videos.

(** C2.  A video without [title] and with an accepted [url] is not dropped:
    the loop over the required fields only warns, and the entry is kept with
    [duration] and [description] defaulted.  (An entry without [url], or with
    a [url] that is not http(s), is dropped.) *)
Theorem C2_untitled_video_kept :
  _validate_reference_videos
    (VList [VDict [(VStr "url", VStr "https://x");
                   (VStr "difficulty_level", VStr "basic")];
            VDict [(VStr "title", VStr "T"); (VStr "url", VStr "ftp://x");
                   (VStr "difficulty_level", VStr "basic")];
            VDict [(VStr "title", VStr "T");
                   (VStr "difficulty_level", VStr "basic")]])
  = VList [VDict [(VStr "url", VStr "https://x");
                  (VStr "difficulty_level", VStr "basic");
                  (VStr "duration", VStr "Unknown");
                  (VStr "description", VStr "Educational video content")]].
Proof. reflexivity. Qed.

(** *** The drop policy for questions *)

Section DropPolicy.

Lemma questions_loop_survivors (i : nat) (questions validated : list value) :
  questions_loop i questions validated = validated ++ survivors i questions.
Proof.
  revert i validated.
  induction questions as [|q rest IH]; intros i validated; cbn.
  - now rewrite app_nil_r.
  - destruct (validate_question i q); rewrite IH; [|reflexivity].
    now rewrite <- app_assoc.
Qed.

Lemma survivors_app (i : nat) (before after : list value) :
  survivors i (before ++ after)
  = survivors i before ++ survivors (i + List.length before) after.
Proof.
  revert i. induction before as [|q rest IH]; intros i; cbn.
  - now rewrite Nat.add_0_r.
  - rewrite IH, Nat.add_succ_r. now destruct (validate_question i q).
Qed.

Lemma survivors_nil (i : nat) (questions : list value) :
  survivors i questions = [] <->
  forall j q, nth_error questions j = Some q ->
              succeeds (validate_question (i + j) q) = false.
Proof.
  revert i. induction questions as [|q rest IH]; intros i; cbn.
  - split; [|reflexivity]. intros _ [|j] q'; discriminate.
  - split.
    + intros H [|j] q' Hq; cbn in Hq.
      * injection Hq as <-. rewrite Nat.add_0_r.
        now destruct (validate_question i q).
      * rewrite Nat.add_succ_r.
        destruct (validate_question i q); [discriminate|].
        now apply (proj1 (IH (S i)) H j).
    + intros H. pose proof (H 0%nat q eq_refl) as H0.
      rewrite Nat.add_0_r in H0.
      destruct (validate_question i q); [discriminate|].
      apply IH. intros j q' Hq. specialize (H (S j) q' Hq).
      now rewrite Nat.add_succ_r in H.
Qed.

(** A dict without one of the required fields raises, with the message that
    names the first missing field. *)
Lemma missing_field_raises (i : nat) (d : dict) (f : string) :
  In f question_required_fields ->
  dict_has (VStr f) d = false ->
  exists question_id f',
    validate_question i (VDict d)
    = Raise (MCQValidationError (QuestionMissingField question_id f')).
Proof.
  intros Hin Hf. rewrite validate_question_dict, require_fields_dict.
  destruct (find _ question_required_fields) as [f'|] eqn:F.
  - cbn [bind]. eauto.
  - pose proof (find_none _ _ F f Hin) as Hn. cbv beta in Hn.
    unfold dict_has in *. rewrite with_id_get in Hn.
    + destruct (dict_get (VStr f) d); discriminate.
    + intros ->. unfold question_required_fields in Hin. simpl in Hin.
      intuition discriminate.
Qed.

(** The same for any value: a question for which [field in question] is not
    true does not get through. *)
Lemma missing_field_dropped (i : nat) (question : value) (f : string) :
  In f question_required_fields ->
  py_in (VStr f) question <> Ok true ->
  succeeds (validate_question i question) = false.
Proof.
  intros Hin Hf.
  destruct (validate_question i question) as [q'|e] eqn:E; [|reflexivity].
  destruct (validate_question_is_dict _ _ _ E) as [d ->].
  destruct (dict_has (VStr f) d) eqn:Hd.
  - exfalso. apply Hf. cbn. now rewrite Hd.
  - destruct (missing_field_raises i d f Hin Hd) as (? & ? & H). congruence.
Qed.

End DropPolicy.

(** C4.  In a list of raw questions, a question that lacks [question_text],
    [explanation], [options] or [difficulty] is left out and the others are
    repaired as they are without it, each at its own position; the repair
    of the list returns the survivors, and raises ("No valid questions
    found") exactly when no question survives its own repair. *)
Theorem C4_drop_policy (questions : list value) :
  (forall before question after field,
      questions = before ++ question :: after ->
      In field question_required_fields ->
      py_in (VStr field) question <> Ok true ->
      survivors 0 questions
      = survivors 0 before ++ survivors (S (List.length before)) after)
  /\ _validate_questions (VList questions)
     = match survivors 0 questions with
       | [] => Raise (MCQValidationError NoValidQuestionsFound)
       | kept => Ok (VList kept)
       end
  /\ (succeeds (_validate_questions (VList questions)) = false <->
      forall i question,
        nth_error questions i = Some question ->
        succeeds (validate_question i question) = false).
Proof.
  assert (E : _validate_questions (VList questions)
              = match survivors 0 questions with
                | [] => Raise (MCQValidationError NoValidQuestionsFound)
                | kept => Ok (VList kept)
                end).
  { unfold _validate_questions. cbn [iter bind].
    rewrite questions_loop_survivors. cbn [app].
    now destruct (survivors 0 questions). }
  split; [|split; [exact E|]].
  - intros before question after field -> Hin Hmissing.
    rewrite survivors_app. cbn [survivors Nat.add].
    pose proof (missing_field_dropped (List.length before) question field
                  Hin Hmissing) as Hd.
    now destruct (validate_question (List.length before) question).
  - rewrite E, <- (survivors_nil 0 questions).
    destruct (survivors 0 questions); cbn; split; congruence.
Qed.

Lemma C4_drop_policy_witness :
  survivors 0 [question_without_explanation; scenario_question]
  = survivors 0 [] ++ survivors 1 [scenario_question].
Proof.
  apply (proj1 (C4_drop_policy [question_without_explanation; scenario_question])
           [] question_without_explanation [scenario_question] "explanation").
  - reflexivity.
  - simpl. tauto.
  - discriminate.
Defined.

(** *** Roadmap steps *)

Section Roadmap.

(** A dict always gets through the body of the loop, whatever fields it
    has. *)
Lemma validate_step_dict (i : nat) (d : dict) :
  validate_step i (VDict d)
  = Ok (VDict (with_prerequisites (with_step_number i d))).
Proof.
  unfold validate_step. rewrite py_not_in_dict. cbn [bind].
  fold (with_step_number i d).
  assert (E : (if negb (dict_has (VStr "step_number") d)
               then setitem (VDict d) "step_number" (position i)
               else Ok (VDict d)) = Ok (VDict (with_step_number i d))).
  { unfold with_step_number. now destruct (dict_has _ d). }
  rewrite E. cbn [bind]. rewrite warn_missing_dict. cbn [bind].
  rewrite py_not_in_dict. cbn [bind].
  unfold with_prerequisites, dict_has, getitem.
  destruct (dict_get (VStr "prerequisites") (with_step_number i d))
    as [v|]; [|reflexivity].
  cbn [negb bind]. now destruct v.
Qed.

Lemma roadmap_loop_dicts (steps : list value) :
  Forall is_dict steps ->
  forall (i : nat) (validated : list value),
  exists out,
    roadmap_loop i steps validated = validated ++ out
    /\ List.length out = List.length steps
    /\ forall j d,
         nth_error steps j = Some (VDict d) ->
         nth_error out j
         = Some (VDict (with_prerequisites (with_step_number (i + j) d))).
Proof.
  induction 1 as [|step rest [d ->] _ IH]; intros i validated.
  - exists []. cbn. rewrite app_nil_r. repeat split; auto.
    intros [|j] ?; discriminate.
  - cbn [roadmap_loop]. rewrite validate_step_dict.
    destruct (IH (S i)
                (validated
                 ++ [VDict (with_prerequisites (with_step_number i d))]))
      as (out & Hout & Hlen & Hnth).
    exists (VDict (with_prerequisites (with_step_number i d)) :: out).
    rewrite Hout, <- app_assoc. cbn. repeat split; auto.
    intros [|j] d' Hj; cbn in *.
    + injection Hj as <-. now rewrite Nat.add_0_r.
    + rewrite Nat.add_succ_r. now apply Hnth.
Qed.

Lemma with_step_number_get (i : nat) (d : dict) :
  dict_get (VStr "step_number") (with_step_number i d)
  = Some (or_default (dict_get (VStr "step_number") d) (position i)).
Proof.
  unfold with_step_number, dict_has.
  destruct (dict_get (VStr "step_number") d) eqn:E; [exact E|].
  apply dict_get_set_eq.
Qed.

Lemma with_prerequisites_get (d : dict) :
  dict_get (VStr "prerequisites") (with_prerequisites d)
  = Some match dict_get (VStr "prerequisites") d with
         | Some (VList l) => VList l
         | _ => VList []
         end.
Proof.
  unfold with_prerequisites.
  destruct (dict_get (VStr "prerequisites") d) as [[]|] eqn:E;
    try apply dict_get_set_eq.
  exact E.
Qed.

Lemma with_prerequisites_other (d : dict) (k : string) :
  k <> "prerequisites" ->
  dict_get (VStr k) (with_prerequisites d) = dict_get (VStr k) d.
Proof.
  intros H. unfold with_prerequisites.
  destruct (dict_get (VStr "prerequisites") d) as [[]|];
    try reflexivity; now apply dict_get_set_neq.
Qed.

Lemma with_step_number_other (i : nat) (d : dict) (k : string) :
  k <> "step_number" ->
  dict_get (VStr k) (with_step_number i d) = dict_get (VStr k) d.
Proof.
  intros H. unfold with_step_number.
  destruct (dict_has _ d); [reflexivity | now apply dict_get_set_neq].
Qed.

End Roadmap.

(** C9.  Every step of a roadmap (a list of objects) is retained, at its
    place, whether or not it has [title], [description] and
    [estimated_duration]: the repaired step has [step_number] equal to the
    one it came with, or to its 1-based position when it had none;
    [prerequisites] equal to the list it came with, or to the empty list
    when it had none or had something that is not a list; and every other
    key as it was, absent ones staying absent. *)
Theorem C9_steps_retained (steps : list value) :
  Forall is_dict steps ->
  exists repaired,
    _validate_roadmap (VList steps) = VList repaired
    /\ List.length repaired = List.length steps
    /\ forall i d,
         nth_error steps i = Some (VDict d) ->
         exists d',
           nth_error repaired i = Some (VDict d')
           /\ dict_get (VStr "step_number") d'
              = Some (or_default (dict_get (VStr "step_number") d)
                        (VInt (Z.of_nat i + 1)))
           /\ dict_get (VStr "prerequisites") d'
              = Some match dict_get (VStr "prerequisites") d with
                     | Some (VList l) => VList l
                     | _ => VList []
                     end
           /\ forall k, k <> "step_number" -> k <> "prerequisites" ->
                        dict_get (VStr k) d' = dict_get (VStr k) d.
Proof.
  intros Hd.
  destruct (roadmap_loop_dicts steps Hd 0 []) as (out & Hout & Hlen & Hnth).
  exists out. cbn [_validate_roadmap]. rewrite Hout. cbn [app].
  repeat split; auto.
  intros i d Hi. eexists. split; [apply (Hnth i d Hi)|]. cbn [Nat.add].
  repeat split.
  - rewrite with_prerequisites_other by discriminate.
    apply with_step_number_get.
  - rewrite with_prerequisites_get.
    now rewrite with_step_number_other by discriminate.
  - intros k H1 H2.
    now rewrite with_prerequisites_other, with_step_number_other.
Qed.

Lemma C9_steps_retained_witness :
  exists repaired,
    _validate_roadmap (VList bare_steps) = VList repaired
    /\ List.length repaired = List.length bare_steps
    /\ forall i d,
         nth_error bare_steps i = Some (VDict d) ->
         exists d',
           nth_error repaired i = Some (VDict d')
           /\ dict_get (VStr "step_number") d'
              = Some (or_default (dict_get (VStr "step_number") d)
                        (VInt (Z.of_nat i + 1)))
           /\ dict_get (VStr "prerequisites") d'
              = Some match dict_get (VStr "prerequisites") d with
                     | Some (VList l) => VList l
                     | _ => VList []
                     end
           /\ forall k, k <> "step_number" -> k <> "prerequisites" ->
                        dict_get (VStr k) d' = dict_get (VStr k) d.
Proof.
  apply (C9_steps_retained bare_steps).
  repeat constructor; eexists; reflexivity.
Defined.

(** *** Request normalization *)

Section Request.

Lemma require_present_dict (d : dict) (fields : list string) :
  require_present (VDict d) fields =
  match find (fun f => negb (filled d f)) fields with
  | None => Ok tt
  | Some f => Raise (MCQValidationError (MissingOrEmptyRequiredField f))
  end.
Proof.
  induction fields as [|f rest IH]; [reflexivity|].
  cbn [require_present find]. rewrite py_not_in_dict. cbn [bind].
  unfold filled, dict_has, getitem, or_default.
  destruct (dict_get (VStr f) d) as [v|]; cbn [negb bind truthy];
    [|reflexivity].
  destruct (truthy v); cbn [negb]; [exact IH | reflexivity].
Qed.

Lemma setdefault_dict (d : dict) (k : string) (v : value) :
  setdefault (VDict d) k v = Ok (VDict (with_default k v d)).
Proof. unfold setdefault, with_default. now destruct (dict_has _ d). Qed.

Lemma with_default_other (k k' : string) (v : value) (d : dict) :
  k <> k' ->
  dict_get (VStr k) (with_default k' v d) = dict_get (VStr k) d.
Proof.
  intros H. unfold with_default.
  destruct (dict_has _ d); [reflexivity | now apply dict_get_set_neq].
Qed.

Lemma with_default_get (k : string) (v : value) (d : dict) :
  dict_get (VStr k) (with_default k v d)
  = Some (or_default (dict_get (VStr k) d) v).
Proof.
  unfold with_default, dict_has.
  destruct (dict_get (VStr k) d) eqn:E; [exact E | apply dict_get_set_eq].
Qed.

Lemma isalnum_nonempty (username : string) :
  isalnum (bare_name username) = true -> username <> "".
Proof. intros H ->. discriminate H. Qed.

(** A request whose [username] is a string that is alphanumeric once its
    underscores and hyphens are removed, and whose [topic] is filled, is
    accepted and returned normalized. *)
Lemma request_accepted (d : dict) (username : string) :
  dict_get (VStr "username") d = Some (VStr username) ->
  isalnum (bare_name username) = true ->
  filled d "topic" = true ->
  validate_request_data (VDict d) = Ok (VDict (normalized d)).
Proof.
  intros Hu Ha Ht. unfold validate_request_data, request_steps.
  rewrite require_present_dict. cbn [find].
  assert (Hf : filled d "username" = true).
  { unfold filled. rewrite Hu. cbn.
    apply isalnum_nonempty in Ha. apply String.eqb_neq in Ha. now rewrite Ha. }
  rewrite Hf, Ht. cbn [negb bind]. unfold getitem. rewrite Hu. cbn [bind].
  unfold username_isalnum. fold (bare_name username). rewrite Ha.
  cbn [bind negb]. repeat (rewrite setdefault_dict; cbn [bind]).
  fold (with_defaults d). unfold normalized, get, or_default.
  destruct (dict_get (VStr "question_count") (with_defaults d));
    cbn [bind]; match goal with
                | |- context [bad_question_count ?q] =>
                    destruct (bad_question_count q)
                end; reflexivity.
Qed.

(** Whether a request with a string for [username] is accepted: the name is
    not empty, the topic is filled, and what is left of the name without its
    underscores and hyphens is not empty and alphanumeric. *)
Lemma request_verdict (d : dict) (username : string) :
  dict_get (VStr "username") d = Some (VStr username) ->
  succeeds (validate_request_data (VDict d))
  = filled d "topic" && isalnum (bare_name username).
Proof.
  intros Hu.
  destruct (filled d "topic") eqn:T;
    destruct (isalnum (bare_name username)) eqn:A; cbn [andb].
  - now rewrite (request_accepted d username Hu A T).
  - unfold validate_request_data, request_steps.
    rewrite require_present_dict. cbn [find]. rewrite T.
    destruct (filled d "username"); [|reflexivity].
    cbn [negb bind]. unfold getitem. rewrite Hu. cbn [bind].
    unfold username_isalnum. fold (bare_name username). now rewrite A.
  - unfold validate_request_data, request_steps.
    rewrite require_present_dict. cbn [find]. rewrite T.
    now destruct (filled d "username").
  - unfold validate_request_data, request_steps.
    rewrite require_present_dict. cbn [find]. rewrite T.
    now destruct (filled d "username").
Qed.

Lemma with_default_keeps (k k' : string) (v x : value) (d : dict) :
  dict_get (VStr k) d = Some v ->
  dict_get (VStr k) (with_default k' x d) = Some v.
Proof.
  intros H. unfold with_default.
  destruct (dict_has (VStr k') d) eqn:E; [exact H|].
  destruct (String.eqb_spec k k') as [->|N].
  - unfold dict_has in E. now rewrite H in E.
  - now rewrite dict_get_set_neq.
Qed.

Lemma with_defaults_keeps (k : string) (v : value) (d : dict) :
  dict_get (VStr k) d = Some v ->
  dict_get (VStr k) (with_defaults d) = Some v.
Proof.
  intros H. unfold with_defaults. now apply with_default_keeps,
    with_default_keeps, with_default_keeps, with_default_keeps.
Qed.

(** The keys that have no default are those of the request. *)
Lemma with_defaults_other (k : string) (d : dict) :
  ~ In k ["difficulty"; "question_count"; "include_roadmap"; "include_videos"] ->
  dict_get (VStr k) (with_defaults d) = dict_get (VStr k) d.
Proof.
  intros H. unfold with_defaults.
  rewrite !with_default_other; [reflexivity| | | |];
    intros ->; apply H; cbn; auto.
Qed.

Lemma with_defaults_difficulty (d : dict) :
  dict_get (VStr "difficulty") (with_defaults d)
  = Some (or_default (dict_get (VStr "difficulty") d) (VStr "mixed")).
Proof.
  unfold with_defaults.
  rewrite !with_default_other by discriminate. apply with_default_get.
Qed.

Lemma with_defaults_include_roadmap (d : dict) :
  dict_get (VStr "include_roadmap") (with_defaults d)
  = Some (or_default (dict_get (VStr "include_roadmap") d) (VBool true)).
Proof.
  unfold with_defaults.
  rewrite with_default_other by discriminate. rewrite with_default_get.
  now rewrite !with_default_other by discriminate.
Qed.

Lemma with_defaults_include_videos (d : dict) :
  dict_get (VStr "include_videos") (with_defaults d)
  = Some (or_default (dict_get (VStr "include_videos") d) (VBool true)).
Proof.
  unfold with_defaults. rewrite with_default_get.
  now rewrite !with_default_other by discriminate.
Qed.

Lemma with_defaults_question_count (d : dict) :
  dict_get (VStr "question_count") (with_defaults d)
  = Some (or_default (dict_get (VStr "question_count") d) (VInt 20)).
Proof.
  unfold with_defaults.
  rewrite !with_default_other by discriminate.
  rewrite with_default_get.
  now rewrite with_default_other by discriminate.
Qed.

End Request.

(** C7.  A request that passes the checks on [username] and [topic], and
    whose [question_count] is anything but an integer between 5 and 50, is
    not failed: it is returned with [question_count] set to 20.  What is
    returned is the request itself, normalized: [question_count] replaced
    in its place, [difficulty], [include_roadmap] and [include_videos] as
    the request has them or else with their defaults, and every other key
    as in the request, none added and none lost. *)
Theorem C7_question_count_replaced (d : dict) (username : string)
  (question_count : value) :
  dict_get (VStr "username") d = Some (VStr username) ->
  isalnum (bare_name username) = true ->
  filled d "topic" = true ->
  dict_get (VStr "question_count") d = Some question_count ->
  (forall n, question_count = VInt n -> n < 5 \/ 50 < n) ->
  exists d',
    validate_request_data (VDict d) = Ok (VDict d')
    /\ dict_get (VStr "question_count") d' = Some (VInt 20)
    /\ d' = dict_set (VStr "question_count") (VInt 20) (with_defaults d)
    /\ dict_get (VStr "difficulty") d'
       = Some (or_default (dict_get (VStr "difficulty") d) (VStr "mixed"))
    /\ dict_get (VStr "include_roadmap") d'
       = Some (or_default (dict_get (VStr "include_roadmap") d) (VBool true))
    /\ dict_get (VStr "include_videos") d'
       = Some (or_default (dict_get (VStr "include_videos") d) (VBool true))
    /\ forall k,
         ~ In k ["difficulty"; "question_count"; "include_roadmap";
                 "include_videos"] ->
         dict_get (VStr k) d' = dict_get (VStr k) d.
Proof.
  intros Hu Ha Ht Hq Hbad.
  assert (B : bad_question_count question_count = true).
  { destruct question_count; try reflexivity.
    - now destruct b.
    - cbn. destruct (Hbad z eq_refl); apply orb_true_iff; [left|right]; lia. }
  assert (N : normalized d
              = dict_set (VStr "question_count") (VInt 20) (with_defaults d)).
  { unfold normalized. rewrite with_defaults_question_count, Hq.
    cbn [or_default]. now rewrite B. }
  exists (dict_set (VStr "question_count") (VInt 20) (with_defaults d)).
  split; [rewrite <- N; now apply (request_accepted d username)|].
  split; [apply dict_get_set_eq|]. split; [reflexivity|].
  rewrite !dict_get_set_neq by discriminate.
  split; [apply with_defaults_difficulty|].
  split; [apply with_defaults_include_roadmap|].
  split; [apply with_defaults_include_videos|].
  intros k Hk. rewrite dict_get_set_neq.
  - now apply with_defaults_other.
  - intros ->. apply Hk. cbn. auto.
Qed.

Lemma C7_question_count_replaced_witness :
  exists d',
    validate_request_data (VDict request_for_1000) = Ok (VDict d')
    /\ dict_get (VStr "question_count") d' = Some (VInt 20)
    /\ d' = dict_set (VStr "question_count") (VInt 20)
               (with_defaults request_for_1000)
    /\ dict_get (VStr "difficulty") d'
       = Some (or_default (dict_get (VStr "difficulty") request_for_1000)
                 (VStr "mixed"))
    /\ dict_get (VStr "include_roadmap") d'
       = Some (or_default (dict_get (VStr "include_roadmap") request_for_1000)
                 (VBool true))
    /\ dict_get (VStr "include_videos") d'
       = Some (or_default (dict_get (VStr "include_videos") request_for_1000)
                 (VBool true))
    /\ forall k,
         ~ In k ["difficulty"; "question_count"; "include_roadmap";
                 "include_videos"] ->
         dict_get (VStr k) d' = dict_get (VStr k) request_for_1000.
Proof.
  apply (C7_question_count_replaced request_for_1000 "john_doe" (VInt 1000)).
  - reflexivity.
  - reflexivity.
  - reflexivity.
  - reflexivity.
  - intros n [= <-]. lia.
Defined.

(** C8.  A [username] made of underscores only contains no character other
    than letters, digits, hyphen and underscore, and the request is failed
    all the same, with the message that the username must contain only such
    characters: nothing is left of the name once underscores and hyphens are
    removed, and [isalnum] is false on the empty string. *)
Theorem C8_underscores_rejected :
  validate_request_data
    (VDict [(VStr "username", VStr "__"); (VStr "topic", VStr "Python")])
  = Raise (MCQValidationError
             (InvalidRequestData (MCQValidationError UsernameFormat))).
Proof. reflexivity. Qed.

(** *** Metadata *)

Section Metadata.

Lemma py_eq_str_l (s : string) (b : value) :
  py_eq (VStr s) b = true <-> b = VStr s.
Proof.
  destruct b; simpl; try (split; discriminate).
  rewrite String.eqb_eq. split; [intros -> | intros [= ->]]; reflexivity.
Qed.

(** Setting any key, seen from a string key. *)
Lemma dict_get_str_set (s : string) (k v : value) (d : dict) :
  dict_get (VStr s) (dict_set k v d)
  = if py_eq k (VStr s) then Some v else dict_get (VStr s) d.
Proof.
  induction d as [|[k0 v0] d IH]; cbn [dict_set dict_get]; [reflexivity|].
  destruct (py_eq k0 k) eqn:E0; cbn [dict_get].
  - destruct (py_eq k0 (VStr s)) eqn:E1.
    + apply py_eq_str_r in E1. subst k0. apply py_eq_str_l in E0. subst k.
      now rewrite py_eq_str_refl.
    + destruct (py_eq k (VStr s)) eqn:E2; [|reflexivity].
      apply py_eq_str_r in E2. subst k. congruence.
  - destruct (py_eq k0 (VStr s)) eqn:E1; [|exact IH].
    apply py_eq_str_r in E1. subst k0.
    destruct (py_eq k (VStr s)) eqn:E2; [|reflexivity].
    apply py_eq_str_r in E2. subst k. now rewrite py_eq_str_refl in E0.
Qed.

Lemma counts_only_get (dist : dict) (k v : value) :
  counts_only dist -> dict_get k dist = Some v -> exists n, v = VInt n.
Proof.
  induction 1 as [|[k0 v0] d [n Hn] _ IH]; cbn; [discriminate|].
  destruct (py_eq k0 k); [|exact IH].
  intros [= <-]. cbn in Hn. eauto.
Qed.

Lemma counts_only_set (dist : dict) (k : value) (n : Z) :
  counts_only dist -> counts_only (dict_set k (VInt n) dist).
Proof.
  induction 1 as [|[k0 v0] d H0 Hd IH]; cbn.
  - repeat constructor. cbn. eauto.
  - destruct (py_eq k0 k); constructor; cbn; eauto.
Qed.

Lemma count_difficulty_ok (k : value) (dist : dict) :
  hashable k = true ->
  counts_only dist ->
  exists dist',
    count_difficulty k dist = Ok dist'
    /\ counts_only dist'
    /\ forall s,
         dict_get (VStr s) dist'
         = bucket_plus (dict_get (VStr s) dist)
             (if py_eq k (VStr s) then 1 else 0).
Proof.
  intros Hk Hc. unfold count_difficulty. rewrite Hk.
  destruct (dict_get k dist) as [v|] eqn:G.
  - destruct (counts_only_get _ _ _ Hc G) as [n ->].
    eexists. split; [reflexivity|]. split; [now apply counts_only_set|].
    intros s. rewrite dict_get_str_set.
    destruct (py_eq k (VStr s)) eqn:E; [|reflexivity].
    apply py_eq_str_r in E. subst k. rewrite G. reflexivity.
  - eexists. split; [reflexivity|]. split; [now apply counts_only_set|].
    intros s. rewrite dict_get_str_set.
    destruct (py_eq k (VStr s)) eqn:E; [|reflexivity].
    apply py_eq_str_r in E. subst k. rewrite G. reflexivity.
Qed.

Lemma bucket_plus_plus (bucket : option value) (n m : nat) :
  bucket_plus (bucket_plus bucket n) m = bucket_plus bucket (n + m).
Proof.
  destruct n as [|n]; [reflexivity|]. destruct m as [|m].
  - now rewrite Nat.add_0_r.
  - cbn [bucket_plus Nat.add]. f_equal. f_equal. lia.
Qed.

Lemma difficulty_loop_ok (questions : list value) :
  Forall countable questions ->
  forall dist,
    counts_only dist ->
    exists dist',
      difficulty_loop questions dist = Ok dist'
      /\ forall s,
           dict_get (VStr s) dist'
           = bucket_plus (dict_get (VStr s) dist) (occurrences s questions).
Proof.
  induction 1 as [|q rest [[qd ->] Hh] _ IH]; intros dist Hc.
  - exists dist. split; [reflexivity|]. intros s. reflexivity.
  - cbn [difficulty_loop].
    assert (G : get (VDict qd) "difficulty" (VStr "unknown")
                = Ok (difficulty_of (VDict qd))).
    { unfold difficulty_of, get.
      now destruct (dict_get (VStr "difficulty") qd). }
    rewrite G. cbn [bind].
    destruct (count_difficulty_ok _ dist Hh Hc) as (d1 & -> & Hc1 & H1).
    cbn [bind]. destruct (IH d1 Hc1) as (d2 & -> & H2).
    exists d2. split; [reflexivity|]. intros s.
    rewrite H2, H1, bucket_plus_plus. f_equal.
    unfold occurrences. cbn [filter].
    now destruct (py_eq (difficulty_of (VDict qd)) (VStr s)).
Qed.

Lemma dict_get_not_in (k : value) (d : dict) :
  isinstance_str k = true ->
  Forall (fun kv => isinstance_str (fst kv) = true) d ->
  ~ In k (map fst d) -> dict_get k d = None.
Proof.
  intros Hk. induction 1 as [|[k0 v0] d H0 _ IH]; cbn; [reflexivity|].
  intros Hn. destruct k; try discriminate.
  destruct (py_eq k0 (VStr s)) eqn:E.
  - apply py_eq_str_r in E. tauto.
  - apply IH. tauto.
Qed.

(** [metadata.update(existing)]: the keys of [existing] win. *)
Lemma update_get (existing : dict) :
  json_object existing ->
  forall (metadata : dict) (k : string),
    dict_get (VStr k)
      (fold_left (fun m kv => dict_set (fst kv) (snd kv) m) existing metadata)
    = match dict_get (VStr k) existing with
      | Some v => Some v
      | None => dict_get (VStr k) metadata
      end.
Proof.
  intros [Hs Hn]. induction existing as [|[k0 v0] rest IH]; intros metadata k;
    [reflexivity|].
  inversion Hs as [|? ? Hk0 Hs']; subst. inversion Hn as [|? ? Hnot Hn']; subst.
  cbn [fold_left fst snd dict_get]. rewrite (IH Hs' Hn').
  cbn [fst] in Hk0. destruct k0; try discriminate.
  rewrite dict_get_str_set.
  destruct (py_eq (VStr s) (VStr k)) eqn:E.
  - apply py_eq_str_r in E. injection E as ->.
    now rewrite (dict_get_not_in (VStr k) rest).
  - reflexivity.
Qed.

End Metadata.

(** The value of [_generate_metadata] on a repaired payload. *)
Lemma generate_metadata_value (now : string) (d : dict)
  (questions : list value) (existing : dict) :
  dict_get (VStr "questions") d = Some (VList questions) ->
  Forall countable questions ->
  (forall v, dict_get (VStr "roadmap") d = Some v ->
             isinstance_list v = true) ->
  (forall v, dict_get (VStr "reference_videos") d = Some v ->
             isinstance_list v = true) ->
  or_default (dict_get (VStr "metadata") d) (VDict []) = VDict existing ->
  exists dist roadmap_steps reference_video_count,
    (forall s,
        dict_get (VStr s) dist = bucket_plus None (occurrences s questions))
    /\ _generate_metadata now (VDict d)
       = Ok (VDict
               (fold_left (fun m kv => dict_set (fst kv) (snd kv) m) existing
                  (computed_metadata now (Z.of_nat (List.length questions))
                     dist
                     (or_default (dict_get (VStr "roadmap") d) VNone)
                     (or_default (dict_get (VStr "reference_videos") d) VNone)
                     roadmap_steps reference_video_count))).
Proof.
  intros Hq Hc Hr Hv He.
  destruct (difficulty_loop_ok questions Hc [] (Forall_nil _))
    as (dist & Hloop & Hdist).
  assert (Hlen : forall k,
             (forall v, dict_get (VStr k) d = Some v ->
                        isinstance_list v = true) ->
             exists n, (c <- get (VDict d) k (VList []) ;; len c) = Ok n).
  { intros k Hk. unfold get.
    destruct (dict_get (VStr k) d) as [v|]; cbn [bind].
    - specialize (Hk v eq_refl). destruct v; try discriminate.
      cbn. eauto.
    - cbn. eauto. }
  destruct (Hlen "roadmap" Hr) as (steps & Hsteps).
  destruct (Hlen "reference_videos" Hv) as (videos & Hvideos).
  exists dist, steps, videos. split; [exact Hdist|].
  unfold _generate_metadata. unfold get at 1. rewrite Hq. cbn [bind iter].
  rewrite Hloop. cbn [bind len].
  unfold get at 1 2. cbn [bind].
  assert (B : forall (A : Type) (o : option value) (default : value)
                (k : value -> result A),
             bind match o with Some v => Ok v | None => Ok default end k
             = k (or_default o default)).
  { intros A [v|] default k; reflexivity. }
  rewrite !B.
  apply bind_ok in Hsteps. destruct Hsteps as (r1 & Hr1 & Hl1).
  rewrite Hr1. cbn [bind]. rewrite Hl1. cbn [bind].
  apply bind_ok in Hvideos. destruct Hvideos as (r2 & Hr2 & Hl2).
  rewrite Hr2. cbn [bind]. rewrite Hl2. cbn [bind].
  unfold get. rewrite B, He. reflexivity.
Qed.

(** C6.  For a repaired payload (its questions are objects, its roadmap and
    videos are lists when present, its own metadata an object when present)
    the metadata is synthesized, and is the freshly computed mapping
    overridden key by key by the metadata the payload came with: the
    computed [total_questions] is the number of questions, and the computed
    [difficulty_distribution] maps every string that is the difficulty of
    some question, recognised or not, to the number of questions that have
    it, and no other string. *)
Theorem C6_metadata (now : string) (d : dict) (questions : list value)
  (existing : dict) :
  dict_get (VStr "questions") d = Some (VList questions) ->
  Forall countable questions ->
  (forall v, dict_get (VStr "roadmap") d = Some v ->
             isinstance_list v = true) ->
  (forall v, dict_get (VStr "reference_videos") d = Some v ->
             isinstance_list v = true) ->
  or_default (dict_get (VStr "metadata") d) (VDict []) = VDict existing ->
  json_object existing ->
  exists metadata computed dist,
    _generate_metadata now (VDict d) = Ok (VDict metadata)
    /\ dict_get (VStr "total_questions") computed
       = Some (VInt (Z.of_nat (List.length questions)))
    /\ dict_get (VStr "difficulty_distribution") computed = Some (VDict dist)
    /\ (forall s,
          dict_get (VStr s) dist
          = match occurrences s questions with
            | O => None
            | n => Some (VInt (Z.of_nat n))
            end)
    /\ (forall k,
          dict_get (VStr k) metadata
          = match dict_get (VStr k) existing with
            | Some v => Some v
            | None => dict_get (VStr k) computed
            end).
Proof.
  intros Hq Hc Hr Hv He Hj.
  destruct (generate_metadata_value now d questions existing Hq Hc Hr Hv He)
    as (dist & steps & videos & Hdist & Hvalue).
  eexists.
  exists (computed_metadata now (Z.of_nat (List.length questions)) dist
            (or_default (dict_get (VStr "roadmap") d) VNone)
            (or_default (dict_get (VStr "reference_videos") d) VNone)
            steps videos), dist.
  split; [exact Hvalue|].
  split; [reflexivity|]. split; [reflexivity|]. split.
  - intros s. rewrite Hdist.
    destruct (occurrences s questions); reflexivity.
  - intros k. now apply update_get.
Qed.

Lemma C6_metadata_witness :
  exists metadata computed dist,
    _generate_metadata "2024-01-15T10:30:00" (VDict counted_payload)
    = Ok (VDict metadata)
    /\ dict_get (VStr "total_questions") computed
       = Some (VInt (Z.of_nat (List.length counted_questions)))
    /\ dict_get (VStr "difficulty_distribution") computed = Some (VDict dist)
    /\ (forall s,
          dict_get (VStr s) dist
          = match occurrences s counted_questions with
            | O => None
            | n => Some (VInt (Z.of_nat n))
            end)
    /\ (forall k,
          dict_get (VStr k) metadata
          = match dict_get (VStr k) supplied_metadata with
            | Some v => Some v
            | None => dict_get (VStr k) computed
            end).
Proof.
  apply (C6_metadata "2024-01-15T10:30:00" counted_payload counted_questions
           supplied_metadata).
  - reflexivity.
  - repeat constructor; eexists; reflexivity.
  - intros v H. discriminate H.
  - intros v H. discriminate H.
  - reflexivity.
  - split.
    + repeat constructor.
    + repeat constructor; simpl; intuition discriminate.
Defined.

(** *** The whole repair *)

Section WholeRepair.

Variable json_loads : string -> option value.
Variable MCQResponse_dict : dict -> option value.
Variable now : string.

(** When the schema model rejects the repaired mapping, the mapping is
    returned as it is. *)
Lemma rejected_mapping_returned (mcq_json_str : value) (d : dict) :
  repair_steps json_loads now mcq_json_str = Ok (VDict d) ->
  forallb (fun kv => isinstance_str (fst kv)) d = true ->
  MCQResponse_dict d = None ->
  validate_mcq_json json_loads MCQResponse_dict now mcq_json_str
  = Ok (VDict d).
Proof.
  intros Hr Hk Hn. unfold validate_mcq_json. rewrite Hr. cbn [bind].
  unfold final_validation. now rewrite Hk, Hn.
Qed.

(** The operation raises nothing but [MCQValidationError]. *)
Lemma typed_failure_only (mcq_json_str : value) (e : exn) :
  validate_mcq_json json_loads MCQResponse_dict now mcq_json_str = Raise e ->
  exists m, e = MCQValidationError m.
Proof.
  unfold validate_mcq_json.
  destruct (bind _ _) as [v|[]]; intros [= <-]; eauto.
Qed.

End WholeRepair.

(** The scenario repairs to a mapping that the schema model rejects (its
    [question_text], "Q?", is shorter than ten characters), and that mapping
    is the value returned. *)
Lemma scenario_returned_unvalidated :
  exists d,
    validate_mcq_json (fun _ => None) Models.MCQResponse "2024-01-15T10:30:00"
      (VDict scenario_payload) = Ok (VDict d)
    /\ Models.MCQResponse d = None.
Proof. eexists. split; reflexivity. Qed.

(** C10.  The operation raises its typed failure on a payload that parses,
    is a mapping, has [username], [topic] and a list of questions, and whose
    only question survives repair: with ["roadmap": null] the length of the
    roadmap cannot be taken when the metadata is built, and the [TypeError]
    leaves as [MCQValidationError], whatever the parser and the schema model
    do.  Without the [roadmap] key the same payload is repaired. *)
Theorem C10_null_roadmap_fails (json_loads : string -> option value)
  (MCQResponse_dict : dict -> option value) (now : string) :
  validate_mcq_json json_loads MCQResponse_dict now
    (VDict payload_with_null_roadmap)
  = Raise (MCQValidationError (ErrorValidatingMCQData TypeError))
  /\ succeeds (validate_mcq_json json_loads MCQResponse_dict now
                 (VDict payload_without_roadmap)) = true.
Proof.
  split; [reflexivity|].
  unfold validate_mcq_json. cbn.
  now destruct (MCQResponse_dict _).
Qed.

(** *** Repairing what needs no repair *)

Section Settled.

Lemma isinstance_dict_is_dict (options : list value) :
  forallb isinstance_dict options = true -> Forall is_dict options.
Proof.
  intros H. apply Forall_forall. intros o Ho.
  rewrite forallb_forall in H. specialize (H o Ho).
  destruct o; try discriminate. now eexists.
Qed.

(** Four options of which one is marked correct are returned as they
    are. *)
Lemma options_settled (options : list value) (question_id : value) :
  List.length options = 4%nat ->
  Forall is_dict options ->
  correct_count options = 1%nat ->
  _validate_question_options (VList options) question_id = Ok (VList options).
Proof.
  intros Hl Hd Hc. unfold _validate_question_options.
  rewrite Hl. cbn [Nat.eqb]. rewrite (correct_options_of_dicts _ Hd).
  cbn [bind]. fold (correct_count options). now rewrite Hc.
Qed.

Lemma question_settled (i : nat) (q : value) :
  settled_question q = true -> validate_question i q = Ok q.
Proof.
  destruct q; try discriminate. cbn [settled_question].
  rewrite !andb_true_iff. intros [[[[Hid Hreq] Harea] _] Hopt].
  rewrite validate_question_dict. unfold with_id. rewrite Hid.
  rewrite require_fields_dict.
  assert (F : find (fun f => negb (dict_has (VStr f) d))
                question_required_fields = None).
  { rewrite forallb_forall in Hreq.
    destruct (find _ question_required_fields) as [f|] eqn:E; [|reflexivity].
    apply find_some in E. destruct E as [Hin Hf].
    rewrite (Hreq f Hin) in Hf. discriminate. }
  rewrite F. cbn [bind].
  destruct (dict_get (VStr "options") d) as [[]|] eqn:G; try discriminate.
  rewrite !andb_true_iff in Hopt. destruct Hopt as [[Hl Hd] Hc].
  apply Nat.eqb_eq in Hl, Hc. apply isinstance_dict_is_dict in Hd.
  cbn [or_default]. rewrite (options_settled _ _ Hl Hd Hc). cbn [bind].
  rewrite (dict_set_same _ _ _ G). unfold with_area. now rewrite Harea.
Qed.

Lemma survivors_settled (questions : list value) (i : nat) :
  forallb settled_question questions = true ->
  survivors i questions = questions.
Proof.
  revert i. induction questions as [|q rest IH]; intros i; [reflexivity|].
  cbn [forallb survivors]. rewrite andb_true_iff. intros [Hq Hr].
  now rewrite (question_settled i q Hq), IH.
Qed.

Lemma step_settled (i : nat) (step : value) :
  settled_step step = true -> validate_step i step = Ok step.
Proof.
  destruct step; try discriminate. cbn [settled_step].
  rewrite andb_true_iff. intros [Hn Hp].
  rewrite validate_step_dict. unfold with_step_number. rewrite Hn.
  unfold with_prerequisites.
  now destruct (dict_get (VStr "prerequisites") d) as [[]|].
Qed.

Lemma roadmap_settled (steps : list value) (i : nat) (validated : list value) :
  forallb settled_step steps = true ->
  roadmap_loop i steps validated = validated ++ steps.
Proof.
  revert i validated. induction steps as [|s rest IH]; intros i validated.
  - now rewrite app_nil_r.
  - cbn [forallb roadmap_loop]. rewrite andb_true_iff. intros [Hs Hr].
    rewrite (step_settled i s Hs), IH by assumption.
    now rewrite <- app_assoc.
Qed.

Lemma video_settled (i : nat) (video : value) :
  settled_video video = true -> validate_video i video = Ok (Some video).
Proof.
  destruct video; try discriminate. cbn [settled_video].
  rewrite !andb_true_iff. intros [[Hu Hd] He].
  rewrite validate_video_dict.
  destruct (dict_get (VStr "url") d) as [[]|]; try discriminate.
  rewrite Hu. unfold with_video_defaults. now rewrite Hd, He.
Qed.

Lemma videos_settled (videos : list value) (i : nat) (validated : list value) :
  forallb settled_video videos = true ->
  videos_loop i videos validated = validated ++ videos.
Proof.
  revert i validated. induction videos as [|v rest IH]; intros i validated.
  - now rewrite app_nil_r.
  - cbn [forallb videos_loop]. rewrite andb_true_iff. intros [Hv Hr].
    rewrite (video_settled i v Hv), IH by assumption.
    now rewrite <- app_assoc.
Qed.

Lemma check_required_present (now : string) (d : dict) (fields : list string) :
  forallb (fun f => dict_has (VStr f) d) fields = true ->
  check_required now (VDict d) fields = Ok (VDict d).
Proof.
  induction fields as [|f rest IH]; [reflexivity|].
  cbn [forallb check_required]. rewrite andb_true_iff. intros [Hf Hr].
  rewrite py_not_in_dict, Hf. cbn [bind negb]. now apply IH.
Qed.

Lemma string_keys_set (k : string) (v : value) (d : dict) :
  forallb (fun kv => isinstance_str (fst kv)) d = true ->
  forallb (fun kv => isinstance_str (fst kv)) (dict_set (VStr k) v d) = true.
Proof.
  induction d as [|[k0 v0] d IH]; cbn; [reflexivity|].
  rewrite andb_true_iff. intros [H0 Hd].
  destruct (py_eq k0 (VStr k)); cbn; rewrite H0; auto.
Qed.

End Settled.

(** C5 (as amended).  A response in which every question already carries
    [question_id], the four required fields, [topic_area] and four options
    of which exactly one is marked correct, every roadmap step carries
    [step_number] and a list of [prerequisites], every video carries an
    http(s) [url], [duration] and [description], and [roadmap],
    [reference_videos] and [metadata] are absent or a list / a mapping, is
    repaired to itself with [metadata] recomputed: that mapping is what the
    final validation receives, and what the operation returns, rendered by
    the schema model when the model accepts it. *)
Theorem C5_settled_response_unchanged
  (json_loads : string -> option value)
  (MCQResponse_dict : dict -> option value) (now : string) (d : dict) :
  settled_response d = true ->
  exists metadata,
    _generate_metadata now (VDict d) = Ok (VDict metadata)
    /\ repair_steps json_loads now (VDict d)
       = Ok (VDict (dict_set (VStr "metadata") (VDict metadata) d))
    /\ validate_mcq_json json_loads MCQResponse_dict now (VDict d)
       = Ok match MCQResponse_dict
                    (dict_set (VStr "metadata") (VDict metadata) d) with
            | Some validated => validated
            | None => VDict (dict_set (VStr "metadata") (VDict metadata) d)
            end.
Proof.
  unfold settled_response. rewrite !andb_true_iff.
  intros [[[[[Hkeys Hreq] Hq] Hr] Hv] Hm].
  destruct (dict_get (VStr "questions") d) as [[| | | | |[|q questions]|]|]
    eqn:Q; try discriminate.
  set (qs := q :: questions) in *.
  (* the metadata *)
  assert (Hc : Forall countable qs).
  { apply Forall_forall. intros x Hx. rewrite forallb_forall in Hq.
    specialize (Hq x Hx). destruct x; try discriminate.
    cbn [settled_question] in Hq. rewrite !andb_true_iff in Hq.
    split; [now eexists | tauto]. }
  assert (Hlist : forall k,
             settled_list (if (k =? "roadmap")%string then settled_step
                           else settled_video)
               (dict_get (VStr k) d) = true ->
             forall v, dict_get (VStr k) d = Some v -> isinstance_list v = true).
  { intros k Hk v Hv'. rewrite Hv' in Hk. now destruct v. }
  assert (He : exists existing,
             or_default (dict_get (VStr "metadata") d) (VDict [])
             = VDict existing).
  { destruct (dict_get (VStr "metadata") d) as [[]|]; try discriminate;
      cbn; eauto. }
  destruct He as [existing He].
  destruct (generate_metadata_value now d qs existing Q Hc
              (Hlist "roadmap" Hr) (Hlist "reference_videos" Hv) He)
    as (dist & steps & videos & _ & Hmeta).
  eexists. split; [exact Hmeta|].
  (* the repair steps *)
  assert (Hsteps : repair_steps json_loads now (VDict d)
                   = (metadata <- _generate_metadata now (VDict d) ;;
                      setitem (VDict d) "metadata" metadata)).
  { unfold repair_steps. cbn [_parse_json_input bind].
    unfold _validate_basic_structure.
    rewrite check_required_present.
    2:{ cbn [forallb] in *. unfold dict_has at 4. rewrite Q.
        now rewrite !andb_true_r in *. }
    cbn [bind]. unfold getitem at 1. rewrite Q.
    cbn [bind isinstance_list negb]. unfold get at 1. rewrite Q.
    cbn [bind]. unfold _validate_questions. cbn [iter bind].
    rewrite questions_loop_survivors, (survivors_settled qs 0 Hq).
    cbn [app qs List.length Nat.eqb bind setitem].
    rewrite (dict_set_same _ _ _ Q).
    (* roadmap *)
    unfold get at 1.
    assert (R : forall rest : value -> result value,
               (mcq_data <-
                  (if truthy (or_default (dict_get (VStr "roadmap") d) VNone)
                   then roadmap <- getitem (VDict d) "roadmap" ;;
                        setitem (VDict d) "roadmap" (_validate_roadmap roadmap)
                   else Ok (VDict d)) ;; rest mcq_data)
               = rest (VDict d)).
    { intros rest. unfold getitem.
      destruct (dict_get (VStr "roadmap") d) as [[| | | | |l|]|] eqn:G;
        try discriminate; try reflexivity.
      destruct l as [|s l]; [reflexivity|].
      cbn [or_default truthy bind _validate_roadmap].
      rewrite roadmap_settled by exact Hr. cbn [app setitem bind].
      now rewrite (dict_set_same _ _ _ G). }
    assert (V : forall rest : value -> result value,
               (mcq_data <-
                  (if truthy (or_default
                                (dict_get (VStr "reference_videos") d) VNone)
                   then reference_videos <-
                          getitem (VDict d) "reference_videos" ;;
                        setitem (VDict d) "reference_videos"
                          (_validate_reference_videos reference_videos)
                   else Ok (VDict d)) ;; rest mcq_data)
               = rest (VDict d)).
    { intros rest. unfold getitem.
      destruct (dict_get (VStr "reference_videos") d) as [[| | | | |l|]|]
        eqn:G; try discriminate; try reflexivity.
      destruct l as [|s l]; [reflexivity|].
      cbn [or_default truthy bind _validate_reference_videos].
      rewrite videos_settled by exact Hv. cbn [app setitem bind].
      now rewrite (dict_set_same _ _ _ G). }
    assert (B : forall (o : option value) (default : value)
                  (k : value -> result value),
               bind match o with Some v => Ok v | None => Ok default end k
               = k (or_default o default)).
    { intros [v|] default k; reflexivity. }
    rewrite B, R. unfold get at 1. rewrite B, V. reflexivity. }
  rewrite Hsteps, Hmeta. cbn [bind setitem]. split; [reflexivity|].
  unfold validate_mcq_json. rewrite Hsteps, Hmeta.
  cbn [bind setitem final_validation].
  rewrite string_keys_set by exact Hkeys.
  now destruct (MCQResponse_dict _).
Qed.

Lemma C5_settled_response_unchanged_witness :
  exists metadata,
    _generate_metadata "2024-01-15T10:31:00" (VDict settled_payload)
    = Ok (VDict metadata)
    /\ repair_steps (fun _ => None) "2024-01-15T10:31:00"
         (VDict settled_payload)
       = Ok (VDict (dict_set (VStr "metadata") (VDict metadata)
                      settled_payload))
    /\ validate_mcq_json (fun _ => None) Models.MCQResponse
         "2024-01-15T10:31:00" (VDict settled_payload)
       = Ok match Models.MCQResponse
                    (dict_set (VStr "metadata") (VDict metadata)
                       settled_payload) with
            | Some validated => validated
            | None => VDict (dict_set (VStr "metadata") (VDict metadata)
                               settled_payload)
            end.
Proof.
  apply (C5_settled_response_unchanged (fun _ => None) Models.MCQResponse
           "2024-01-15T10:31:00" settled_payload).
  reflexivity.
Defined.

(** C5, as stated, fails: a response that the schema model accepts, with
    four options of which one is correct and every required field, comes
    back with its question changed, [topic_area] being set to "General". *)
Lemma C5_counterexample :
  Models.MCQResponse response_without_area <> None
  /\ exists repaired returned,
       repair_steps (fun _ => None) "2024-01-15T10:31:00"
         (VDict response_without_area) = Ok (VDict repaired)
       /\ dict_get (VStr "questions") repaired
          <> dict_get (VStr "questions") response_without_area
       /\ validate_mcq_json (fun _ => None) Models.MCQResponse
            "2024-01-15T10:31:00" (VDict response_without_area)
          = Ok (VDict returned)
       /\ dict_get (VStr "questions") returned
          <> dict_get (VStr "questions") response_without_area.
Proof.
  split; [discriminate|].
  eexists. eexists.
  split; [reflexivity|]. split; [discriminate|].
  split; [reflexivity|]. discriminate.
Qed.

(** *** Strings and the cleaning of a JSON text *)

Section Cleaning.

Lemma append_assoc (a b c : string) : ((a ++ b) ++ c = a ++ (b ++ c))%string.
Proof. induction a as [|x a IH]; cbn; [reflexivity | now rewrite IH]. Qed.

Lemma append_empty (a : string) : (a ++ "" = a)%string.
Proof. induction a as [|x a IH]; cbn; [reflexivity | now rewrite IH]. Qed.

Lemma length_append (a b : string) :
  String.length (a ++ b) = (String.length a + String.length b)%nat.
Proof. induction a as [|x a IH]; cbn; [reflexivity | now rewrite IH]. Qed.

Lemma substring_all (b : string) : substring 0 (String.length b) b = b.
Proof. induction b as [|x b IH]; cbn; [reflexivity | now rewrite IH]. Qed.

Lemma substring_skip (a b : string) :
  substring (String.length a) (String.length b) (a ++ b) = b.
Proof. induction a as [|x a IH]; cbn; [apply substring_all | exact IH]. Qed.

Lemma substring_take (a b : string) :
  substring 0 (String.length a) (a ++ b) = a.
Proof.
  induction a as [|x a IH]; cbn; [now destruct b | now rewrite IH].
Qed.

Lemma prefix_append (a b : string) : prefix a (a ++ b) = true.
Proof.
  apply prefix_correct. apply substring_take.
Qed.

Lemma lstrip_spaces (ws s : string) :
  all_chars is_space ws = true -> lstrip (ws ++ s) = lstrip s.
Proof.
  induction ws as [|c ws IH]; cbn; [reflexivity|].
  rewrite andb_true_iff. intros [Hc Hws]. rewrite Hc. now apply IH.
Qed.

Lemma rstrip_spaces (ws : string) :
  all_chars is_space ws = true -> rstrip ws = "".
Proof.
  induction ws as [|c ws IH]; cbn; [reflexivity|].
  rewrite andb_true_iff. intros [Hc Hws]. now rewrite (IH Hws), Hc.
Qed.

Lemma rstrip_append (s t : string) :
  rstrip (s ++ t)
  = if (rstrip t =? "")%string then rstrip s else (s ++ rstrip t)%string.
Proof.
  induction s as [|c s IH]; cbn [append rstrip].
  - destruct (rstrip t =? "")%string eqn:E; [|reflexivity].
    now apply String.eqb_eq in E.
  - rewrite IH. destruct (rstrip t =? "")%string eqn:E; [reflexivity|].
    apply String.eqb_neq in E.
    destruct (s ++ rstrip t)%string eqn:A; [|reflexivity].
    destruct s; [cbn in A; contradiction | discriminate].
Qed.

End Cleaning.

(** X1.  A JSON text inside a code fence, [```json] before and [```] after,
    with any white space around the fence, is cleaned to the text between
    the two markers, stripped. *)
Theorem X1_fence_removed (before after body : string) :
  all_chars is_space before = true ->
  all_chars is_space after = true ->
  clean_json (before ++ fence_open ++ body ++ fence_close ++ after)
  = strip body.
Proof.
  intros Hb Ha. unfold clean_json.
  assert (S : strip (before ++ fence_open ++ body ++ fence_close ++ after)
              = (fence_open ++ body ++ fence_close)%string).
  { unfold strip. rewrite (lstrip_spaces _ _ Hb).
    change (lstrip (fence_open ++ body ++ fence_close ++ after))
      with (fence_open ++ body ++ fence_close ++ after)%string.
    rewrite <- !append_assoc, rstrip_append, (rstrip_spaces _ Ha).
    cbn [String.eqb]. rewrite rstrip_append. cbn.
    now rewrite ?append_assoc. }
  rewrite S. unfold startswith. rewrite prefix_append.
  assert (D : drop 7 (fence_open ++ body ++ fence_close)
              = (body ++ fence_close)%string).
  { unfold drop. rewrite length_append.
    replace (String.length fence_open + String.length (body ++ fence_close) - 7)%nat
      with (String.length (body ++ fence_close)) by (cbn; lia).
    apply (substring_skip fence_open). }
  rewrite D.
  assert (E : endswith (body ++ fence_close) fence_close = true).
  { unfold endswith. rewrite length_append.
    replace (String.length body + String.length fence_close
             - String.length fence_close)%nat
      with (String.length body) by lia.
    rewrite substring_skip, String.eqb_refl.
    apply andb_true_iff. split; [apply Nat.leb_le; lia | reflexivity]. }
  rewrite E. f_equal. unfold drop_last. rewrite length_append.
  replace (String.length body + String.length fence_close - 3)%nat
    with (String.length body) by (cbn; lia).
  apply substring_take.
Qed.

Lemma X1_fence_removed_witness :
  clean_json ("  " ++ fence_open ++ "
{}
" ++ fence_close ++ "
")
  = strip "
{}
".
Proof.
  apply (X1_fence_removed "  " "
" "
{}
"); reflexivity.
Defined.

(** *** The top-level structure *)

Section BasicStructure.

(** [_validate_basic_structure] on a dict, case by case. *)
Lemma basic_structure_dict (now : string) (d : dict) :
  _validate_basic_structure now (VDict d) =
  if negb (dict_has (VStr "username") d)
  then Raise (MCQValidationError (MissingRequiredField "username"))
  else if negb (dict_has (VStr "topic") d)
  then Raise (MCQValidationError (MissingRequiredField "topic"))
  else if negb (dict_has (VStr "questions") d)
  then Raise (MCQValidationError (MissingRequiredField "questions"))
  else match dict_get (VStr "questions") d with
       | Some (VList _) => Ok (VDict (with_timestamp now d))
       | _ => Raise (MCQValidationError QuestionsMustBeArray)
       end.
Proof.
  unfold _validate_basic_structure. cbn [check_required].
  rewrite py_not_in_dict. cbn [bind String.eqb Ascii.eqb Bool.eqb].
  destruct (dict_has (VStr "username") d); cbn [negb bind]; [|reflexivity].
  rewrite py_not_in_dict. cbn [bind String.eqb Ascii.eqb Bool.eqb].
  destruct (dict_has (VStr "topic") d); cbn [negb bind]; [|reflexivity].
  rewrite py_not_in_dict. cbn [bind String.eqb Ascii.eqb Bool.eqb].
  unfold with_timestamp.
  destruct (dict_has (VStr "timestamp") d); cbn [negb setitem bind];
    rewrite py_not_in_dict; cbn [bind];
    rewrite ?dict_has_set_neq by discriminate;
    (destruct (dict_has (VStr "questions") d) eqn:Q; cbn [negb bind];
     [|reflexivity]);
    unfold getitem; rewrite ?dict_get_set_neq by discriminate;
    unfold dict_has in Q;
    (destruct (dict_get (VStr "questions") d) as [v|]; [|discriminate]);
    cbn [bind]; now destruct v.
Qed.

(** Nothing but a dict gets through: a string or a list can hold the four
    names, and then cannot be indexed by them. *)
Lemma basic_structure_not_dict (now : string) (v v' : value) :
  _validate_basic_structure now v = Ok v' -> exists d, v = VDict d.
Proof.
  unfold _validate_basic_structure.
  destruct v; try discriminate; [| |eauto]; cbn [check_required py_not_in py_in bind].
  - repeat match goal with
           | |- context [is_substring ?a ?b] => destruct (is_substring a b)
           end; cbn; discriminate.
  - repeat match goal with
           | |- context [existsb ?f ?b] => destruct (existsb f b)
           end; cbn; discriminate.
Qed.

End BasicStructure.

(** X2.  [_validate_basic_structure] returns exactly on a mapping that has
    [username], [topic] and a list under [questions]; what it returns is
    that mapping, with [timestamp] set to the current time when it had none
    and nothing else touched. *)
Theorem X2_basic_structure_accepts (now : string) (v v' : value) :
  _validate_basic_structure now v = Ok v' <->
  exists d questions,
    v = VDict d
    /\ dict_has (VStr "username") d = true
    /\ dict_has (VStr "topic") d = true
    /\ dict_get (VStr "questions") d = Some (VList questions)
    /\ v' = VDict (with_timestamp now d).
Proof.
  split.
  - intros H. destruct (basic_structure_not_dict _ _ _ H) as [d ->].
    rewrite basic_structure_dict in H.
    destruct (dict_has (VStr "username") d) eqn:Hu; cbn [negb] in H;
      [|discriminate].
    destruct (dict_has (VStr "topic") d) eqn:Ht; cbn [negb] in H;
      [|discriminate].
    destruct (dict_has (VStr "questions") d); cbn [negb] in H; [|discriminate].
    destruct (dict_get (VStr "questions") d) as [[]|] eqn:Hq;
      try discriminate.
    injection H as <-. exists d, l. repeat split; auto.
  - intros (d & questions & -> & Hu & Ht & Hq & ->).
    rewrite basic_structure_dict, Hu, Ht. unfold dict_has. now rewrite Hq.
Qed.

(** X3.  On a mapping, the failure of [_validate_basic_structure] names the
    first of [username], [topic], [questions] that is missing, in that
    order; a missing [timestamp] is never a failure; and, with the three
    present, [questions] that is not a list fails with "'questions' must be
    an array". *)
Theorem X3_basic_structure_errors (now : string) (d : dict) :
  _validate_basic_structure now (VDict d) =
  if negb (dict_has (VStr "username") d)
  then Raise (MCQValidationError (MissingRequiredField "username"))
  else if negb (dict_has (VStr "topic") d)
  then Raise (MCQValidationError (MissingRequiredField "topic"))
  else if negb (dict_has (VStr "questions") d)
  then Raise (MCQValidationError (MissingRequiredField "questions"))
  else match dict_get (VStr "questions") d with
       | Some (VList _) => Ok (VDict (with_timestamp now d))
       | _ => Raise (MCQValidationError QuestionsMustBeArray)
       end.
Proof. exact (basic_structure_dict now d). Qed.

(** *** What the operation raises *)

Section Quiet.

Lemma quiet_bind {A B : Type} (m : result A) (k : A -> result B) :
  quiet m -> (forall a, m = Ok a -> quiet (k a)) -> quiet (bind m k).
Proof.
  unfold quiet. destruct m as [a|e]; cbn; [auto|].
  intros H _ [= ->]. now apply H.
Qed.

Lemma quiet_ok {A : Type} (a : A) : quiet (Ok a).
Proof. discriminate. Qed.

Lemma quiet_py_not_in (k c : value) : quiet (py_not_in k c).
Proof.
  unfold quiet, py_not_in, py_in.
  destruct c; cbn; try discriminate.
  - destruct k; discriminate.
  - destruct (hashable k); discriminate.
Qed.

Lemma quiet_getitem (c : value) (k : string) : quiet (getitem c k).
Proof.
  unfold quiet, getitem. destruct c; try discriminate.
  destruct (dict_get (VStr k) d); discriminate.
Qed.

Lemma quiet_setitem (c : value) (k : string) (v : value) :
  quiet (setitem c k v).
Proof. unfold quiet, setitem. destruct c; discriminate. Qed.

Lemma quiet_get (c : value) (k : string) (default : value) :
  quiet (get c k default).
Proof.
  unfold quiet, get. destruct c; try discriminate.
  destruct (dict_get (VStr k) d); discriminate.
Qed.

Lemma quiet_len (c : value) : quiet (len c).
Proof. unfold quiet, len. destruct c; discriminate. Qed.

Lemma quiet_iter (c : value) : quiet (iter c).
Proof. unfold quiet, iter. destruct c; discriminate. Qed.

Lemma quiet_check_required (now : string) (fields : list string)
  (mcq_data : value) : quiet (check_required now mcq_data fields).
Proof.
  revert mcq_data. induction fields as [|f rest IH]; intros mcq_data;
    cbn [check_required]; [apply quiet_ok|].
  apply quiet_bind; [apply quiet_py_not_in|]. intros [] _; [|apply IH].
  destruct (f =? "timestamp")%string; [|discriminate].
  apply quiet_bind; [apply quiet_setitem | intros; apply IH].
Qed.

Lemma quiet_basic_structure (now : string) (mcq_data : value) :
  quiet (_validate_basic_structure now mcq_data).
Proof.
  unfold _validate_basic_structure.
  apply quiet_bind; [apply quiet_check_required|]. intros a _.
  apply quiet_bind; [apply quiet_getitem|]. intros q _.
  destruct (negb (isinstance_list q)); discriminate.
Qed.

Lemma quiet_questions (questions : value) : quiet (_validate_questions questions).
Proof.
  unfold _validate_questions.
  apply quiet_bind; [apply quiet_iter|]. intros items _.
  destruct (_ =? _)%nat; discriminate.
Qed.

Lemma quiet_difficulty_loop (questions : list value) (dist : dict) :
  quiet (difficulty_loop questions dist).
Proof.
  revert dist. induction questions as [|q rest IH]; intros dist;
    cbn [difficulty_loop]; [apply quiet_ok|].
  apply quiet_bind; [apply quiet_get|]. intros difficulty _.
  apply quiet_bind; [|intros; apply IH].
  unfold quiet, count_difficulty. destruct (hashable difficulty);
    [|discriminate].
  destruct (dict_get difficulty dist) as [[]|]; discriminate.
Qed.

Lemma quiet_update_pairs (items : list value) (metadata : dict) :
  quiet (update_pairs metadata items).
Proof.
  revert metadata. induction items as [|x rest IH]; intros metadata;
    cbn [update_pairs]; [apply quiet_ok|].
  apply quiet_bind; [|intros; apply IH].
  unfold pair_of. apply quiet_bind; [apply quiet_iter|]. intros l _.
  destruct l as [|k [|v [|]]]; try discriminate.
  destruct (hashable k); discriminate.
Qed.

Lemma quiet_generate_metadata (now : string) (mcq_data : value) :
  quiet (_generate_metadata now mcq_data).
Proof.
  unfold _generate_metadata.
  repeat (apply quiet_bind;
          [first [apply quiet_get | apply quiet_iter | apply quiet_len
                 | apply quiet_difficulty_loop]|]; intros ? _).
  apply quiet_bind; [|intros; apply quiet_ok].
  match goal with
  | |- quiet (dict_update _ ?e) => unfold dict_update; destruct e
  end; try apply quiet_ok;
    (apply quiet_bind; [apply quiet_iter | intros; apply quiet_update_pairs]).
Qed.

Section WithLibraries.

Variable json_loads : string -> option value.
Variable MCQResponse_dict : dict -> option value.
Variable now : string.

(** Everything after the parsing is quiet. *)
Lemma quiet_after_parsing (mcq_data : value) :
  quiet (mcq_data <- _validate_basic_structure now mcq_data ;;
         questions <- get mcq_data "questions" (VList []) ;;
         questions <- _validate_questions questions ;;
         mcq_data <- setitem mcq_data "questions" questions ;;
         roadmap <- get mcq_data "roadmap" VNone ;;
         mcq_data <- (if truthy roadmap
                      then roadmap <- getitem mcq_data "roadmap" ;;
                           setitem mcq_data "roadmap" (_validate_roadmap roadmap)
                      else Ok mcq_data) ;;
         reference_videos <- get mcq_data "reference_videos" VNone ;;
         mcq_data <- (if truthy reference_videos
                      then reference_videos <-
                             getitem mcq_data "reference_videos" ;;
                           setitem mcq_data "reference_videos"
                             (_validate_reference_videos reference_videos)
                      else Ok mcq_data) ;;
         metadata <- _generate_metadata now mcq_data ;;
         mcq_data <- setitem mcq_data "metadata" metadata ;;
         final_validation MCQResponse_dict mcq_data).
Proof.
  apply quiet_bind; [apply quiet_basic_structure|]. intros ? _.
  apply quiet_bind; [apply quiet_get|]. intros ? _.
  apply quiet_bind; [apply quiet_questions|]. intros ? _.
  apply quiet_bind; [apply quiet_setitem|]. intros ? _.
  apply quiet_bind; [apply quiet_get|]. intros r _.
  apply quiet_bind.
  { destruct (truthy r); [|apply quiet_ok].
    apply quiet_bind; [apply quiet_getitem | intros; apply quiet_setitem]. }
  intros ? _.
  apply quiet_bind; [apply quiet_get|]. intros r' _.
  apply quiet_bind.
  { destruct (truthy r'); [|apply quiet_ok].
    apply quiet_bind; [apply quiet_getitem | intros; apply quiet_setitem]. }
  intros ? _.
  apply quiet_bind; [apply quiet_generate_metadata|]. intros ? _.
  apply quiet_bind; [apply quiet_setitem|]. intros m _.
  unfold quiet, final_validation. destruct m; try discriminate.
  destruct (forallb _ d); [|discriminate].
  destruct (MCQResponse_dict d); discriminate.
Qed.

(** The body of the [try] of [validate_mcq_json], with the parsed value put
    first. *)
Lemma body_after_parsing (mcq_json_str : value) :
  (mcq_data <- repair_steps json_loads now mcq_json_str ;;
   final_validation MCQResponse_dict mcq_data)
  = (mcq_data <- _parse_json_input json_loads mcq_json_str ;;
     mcq_data <- _validate_basic_structure now mcq_data ;;
     questions <- get mcq_data "questions" (VList []) ;;
     questions <- _validate_questions questions ;;
     mcq_data <- setitem mcq_data "questions" questions ;;
     roadmap <- get mcq_data "roadmap" VNone ;;
     mcq_data <- (if truthy roadmap
                  then roadmap <- getitem mcq_data "roadmap" ;;
                       setitem mcq_data "roadmap" (_validate_roadmap roadmap)
                  else Ok mcq_data) ;;
     reference_videos <- get mcq_data "reference_videos" VNone ;;
     mcq_data <- (if truthy reference_videos
                  then reference_videos <-
                         getitem mcq_data "reference_videos" ;;
                       setitem mcq_data "reference_videos"
                         (_validate_reference_videos reference_videos)
                  else Ok mcq_data) ;;
     metadata <- _generate_metadata now mcq_data ;;
     mcq_data <- setitem mcq_data "metadata" metadata ;;
     final_validation MCQResponse_dict mcq_data).
Proof.
  unfold repair_steps.
  repeat match goal with
         | |- bind (bind ?m ?k) ?k' = _ =>
             destruct m; cbn [bind]; [|reflexivity]
         end; reflexivity.
Qed.

End WithLibraries.

End Quiet.

(** X4.  Only a mapping is repaired: when [validate_mcq_json] returns, its
    argument was a dict, or a text that, once cleaned, parses to a dict.  A
    text that parses to a list, a string or a number fails, as does an
    argument that is neither a dict nor a text. *)
Theorem X4_only_mappings_repaired (json_loads : string -> option value)
  (MCQResponse_dict : dict -> option value) (now : string)
  (mcq_json_str returned : value) :
  validate_mcq_json json_loads MCQResponse_dict now mcq_json_str
  = Ok returned ->
  (exists d, mcq_json_str = VDict d)
  \/ (exists s d, mcq_json_str = VStr s
                  /\ json_loads (clean_json s) = Some (VDict d)).
Proof.
  unfold validate_mcq_json. rewrite body_after_parsing. intros H.
  destruct mcq_json_str; try discriminate H; [|eauto].
  right. exists s. cbn [_parse_json_input] in H.
  destruct (json_loads (clean_json s)) as [v|]; [|discriminate H].
  cbn [bind] in H.
  match type of H with
  | match ?b with _ => _ end = _ => destruct b as [r|e] eqn:B
  end; [|destruct e; discriminate H].
  bind_inv B. destruct (basic_structure_not_dict _ _ _ Ha) as [d ->]. eauto.
Qed.

Lemma X4_only_mappings_repaired_witness :
  (exists d, VDict scenario_payload = VDict d)
  \/ (exists s d, VDict scenario_payload = VStr s
                  /\ @None value = Some (VDict d)).
Proof.
  eapply (X4_only_mappings_repaired (fun _ => None) Models.MCQResponse
            "2024-01-15T10:30:00" (VDict scenario_payload)).
  reflexivity.
Defined.

(** X5.  [validate_mcq_json] fails with "Invalid JSON format" exactly when
    it is given a text that, once cleaned, does not parse: no later step
    raises the decoding error, and every other failure is reported as
    "Error validating MCQ data". *)
Theorem X5_invalid_json_format (json_loads : string -> option value)
  (MCQResponse_dict : dict -> option value) (now : string)
  (mcq_json_str : value) :
  validate_mcq_json json_loads MCQResponse_dict now mcq_json_str
  = Raise (MCQValidationError InvalidJSONFormat)
  <-> exists s, mcq_json_str = VStr s /\ json_loads (clean_json s) = None.
Proof.
  unfold validate_mcq_json. rewrite body_after_parsing. split.
  - intros H.
    destruct mcq_json_str; try discriminate H.
    + exists s. split; [reflexivity|]. cbn [_parse_json_input] in H.
      destruct (json_loads (clean_json s)) as [v|]; [|reflexivity].
      cbn [bind] in H. exfalso.
      pose proof (quiet_after_parsing MCQResponse_dict now v) as Q.
      unfold quiet in Q.
      match type of H with
      | match ?b with _ => _ end = _ => destruct b as [r|e]
      end; [discriminate H|].
      destruct e; try discriminate H. now apply Q.
    + exfalso. cbn [_parse_json_input bind] in H.
      pose proof (quiet_after_parsing MCQResponse_dict now (VDict d)) as Q.
      unfold quiet in Q.
      match type of H with
      | match ?b with _ => _ end = _ => destruct b as [r|e]
      end; [discriminate H|].
      destruct e; try discriminate H. now apply Q.
  - intros (s & -> & Hs). cbn [_parse_json_input]. now rewrite Hs.
Qed.

(** *** What the repaired items look like *)

Section Survivors.

Lemma dict_has_set (k : string) (k' v : value) (d : dict) :
  dict_has (VStr k) d = true -> dict_has (VStr k) (dict_set k' v d) = true.
Proof.
  unfold dict_has. rewrite dict_get_str_set.
  now destruct (py_eq k' (VStr k)).
Qed.

Lemma options_are_dicts (raw : list value) (question_id : value)
  (options : list value) :
  _validate_question_options (VList raw) question_id = Ok (VList options) ->
  forallb isinstance_dict options = true.
Proof.
  intros H.
  destruct (options_repaired _ _ _ H) as (o & [= <-] & _ & _ & Hsame & _).
  unfold _validate_question_options in H. rewrite pad_or_truncate_shape in H.
  bind_inv H. destruct (correct_options_of_ok _ _ Ha) as [Hd _]. clear H Ha.
  induction Hsame as [|x p xs ps Hxp _ IH]; [reflexivity|].
  inversion Hd as [|? ? [d ->] Hd']; subst. cbn [forallb].
  rewrite (IH Hd'), andb_true_r.
  destruct Hxp as [->|[b Hb]]; [reflexivity|].
  cbn in Hb. now injection Hb as <-.
Qed.

(** A question that has been through the repair carries every key the repair
    fills and four options of which one is marked correct. *)
Lemma survivor_repaired (i : nat) (q q' : value) :
  validate_question i q = Ok q' -> repaired_question q' = true.
Proof.
  intros H. destruct (validate_question_is_dict _ _ _ H) as [d ->].
  rewrite validate_question_dict in H. bind_inv H. bind_inv H.
  injection H as <-. rewrite require_fields_dict in Ha.
  destruct (find _ question_required_fields) eqn:F in Ha; [discriminate|].
  assert (Hreq : forall f, In f question_required_fields ->
                           dict_has (VStr f) (with_id i d) = true).
  { intros f Hin. pose proof (find_none _ _ F f Hin) as Hn.
    now apply negb_false_iff in Hn. }
  assert (Hid : dict_has (VStr "question_id") (with_id i d) = true).
  { unfold with_id. destruct (dict_has _ d) eqn:E; [exact E|].
    apply dict_has_set_eq. }
  assert (Ho : exists raw, or_default
                             (dict_get (VStr "options") (with_id i d))
                             (VList []) = VList raw).
  { destruct (or_default _ _); try discriminate Ha0. eauto. }
  destruct Ho as [raw Ho]. rewrite Ho in Ha0.
  destruct (options_repaired _ _ _ Ha0) as (opts & -> & Hl & Hc & _).
  pose proof (options_are_dicts _ _ _ Ha0) as Hd.
  remember (dict_set (VStr "options") (VList opts) (with_id i d)) as d2
    eqn:Hd2.
  assert (Hkeep : forall k, dict_has (VStr k) (with_id i d) = true ->
                            dict_has (VStr k) (with_area d2) = true).
  { intros k Hk. subst d2. unfold with_area.
    match goal with
    | |- context [if ?b then _ else _] => destruct b
    end; [|apply dict_has_set]; now apply dict_has_set. }
  cbn [repaired_question]. rewrite (Hkeep _ Hid).
  assert (A : dict_has (VStr "topic_area") (with_area d2) = true).
  { unfold with_area. destruct (dict_has (VStr "topic_area") d2) eqn:E;
      [exact E | apply dict_has_set_eq]. }
  rewrite A.
  assert (R : forallb (fun f => dict_has (VStr f) (with_area d2))
                question_required_fields = true).
  { apply forallb_forall. intros f Hin. apply Hkeep. now apply Hreq. }
  rewrite R. rewrite with_area_get by discriminate.
  subst d2. rewrite dict_get_set_eq.
  apply Nat.eqb_eq in Hl, Hc. now rewrite Hl, Hd, Hc.
Qed.

Lemma settled_is_repaired (q : value) :
  settled_question q
  = repaired_question q && hashable (difficulty_of q).
Proof.
  destruct q; try reflexivity. cbn [settled_question repaired_question].
  destruct (dict_has (VStr "question_id") d); [|reflexivity].
  destruct (forallb _ question_required_fields); [|reflexivity].
  destruct (dict_has (VStr "topic_area") d); [|reflexivity].
  cbn [andb]. now rewrite andb_comm.
Qed.

Lemma survivor_settled (i : nat) (q q' : value) :
  validate_question i q = Ok q' ->
  hashable (difficulty_of q') = true ->
  settled_question q' = true.
Proof.
  intros H Hh. now rewrite settled_is_repaired, (survivor_repaired _ _ _ H), Hh.
Qed.

(** A question in that shape goes through the repair unchanged, at any
    position. *)
Lemma repaired_question_fixed (i : nat) (q : value) :
  repaired_question q = true -> validate_question i q = Ok q.
Proof.
  destruct q; try discriminate. cbn [repaired_question].
  rewrite !andb_true_iff. intros [[[Hid Hreq] Harea] Hopt].
  rewrite validate_question_dict. unfold with_id. rewrite Hid.
  rewrite require_fields_dict.
  assert (F : find (fun f => negb (dict_has (VStr f) d))
                question_required_fields = None).
  { rewrite forallb_forall in Hreq.
    destruct (find _ question_required_fields) as [f|] eqn:E; [|reflexivity].
    apply find_some in E. destruct E as [Hin Hf].
    rewrite (Hreq f Hin) in Hf. discriminate. }
  rewrite F. cbn [bind].
  destruct (dict_get (VStr "options") d) as [[]|] eqn:G; try discriminate.
  rewrite !andb_true_iff in Hopt. destruct Hopt as [[Hl Hd] Hc].
  apply Nat.eqb_eq in Hl, Hc. apply isinstance_dict_is_dict in Hd.
  cbn [or_default]. rewrite (options_settled _ _ Hl Hd Hc). cbn [bind].
  rewrite (dict_set_same _ _ _ G). unfold with_area. now rewrite Harea.
Qed.

(** Only an object gets through the body of the roadmap loop. *)
Lemma validate_step_is_dict (i : nat) (step step' : value) :
  validate_step i step = Ok step' -> exists d, step = VDict d.
Proof.
  unfold validate_step.
  destruct step; try discriminate; [| |eauto].
  - repeat (cbn;
            match goal with
            | |- context [is_substring ?a ?b] => destruct (is_substring a b)
            end); cbn; discriminate.
  - repeat (cbn;
            match goal with
            | |- context [existsb ?f ?b] => destruct (existsb f b)
            end); cbn; discriminate.
Qed.

Lemma step_survivor_settled (i : nat) (step step' : value) :
  validate_step i step = Ok step' -> settled_step step' = true.
Proof.
  intros H. destruct (validate_step_is_dict _ _ _ H) as [d ->].
  rewrite validate_step_dict in H. injection H as <-.
  cbn [settled_step]. unfold dict_has.
  rewrite with_prerequisites_other by discriminate.
  rewrite with_step_number_get, with_prerequisites_get. cbn [andb].
  now destruct (dict_get (VStr "prerequisites") (with_step_number i d))
    as [[]|].
Qed.

Lemma validate_video_is_dict (i : nat) (video : value) (r : option value) :
  validate_video i video = Ok r -> exists d, video = VDict d.
Proof.
  unfold validate_video. intros H. bind_inv H. bind_inv H.
  unfold getitem in Ha0. destruct video; try discriminate. eauto.
Qed.

Lemma with_video_defaults_other (d : dict) (k : string) :
  k <> "duration" -> k <> "description" ->
  dict_get (VStr k) (with_video_defaults d) = dict_get (VStr k) d.
Proof.
  intros H1 H2. unfold with_video_defaults. cbv zeta.
  destruct (dict_has (VStr "duration") d);
    match goal with
    | |- context [dict_has (VStr "description") ?m] =>
        destruct (dict_has (VStr "description") m)
    end; rewrite ?dict_get_set_neq by assumption; reflexivity.
Qed.

Lemma with_video_defaults_filled (d : dict) :
  dict_has (VStr "duration") (with_video_defaults d) = true
  /\ dict_has (VStr "description") (with_video_defaults d) = true.
Proof.
  unfold with_video_defaults. cbv zeta.
  destruct (dict_has (VStr "duration") d) eqn:D;
    match goal with
    | |- context [dict_has (VStr "description") ?m] =>
        destruct (dict_has (VStr "description") m) eqn:E
    end; split; try assumption;
    rewrite ?dict_has_set_eq; rewrite ?dict_has_set_neq by discriminate;
    rewrite ?dict_has_set_eq; auto.
Qed.

Lemma video_survivor_settled (i : nat) (video video' : value) :
  validate_video i video = Ok (Some video') -> settled_video video' = true.
Proof.
  intros H. destruct (validate_video_is_dict _ _ _ H) as [d ->].
  rewrite validate_video_dict in H.
  destruct (dict_get (VStr "url") d) as [[]|] eqn:U; try discriminate.
  destruct (prefix "http://" s || prefix "https://" s) eqn:P;
    [|discriminate].
  injection H as <-. cbn [settled_video].
  rewrite with_video_defaults_other by discriminate.
  destruct (with_video_defaults_filled d) as [-> ->].
  now rewrite U, P.
Qed.

Lemma survivors_forall (P : value -> Prop) (questions : list value) (i : nat) :
  (forall j q q', validate_question j q = Ok q' -> P q') ->
  Forall P (survivors i questions).
Proof.
  intros HP. revert i. induction questions as [|q rest IH]; intros i;
    cbn [survivors]; [constructor|].
  destruct (validate_question i q) eqn:E; [|apply IH].
  constructor; [now apply (HP i q) | apply IH].
Qed.

Lemma roadmap_loop_settled (steps : list value) (i : nat)
  (validated : list value) :
  forallb settled_step validated = true ->
  forallb settled_step (roadmap_loop i steps validated) = true.
Proof.
  revert i validated. induction steps as [|s rest IH]; intros i validated Hv;
    cbn [roadmap_loop]; [exact Hv|].
  destruct (validate_step i s) eqn:E; [|now apply IH].
  apply IH. rewrite forallb_app, Hv. cbn.
  now rewrite (step_survivor_settled _ _ _ E).
Qed.

Lemma videos_loop_settled (videos : list value) (i : nat)
  (validated : list value) :
  forallb settled_video validated = true ->
  forallb settled_video (videos_loop i videos validated) = true.
Proof.
  revert i validated. induction videos as [|v rest IH]; intros i validated Hv;
    cbn [videos_loop]; [exact Hv|].
  destruct (validate_video i v) as [[v'|]|] eqn:E; try now apply IH.
  apply IH. rewrite forallb_app, Hv. cbn.
  now rewrite (video_survivor_settled _ _ _ E).
Qed.

End Survivors.

(** *** Repairing twice *)

Section Twice.

Lemma survivors_fixed (questions : list value) (i : nat) :
  Forall (fun q => repaired_question q = true) questions ->
  survivors i questions = questions.
Proof.
  intros H. revert i. induction H as [|q rest Hq _ IH]; intros i;
    [reflexivity|].
  cbn [survivors]. now rewrite (repaired_question_fixed i q Hq), IH.
Qed.

Lemma survivors_in (questions : list value) (start i : nat) (q q' : value) :
  nth_error questions i = Some q ->
  validate_question (start + i) q = Ok q' ->
  In q' (survivors start questions).
Proof.
  revert start i. induction questions as [|x rest IH]; intros start i Hq Hv.
  - destruct i; discriminate.
  - destruct i as [|i]; cbn in Hq.
    + injection Hq as ->. rewrite Nat.add_0_r in Hv. cbn [survivors].
      rewrite Hv. now left.
    + cbn [survivors]. rewrite Nat.add_succ_r in Hv.
      specialize (IH (S start) i Hq Hv).
      destruct (validate_question start x); [now right | exact IH].
Qed.

Lemma roadmap_loop_steps (steps : list value) (i : nat)
  (validated : list value) :
  roadmap_loop i steps validated = validated ++ repaired_steps i steps.
Proof.
  revert i validated. induction steps as [|s rest IH]; intros i validated;
    cbn [roadmap_loop repaired_steps]; [now rewrite app_nil_r|].
  destruct (validate_step i s) as [s'|e] eqn:E.
  - destruct (validate_step_is_dict _ _ _ E) as [d ->].
    rewrite validate_step_dict in E. injection E as <-.
    now rewrite IH, <- app_assoc.
  - destruct s; try apply IH. now rewrite validate_step_dict in E.
Qed.

Lemma videos_loop_kept (videos : list value) (i : nat)
  (validated : list value) :
  videos_loop i videos validated = validated ++ kept_videos videos.
Proof.
  revert i validated. induction videos as [|v rest IH]; intros i validated;
    cbn [videos_loop kept_videos]; [now rewrite app_nil_r|].
  assert (K : match validate_video i v with
              | Ok o => o
              | Raise _ => None
              end = kept_video v).
  { destruct v; try (destruct (validate_video i _) as [o|] eqn:E;
                     [destruct (validate_video_is_dict _ _ _ E); discriminate
                     | reflexivity]).
    rewrite validate_video_dict. cbn [kept_video].
    destruct (dict_get (VStr "url") d) as [[]|]; try reflexivity.
    now destruct (prefix "http://" s || prefix "https://" s). }
  rewrite <- K.
  destruct (validate_video i v) as [[v'|]|]; rewrite IH;
    [now rewrite <- app_assoc | reflexivity | reflexivity].
Qed.

End Twice.

(** X6.  The repair of the questions is idempotent: the list it returns is
    returned unchanged when it is repaired again. *)
Theorem X6_questions_idempotent (questions repaired : value) :
  _validate_questions questions = Ok repaired ->
  _validate_questions repaired = Ok repaired.
Proof.
  unfold _validate_questions. intros H. bind_inv H.
  rewrite questions_loop_survivors in H. cbn [app] in H.
  destruct (survivors 0 a) as [|q kept] eqn:S; [discriminate|].
  injection H as <-. cbn [iter bind].
  rewrite questions_loop_survivors. cbn [app].
  rewrite survivors_fixed; [reflexivity|].
  rewrite <- S. apply survivors_forall. intros j x x'.
  apply survivor_repaired.
Qed.

Lemma X6_questions_idempotent_witness :
  _validate_questions (VList [scenario_question_repaired])
  = Ok (VList [scenario_question_repaired]).
Proof.
  apply (X6_questions_idempotent (VList [scenario_question])).
  reflexivity.
Defined.

(** X7.  Questions are numbered by their place in the raw list: a question
    at index [i] that comes without [question_id] and survives is returned
    with [question_id = i + 1], whether or not questions before it were
    dropped; a [question_id] it comes with is kept as it is. *)
Theorem X7_ids_follow_raw_positions (questions kept : list value) (i : nat)
  (d : dict) (question' : value) :
  _validate_questions (VList questions) = Ok (VList kept) ->
  nth_error questions i = Some (VDict d) ->
  validate_question i (VDict d) = Ok question' ->
  In question' kept
  /\ getitem question' "question_id"
     = Ok (or_default (dict_get (VStr "question_id") d)
             (VInt (Z.of_nat i + 1))).
Proof.
  intros Hk Hi Hv. split.
  - unfold _validate_questions in Hk. cbn [iter bind] in Hk.
    rewrite questions_loop_survivors in Hk. cbn [app] in Hk.
    destruct (survivors 0 questions) eqn:S; [discriminate|].
    injection Hk as <-. rewrite <- S.
    now apply (survivors_in questions 0 i (VDict d)).
  - rewrite validate_question_dict in Hv. bind_inv Hv. bind_inv Hv.
    injection Hv as <-. unfold getitem.
    rewrite with_area_get, dict_get_set_neq by discriminate.
    unfold with_id, dict_has, or_default.
    destruct (dict_get (VStr "question_id") d) eqn:E; [now rewrite E|].
    now rewrite dict_get_set_eq.
Qed.

Lemma X7_ids_follow_raw_positions_witness :
  In scenario_question_repaired_second
     [scenario_question_repaired_second]
  /\ getitem scenario_question_repaired_second "question_id"
     = Ok (or_default (dict_get (VStr "question_id") scenario_fields)
             (VInt (Z.of_nat 1 + 1))).
Proof.
  apply (X7_ids_follow_raw_positions mixed_questions
           [scenario_question_repaired_second] 1 scenario_fields);
    reflexivity.
Defined.

(** X8.  [_validate_roadmap] keeps the objects of the list and drops
    everything else (strings, numbers, lists, null); an object is kept
    whatever it holds, and its default [step_number] is its place in the raw
    list, so that numbers skip the places of dropped items.  A roadmap that
    is not a list gives the empty list. *)
Theorem X8_roadmap_keeps_objects (roadmap : value) :
  _validate_roadmap roadmap
  = match roadmap with
    | VList steps => VList (repaired_steps 0 steps)
    | _ => VList []
    end.
Proof.
  destruct roadmap; try reflexivity.
  cbn [_validate_roadmap]. now rewrite roadmap_loop_steps.
Qed.

(** X9.  Whatever it is given, [_validate_roadmap] returns a list of steps
    that all carry [step_number] and a list under [prerequisites], and
    repairing that list again returns it unchanged. *)
Theorem X9_roadmap_idempotent (roadmap : value) :
  exists steps,
    _validate_roadmap roadmap = VList steps
    /\ forallb settled_step steps = true
    /\ _validate_roadmap (VList steps) = VList steps.
Proof.
  assert (H : exists steps, _validate_roadmap roadmap = VList steps
                            /\ forallb settled_step steps = true).
  { destruct roadmap; try (exists []; split; reflexivity).
    eexists. split; [reflexivity|]. now apply roadmap_loop_settled. }
  destruct H as (steps & E & S). exists steps. repeat split; auto.
  cbn [_validate_roadmap]. now rewrite roadmap_settled.
Qed.

(** X10.  [_validate_reference_videos] keeps exactly the objects whose [url]
    is a string starting with [http://] or [https://], in their order, each
    with [duration] and [description] filled in when absent; [title] and
    [difficulty_level] play no part.  Anything that is not a list gives the
    empty list. *)
Theorem X10_videos_kept_by_url (videos : value) :
  _validate_reference_videos videos
  = match videos with
    | VList l => VList (kept_videos l)
    | _ => VList []
    end.
Proof.
  destruct videos; try reflexivity.
  cbn [_validate_reference_videos]. now rewrite videos_loop_kept.
Qed.

(** X11.  Whatever it is given, [_validate_reference_videos] returns a list
    of videos that all have an http(s) [url], a [duration] and a
    [description], and repairing that list again returns it unchanged. *)
Theorem X11_videos_idempotent (videos : value) :
  exists kept,
    _validate_reference_videos videos = VList kept
    /\ forallb settled_video kept = true
    /\ _validate_reference_videos (VList kept) = VList kept.
Proof.
  assert (H : exists kept, _validate_reference_videos videos = VList kept
                           /\ forallb settled_video kept = true).
  { destruct videos; try (exists []; split; reflexivity).
    eexists. split; [reflexivity|]. now apply videos_loop_settled. }
  destruct H as (kept & E & S). exists kept. repeat split; auto.
  cbn [_validate_reference_videos]. now rewrite videos_settled.
Qed.

(** *** More on the metadata *)

Section MoreMetadata.

(** [_generate_metadata] on a dict, with the lookups resolved. *)
Lemma generate_metadata_dict (now : string) (d : dict) :
  _generate_metadata now (VDict d) =
  (items <- iter (or_default (dict_get (VStr "questions") d) (VList [])) ;;
   dist <- difficulty_loop items [] ;;
   total <- len (or_default (dict_get (VStr "questions") d) (VList [])) ;;
   steps <- len (or_default (dict_get (VStr "roadmap") d) (VList [])) ;;
   count <- len (or_default (dict_get (VStr "reference_videos") d) (VList [])) ;;
   metadata <- dict_update
                 (computed_metadata now total dist
                    (or_default (dict_get (VStr "roadmap") d) VNone)
                    (or_default (dict_get (VStr "reference_videos") d) VNone)
                    steps count)
                 (or_default (dict_get (VStr "metadata") d) (VDict [])) ;;
   Ok (VDict metadata)).
Proof.
  unfold _generate_metadata, get, computed_metadata.
  destruct (dict_get (VStr "questions") d),
           (dict_get (VStr "roadmap") d),
           (dict_get (VStr "reference_videos") d),
           (dict_get (VStr "metadata") d); reflexivity.
Qed.

Lemma chars_of_length (s : string) :
  List.length (chars_of s) = String.length s.
Proof. induction s as [|c s IH]; cbn; [reflexivity | now rewrite IH]. Qed.

(** The length of a value is the number of items a loop over it visits. *)
Lemma len_iter (c : value) (items : list value) (n : Z) :
  iter c = Ok items -> len c = Ok n -> n = Z.of_nat (List.length items).
Proof.
  destruct c; try discriminate; cbn; intros [= <-] [= <-].
  - now rewrite chars_of_length.
  - reflexivity.
  - now rewrite length_map.
Qed.

Lemma dict_set_fresh (k v : value) (d : dict) :
  fresh_key k d = true -> dict_set k v d = d ++ [(k, v)].
Proof.
  induction d as [|[k0 v0] d IH]; cbn; [reflexivity|].
  rewrite andb_true_iff, negb_true_iff. intros [-> H]. now rewrite IH.
Qed.

Lemma dict_get_fresh (k : value) (d : dict) :
  dict_get k d = None <-> fresh_key k d = true.
Proof.
  induction d as [|[k0 v0] d IH]; cbn; [tauto|].
  destruct (py_eq k0 k); cbn; [split; discriminate | exact IH].
Qed.

Lemma dist_total_app (a b : dict) :
  dist_total (a ++ b) = dist_total a + dist_total b.
Proof.
  induction a as [|[k v] a IH]; cbn; [reflexivity|].
  destruct v; rewrite IH; lia.
Qed.

Lemma dist_total_set (k : value) (n m : Z) (d : dict) :
  dict_get k d = Some (VInt n) ->
  dist_total (dict_set k (VInt m) d) = dist_total d - n + m.
Proof.
  induction d as [|[k0 v0] d IH]; cbn; [discriminate|].
  destruct (py_eq k0 k).
  - intros [= ->]. cbn. lia.
  - intros H. cbn. destruct v0; rewrite (IH H); lia.
Qed.

Lemma count_difficulty_total (k : value) (dist dist' : dict) :
  count_difficulty k dist = Ok dist' ->
  dist_total dist' = dist_total dist + 1.
Proof.
  unfold count_difficulty. destruct (hashable k); [|discriminate].
  destruct (dict_get k dist) as [v|] eqn:G.
  - destruct v; try discriminate. intros [= <-].
    rewrite (dist_total_set _ _ _ _ G). lia.
  - intros [= <-]. apply dict_get_fresh in G.
    rewrite (dict_set_fresh _ _ _ G), dist_total_app. cbn. lia.
Qed.

Lemma difficulty_loop_total (questions : list value) (dist dist' : dict) :
  difficulty_loop questions dist = Ok dist' ->
  dist_total dist' = dist_total dist + Z.of_nat (List.length questions).
Proof.
  revert dist. induction questions as [|q rest IH]; intros dist H.
  - injection H as <-. cbn. lia.
  - cbn [difficulty_loop] in H. bind_inv H. bind_inv H.
    rewrite (IH _ H), (count_difficulty_total _ _ _ Ha0).
    cbn [List.length]. lia.
Qed.

End MoreMetadata.

(** X12.  When the payload brings no metadata of its own, the counts of
    [difficulty_distribution] add up to [total_questions]: every question is
    counted in exactly one bucket. *)
Theorem X12_distribution_adds_up (now : string) (d metadata : dict) :
  dict_get (VStr "metadata") d = None ->
  _generate_metadata now (VDict d) = Ok (VDict metadata) ->
  exists total dist,
    dict_get (VStr "total_questions") metadata = Some (VInt total)
    /\ dict_get (VStr "difficulty_distribution") metadata = Some (VDict dist)
    /\ dist_total dist = total.
Proof.
  intros Hm H. rewrite generate_metadata_dict, Hm in H.
  bind_inv H. bind_inv H. bind_inv H. bind_inv H. bind_inv H.
  cbn in H. injection H as <-.
  exists a1, a0. repeat split.
  rewrite (difficulty_loop_total _ _ _ Ha0). cbn [dist_total].
  now rewrite (len_iter _ _ _ Ha Ha1).
Qed.

Lemma X12_distribution_adds_up_witness :
  exists total dist,
    dict_get (VStr "total_questions")
      (computed_metadata "2024-01-15T10:30:00" 3
         [(VStr "basic", VInt 2); (VStr "expert", VInt 1)]
         VNone VNone 0 0) = Some (VInt total)
    /\ dict_get (VStr "difficulty_distribution")
         (computed_metadata "2024-01-15T10:30:00" 3
            [(VStr "basic", VInt 2); (VStr "expert", VInt 1)]
            VNone VNone 0 0) = Some (VDict dist)
    /\ dist_total dist = total.
Proof.
  apply (X12_distribution_adds_up "2024-01-15T10:30:00"
           [(VStr "questions", VList counted_questions)]);
    reflexivity.
Defined.

(** *** Metadata computed twice *)

Section MetadataTwice.


Lemma fresh_key_keys (k : value) (d : dict) :
  fresh_key k d = forallb (fun k' => negb (py_eq k' k)) (map fst d).
Proof.
  unfold fresh_key.
  induction d as [|[k0 v0] d IH]; cbn; [reflexivity | now rewrite IH].
Qed.

Lemma dict_set_keys (k v : value) (d : dict) :
  map fst (dict_set k v d)
  = map fst d ++ (if fresh_key k d then [k] else []).
Proof.
  induction d as [|[k0 v0] d IH]; cbn; [reflexivity|].
  destruct (py_eq k0 k); cbn.
  - now rewrite app_nil_r.
  - now rewrite IH.
Qed.

Lemma unique_from_app (a b seen : list value) :
  unique_from seen (a ++ b)
  = unique_from seen a && unique_from (seen ++ a) b.
Proof.
  revert seen. induction a as [|x a IH]; intros seen; cbn.
  - now rewrite app_nil_r.
  - rewrite IH, <- app_assoc. cbn. now rewrite andb_assoc.
Qed.

Lemma unique_set (k v : value) (d : dict) :
  unique_from [] (map fst d) = true ->
  unique_from [] (map fst (dict_set k v d)) = true.
Proof.
  intros H. rewrite dict_set_keys.
  destruct (fresh_key k d) eqn:F; [|now rewrite app_nil_r].
  rewrite unique_from_app, H. cbn. rewrite <- fresh_key_keys, F. reflexivity.
Qed.

Lemma shaped_set (k v : value) (m : dict) :
  metadata_shaped m -> metadata_shaped (dict_set k v m).
Proof.
  intros [Hu Hk]. split; [now apply unique_set|].
  rewrite dict_set_keys, firstn_app.
  assert (L : (7 <= List.length (map fst m))%nat).
  { apply (f_equal (@List.length value)) in Hk.
    rewrite length_firstn in Hk.
    change (List.length computed_keys) with 7%nat in Hk. lia. }
  replace (7 - List.length (map fst m))%nat with 0%nat by lia.
  cbn [firstn]. now rewrite app_nil_r.
Qed.

Lemma shaped_fold (d m : dict) :
  metadata_shaped m -> metadata_shaped (fold_left store_item d m).
Proof.
  revert m. induction d as [|[k v] d IH]; intros m H; [exact H|].
  cbn. apply IH. now apply shaped_set.
Qed.

Lemma shaped_update_pairs (items : list value) (m m' : dict) :
  update_pairs m items = Ok m' -> metadata_shaped m -> metadata_shaped m'.
Proof.
  revert m. induction items as [|item rest IH]; intros m H Hm.
  - injection H as <-. exact Hm.
  - cbn [update_pairs] in H. bind_inv H.
    apply (IH _ H). now apply shaped_set.
Qed.

Lemma shaped_update (m m' : dict) (other : value) :
  dict_update m other = Ok m' -> metadata_shaped m -> metadata_shaped m'.
Proof.
  intros H Hm. destruct other; cbn [dict_update iter bind] in H;
    try discriminate.
  - eapply shaped_update_pairs; eauto.
  - eapply shaped_update_pairs; eauto.
  - injection H as <-. now apply shaped_fold.
Qed.

Lemma computed_shaped (now : string) (total : Z) (dist : dict)
  (roadmap videos : value) (steps count : Z) :
  metadata_shaped (computed_metadata now total dist roadmap videos steps count).
Proof. split; reflexivity. Qed.

Lemma dict_set_at (k v x : value) (done rest : dict) :
  fresh_key k done = true -> py_eq k k = true ->
  dict_set k v (done ++ (k, x) :: rest) = done ++ (k, v) :: rest.
Proof.
  intros Hf Hk. induction done as [|[k0 v0] done IH]; cbn.
  - now rewrite Hk.
  - cbn in Hf. rewrite andb_true_iff, negb_true_iff in Hf.
    destruct Hf as [-> Hf]. now rewrite IH.
Qed.

(** Storing, in their order, values under the keys a dict already has in
    that order replaces its values. *)
Lemma fold_replace (c done r : dict) :
  map fst c = map fst r ->
  unique_from (map fst done) (map fst c) = true ->
  Forall (fun k => py_eq k k = true) (map fst c) ->
  fold_left store_item c (done ++ r) = done ++ c.
Proof.
  revert done r. induction c as [|[k v] c IH]; intros done [|[k' x] r];
    cbn; try discriminate.
  - reflexivity.
  - intros [= <- Hk]. rewrite andb_true_iff, <- fresh_key_keys.
    intros [Hf Hu] Hr. inversion Hr as [|? ? Hkk Hr']; subst.
    unfold store_item at 2. cbn [fst snd]. rewrite dict_set_at by assumption.
    change (done ++ (k, v) :: r) with (done ++ [(k, v)] ++ r).
    rewrite app_assoc, IH; try assumption.
    + now rewrite <- app_assoc.
    + now rewrite map_app.
Qed.

(** Storing items under fresh keys appends them. *)
Lemma fold_append (m acc : dict) :
  unique_from (map fst acc) (map fst m) = true ->
  fold_left store_item m acc = acc ++ m.
Proof.
  revert acc. induction m as [|[k v] m IH]; intros acc; cbn.
  - now rewrite app_nil_r.
  - rewrite andb_true_iff, <- fresh_key_keys. intros [Hf Hu].
    unfold store_item at 2. cbn [fst snd]. rewrite (dict_set_fresh _ _ _ Hf).
    rewrite IH by now rewrite map_app.
    now rewrite <- app_assoc.
Qed.

(** Updating freshly computed metadata with metadata of the computed shape
    gives the latter. *)
Lemma shaped_refold (metadata computed : dict) :
  metadata_shaped metadata -> map fst computed = computed_keys ->
  fold_left store_item metadata computed = metadata.
Proof.
  intros [Hu Hk] Hc.
  rewrite <- (firstn_skipn 7 metadata) in Hu |- *.
  rewrite firstn_map in Hk.
  set (a := firstn 7 metadata) in *. set (b := skipn 7 metadata) in *.
  rewrite map_app, unique_from_app in Hu. apply andb_true_iff in Hu.
  destruct Hu as [Ha Hb]. cbn [app] in Hb.
  rewrite fold_left_app.
  change computed with ([] ++ computed) at 1.
  rewrite (fold_replace a [] computed); cbn [app map].
  - now apply fold_append.
  - now rewrite Hk, Hc.
  - exact Ha.
  - rewrite Hk. repeat constructor.
Qed.

Lemma metadata_again (now now' : string) (d d' metadata : dict) :
  _generate_metadata now (VDict d) = Ok (VDict metadata) ->
  dict_get (VStr "questions") d' = dict_get (VStr "questions") d ->
  dict_get (VStr "roadmap") d' = dict_get (VStr "roadmap") d ->
  dict_get (VStr "reference_videos") d' = dict_get (VStr "reference_videos") d ->
  dict_get (VStr "metadata") d' = Some (VDict metadata) ->
  _generate_metadata now' (VDict d') = Ok (VDict metadata).
Proof.
  intros H Hq Hr Hv Hm. rewrite generate_metadata_dict in H |- *.
  rewrite Hq, Hr, Hv, Hm.
  bind_inv H. bind_inv H. bind_inv H. bind_inv H. bind_inv H. bind_inv H.
  injection H as <-.
  rewrite Ha. cbn [bind]. rewrite Ha0. cbn [bind]. rewrite Ha1. cbn [bind].
  rewrite Ha2. cbn [bind]. rewrite Ha3. cbn [bind or_default dict_update].
  do 2 f_equal. apply shaped_refold; [|reflexivity].
  eapply shaped_update; [exact Ha4 | apply computed_shaped].
Qed.

Lemma generate_metadata_is_dict (now : string) (mcq_data metadata : value) :
  _generate_metadata now mcq_data = Ok metadata ->
  exists d md, mcq_data = VDict d /\ metadata = VDict md.
Proof.
  intros H. destruct mcq_data; try discriminate.
  rewrite generate_metadata_dict in H.
  bind_inv H. bind_inv H. bind_inv H. bind_inv H. bind_inv H. bind_inv H.
  injection H as <-. eauto.
Qed.

End MetadataTwice.

(** X13.  The metadata is a fixed point: once the metadata computed for a
    payload is stored under its [metadata] key, computing it again, at
    whatever later time, returns that same metadata.  In particular
    [validation_timestamp] keeps the time of the first computation. *)
Theorem X13_metadata_fixed_point (now now' : string) (d : dict)
  (metadata : value) :
  _generate_metadata now (VDict d) = Ok metadata ->
  _generate_metadata now' (VDict (dict_set (VStr "metadata") metadata d))
  = Ok metadata.
Proof.
  intros H.
  destruct (generate_metadata_is_dict _ _ _ H) as (d0 & md & _ & ->).
  apply (metadata_again now now' d); try assumption.
  - now apply dict_get_set_neq.
  - now apply dict_get_set_neq.
  - now apply dict_get_set_neq.
  - apply dict_get_set_eq.
Qed.

Lemma X13_metadata_fixed_point_witness :
  _generate_metadata "2024-02-01T08:00:00"
    (VDict (dict_set (VStr "metadata")
              (VDict ((VStr "total_questions", VInt 20)
                      :: tl (computed_metadata "2024-01-15T10:30:00" 3
                               [(VStr "basic", VInt 2); (VStr "expert", VInt 1)]
                               VNone VNone 0 0)
                      ++ [(VStr "generation_time_seconds", VInt 0)]))
              counted_payload))
  = Ok (VDict ((VStr "total_questions", VInt 20)
               :: tl (computed_metadata "2024-01-15T10:30:00" 3
                        [(VStr "basic", VInt 2); (VStr "expert", VInt 1)]
                        VNone VNone 0 0)
               ++ [(VStr "generation_time_seconds", VInt 0)])).
Proof.
  apply (X13_metadata_fixed_point "2024-01-15T10:30:00" "2024-02-01T08:00:00"
           counted_payload).
  reflexivity.
Defined.

(** *** The whole repair *)

Section WholeRepairMore.

Variable json_loads : string -> option value.

Lemma with_timestamp_get (now k : string) (d : dict) :
  k <> "timestamp" ->
  dict_get (VStr k) (with_timestamp now d) = dict_get (VStr k) d.
Proof.
  intros H. unfold with_timestamp.
  destruct (dict_has (VStr "timestamp") d); [reflexivity|].
  now apply dict_get_set_neq.
Qed.

Lemma with_timestamp_has (now : string) (d : dict) :
  dict_has (VStr "timestamp") (with_timestamp now d) = true.
Proof.
  unfold with_timestamp.
  destruct (dict_has (VStr "timestamp") d) eqn:E; [exact E|].
  apply dict_has_set_eq.
Qed.

Lemma optional_get_other (k k' : string) (f : value -> value) (d : dict) :
  k <> k' ->
  dict_get (VStr k) (repaired_optional k' f d) = dict_get (VStr k) d.
Proof.
  intros H. unfold repaired_optional.
  destruct (dict_get (VStr k') d) as [v|]; [|reflexivity].
  destruct (truthy v); [|reflexivity]. now apply dict_get_set_neq.
Qed.

Lemma optional_get (k : string) (f : value -> value) (d : dict) :
  dict_get (VStr k) (repaired_optional k f d)
  = match dict_get (VStr k) d with
    | Some v => Some (if truthy v then f v else v)
    | None => None
    end.
Proof.
  unfold repaired_optional.
  destruct (dict_get (VStr k) d) as [v|] eqn:E; [|exact E].
  destruct (truthy v); [apply dict_get_set_eq | exact E].
Qed.

(** One optional repair of [validate_mcq_json], followed by the rest. *)
Lemma optional_repair_step (k : string) (f : value -> value) (d : dict)
  (rest : value -> result value) :
  (v <- get (VDict d) k VNone ;;
   mcq_data <- (if truthy v
                then x <- getitem (VDict d) k ;; setitem (VDict d) k (f x)
                else Ok (VDict d)) ;;
   rest mcq_data)
  = rest (VDict (repaired_optional k f d)).
Proof.
  unfold repaired_optional. cbn [get getitem].
  destruct (dict_get (VStr k) d) as [v|]; cbn [bind truthy]; [|reflexivity].
  destruct (truthy v); reflexivity.
Qed.

Lemma validate_questions_survivors (questions : list value) :
  _validate_questions (VList questions)
  = match survivors 0 questions with
    | [] => Raise (MCQValidationError NoValidQuestionsFound)
    | kept => Ok (VList kept)
    end.
Proof.
  unfold _validate_questions. cbn [iter bind].
  rewrite questions_loop_survivors. cbn [app].
  now destruct (survivors 0 questions).
Qed.

(** The repair of a mapping that has the three required keys. *)
Lemma repair_steps_dict (now : string) (d : dict) (questions : list value) :
  dict_has (VStr "username") d = true ->
  dict_has (VStr "topic") d = true ->
  dict_get (VStr "questions") d = Some (VList questions) ->
  repair_steps json_loads now (VDict d)
  = match survivors 0 questions with
    | [] => Raise (MCQValidationError NoValidQuestionsFound)
    | kept =>
        metadata <- _generate_metadata now (VDict (repaired_body now d kept)) ;;
        setitem (VDict (repaired_body now d kept)) "metadata" metadata
    end.
Proof.
  intros Hu Ht Hq. unfold repair_steps. cbn [_parse_json_input bind].
  rewrite basic_structure_dict, Hu, Ht. unfold dict_has at 1. rewrite Hq.
  cbn [negb bind get]. rewrite with_timestamp_get, Hq by discriminate.
  cbn [bind]. rewrite validate_questions_survivors.
  destruct (survivors 0 questions) as [|q kept]; [reflexivity|].
  cbn [bind setitem].
  rewrite (optional_repair_step "roadmap" _validate_roadmap).
  rewrite (optional_repair_step "reference_videos" _validate_reference_videos).
  reflexivity.
Qed.

(** What a successful repair went through. *)
Lemma repair_steps_ok (now : string) (mcq_json_str out : value) :
  repair_steps json_loads now mcq_json_str = Ok out ->
  exists d questions q kept metadata,
    _parse_json_input json_loads mcq_json_str = Ok (VDict d)
    /\ dict_has (VStr "username") d = true
    /\ dict_has (VStr "topic") d = true
    /\ dict_get (VStr "questions") d = Some (VList questions)
    /\ survivors 0 questions = q :: kept
    /\ _generate_metadata now (VDict (repaired_body now d (q :: kept)))
       = Ok (VDict metadata)
    /\ out = VDict (dict_set (VStr "metadata") (VDict metadata)
                      (repaired_body now d (q :: kept))).
Proof.
  intros H.
  assert (P : exists d, _parse_json_input json_loads mcq_json_str = Ok (VDict d)
                        /\ repair_steps json_loads now (VDict d) = Ok out).
  { unfold repair_steps in H |- *.
    destruct (_parse_json_input json_loads mcq_json_str) as [v|] eqn:E;
      [|discriminate].
    cbn [bind] in H.
    destruct (_validate_basic_structure now v) as [v'|] eqn:B; [|discriminate].
    destruct (basic_structure_not_dict _ _ _ B) as [d ->].
    exists d. split; [reflexivity|]. cbn [_parse_json_input bind].
    rewrite B. exact H. }
  destruct P as (d & E & R). exists d.
  assert (B : succeeds (_validate_basic_structure now (VDict d)) = true).
  { unfold repair_steps in R. cbn [_parse_json_input bind] in R.
    now destruct (_validate_basic_structure now (VDict d)). }
  rewrite basic_structure_dict in B.
  destruct (dict_has (VStr "username") d) eqn:Hu; [|discriminate].
  destruct (dict_has (VStr "topic") d) eqn:Ht; [|discriminate].
  destruct (dict_has (VStr "questions") d); [|discriminate].
  cbn [negb] in B.
  destruct (dict_get (VStr "questions") d) as [[| | | | |questions|]|] eqn:Hq;
    try discriminate.
  rewrite (repair_steps_dict now d questions Hu Ht Hq) in R.
  destruct (survivors 0 questions) as [|q kept] eqn:Hs; [discriminate|].
  bind_inv R.
  destruct (generate_metadata_is_dict _ _ _ Ha) as (? & metadata & _ & ->).
  injection R as <-.
  exists questions, q, kept, metadata. repeat split; auto.
Qed.

Lemma difficulty_loop_hashable (questions : list value) (dist dist' : dict) :
  difficulty_loop questions dist = Ok dist' ->
  forallb (fun q => hashable (difficulty_of q)) questions = true.
Proof.
  revert dist. induction questions as [|q rest IH]; intros dist H;
    [reflexivity|].
  cbn [difficulty_loop] in H. bind_inv H. bind_inv H.
  cbn [forallb]. rewrite (IH _ H), andb_true_r.
  unfold difficulty_of. rewrite Ha.
  unfold count_difficulty in Ha0. now destruct (hashable a).
Qed.

Lemma shaped_has_computed (metadata : dict) :
  metadata_shaped metadata ->
  forallb (fun k => dict_has k metadata) computed_keys = true.
Proof.
  intros [_ H].
  destruct metadata as [|[k1 v1] [|[k2 v2] [|[k3 v3] [|[k4 v4] [|[k5 v5]
    [|[k6 v6] [|[k7 v7] rest]]]]]]]; try discriminate.
  cbn in H. injection H as -> -> -> -> -> -> ->. reflexivity.
Qed.

Lemma generate_metadata_shaped (now : string) (d metadata : dict) :
  _generate_metadata now (VDict d) = Ok (VDict metadata) ->
  metadata_shaped metadata.
Proof.
  intros H. rewrite generate_metadata_dict in H.
  bind_inv H. bind_inv H. bind_inv H. bind_inv H. bind_inv H. bind_inv H.
  injection H as <-.
  eapply shaped_update; [exact Ha4 | apply computed_shaped].
Qed.

(** An optional list after its repair, given that its length can be
    taken. *)
Lemma optional_settled (k : string) (f : value -> value)
  (settled : value -> bool) (d : dict) :
  (forall v, exists l, f v = VList l /\ forallb settled l = true) ->
  succeeds (len (or_default (dict_get (VStr k) (repaired_optional k f d))
                   (VList []))) = true ->
  sized_or_settled settled (dict_get (VStr k) (repaired_optional k f d)) = true.
Proof.
  intros Hf. rewrite optional_get.
  destruct (dict_get (VStr k) d) as [v|]; [|reflexivity].
  destruct (truthy v) eqn:T.
  - destruct (Hf v) as (l & -> & Hl). intros _. exact Hl.
  - cbn [or_default]. destruct v as [| | | |s|l|e]; try discriminate.
    + intros _. cbn in T |- *. now destruct (s =? "")%string.
    + now destruct l.
    + now destruct e.
Qed.

Lemma roadmap_repaired_settled (v : value) :
  exists l, _validate_roadmap v = VList l /\ forallb settled_step l = true.
Proof.
  destruct v; try (exists []; split; reflexivity).
  eexists. split; [reflexivity|]. now apply roadmap_loop_settled.
Qed.

Lemma videos_repaired_settled (v : value) :
  exists l, _validate_reference_videos v = VList l
            /\ forallb settled_video l = true.
Proof.
  destruct v; try (exists []; split; reflexivity).
  eexists. split; [reflexivity|]. now apply videos_loop_settled.
Qed.

Lemma optional_has (k k' : string) (f : value -> value) (d : dict) :
  dict_has (VStr k) d = true ->
  dict_has (VStr k) (repaired_optional k' f d) = true.
Proof.
  intros H. unfold repaired_optional.
  destruct (dict_get (VStr k') d) as [v|]; [|exact H].
  destruct (truthy v); [|exact H]. now apply dict_has_set.
Qed.

Lemma body_has (now k : string) (d : dict) (kept : list value) :
  dict_has (VStr k) (with_timestamp now d) = true ->
  dict_has (VStr k) (repaired_body now d kept) = true.
Proof.
  intros H. unfold repaired_body.
  now apply optional_has, optional_has, dict_has_set.
Qed.

Lemma with_timestamp_keeps (now k : string) (d : dict) :
  dict_has (VStr k) d = true ->
  dict_has (VStr k) (with_timestamp now d) = true.
Proof.
  intros H. unfold with_timestamp.
  destruct (dict_has (VStr "timestamp") d); [exact H|]. now apply dict_has_set.
Qed.

Lemma body_questions (now : string) (d : dict) (kept : list value) :
  dict_get (VStr "questions") (repaired_body now d kept) = Some (VList kept).
Proof.
  unfold repaired_body.
  rewrite !optional_get_other by discriminate. apply dict_get_set_eq.
Qed.

(** The mapping a successful repair produces. *)
Lemma repair_steps_invariant (now : string) (mcq_json_str out : value) :
  repair_steps json_loads now mcq_json_str = Ok out ->
  exists d, out = VDict d /\ repaired_payload d = true.
Proof.
  intros H.
  destruct (repair_steps_ok _ _ _ H)
    as (d & questions & q & kept & metadata & _ & Hu & Ht & Hq & Hs & Hm & ->).
  eexists. split; [reflexivity|].
  pose proof (generate_metadata_shaped _ _ _ Hm) as Hshape.
  rewrite generate_metadata_dict, body_questions in Hm.
  cbn [or_default iter bind] in Hm.
  bind_inv Hm. bind_inv Hm. bind_inv Hm. bind_inv Hm.
  assert (R3 : forallb (fun f => dict_has (VStr f)
                          (dict_set (VStr "metadata") (VDict metadata)
                             (repaired_body now d (q :: kept))))
                 ["username"; "topic"; "timestamp"] = true).
  { cbn [forallb]. rewrite !dict_has_set_neq by discriminate.
    rewrite !body_has
      by (apply with_timestamp_has || now apply with_timestamp_keeps).
    reflexivity. }
  assert (Q : forallb settled_question (q :: kept) = true).
  { apply forallb_forall. intros x Hx. rewrite settled_is_repaired.
    apply andb_true_iff. split.
    + rewrite <- Hs in Hx.
      pose proof (survivors_forall (fun q => repaired_question q = true)
                    questions 0
                    (fun j y y' => survivor_repaired j y y')) as F.
      rewrite Forall_forall in F. now apply F.
    + pose proof (difficulty_loop_hashable _ _ _ Ha) as F.
      rewrite forallb_forall in F. now apply F. }
  assert (RM : sized_or_settled settled_step
                 (dict_get (VStr "roadmap") (repaired_body now d (q :: kept)))
               = true).
  { unfold repaired_body. rewrite optional_get_other by discriminate.
    apply optional_settled; [exact roadmap_repaired_settled|].
    unfold repaired_body in Ha1.
    rewrite optional_get_other in Ha1 by discriminate. now rewrite Ha1. }
  assert (RV : sized_or_settled settled_video
                 (dict_get (VStr "reference_videos")
                    (repaired_body now d (q :: kept))) = true).
  { unfold repaired_body.
    apply optional_settled; [exact videos_repaired_settled|].
    unfold repaired_body in Ha2. now rewrite Ha2. }
  unfold repaired_payload.
  rewrite R3, !dict_get_set_neq by discriminate.
  rewrite dict_get_set_eq, body_questions, Q, RM, RV.
  now rewrite (shaped_has_computed _ Hshape).
Qed.

End WholeRepairMore.

Section RepairTwice.

Variable json_loads : string -> option value.

Lemma optional_fixed (k : string) (f : value -> value)
  (settled : value -> bool) (d : dict) :
  (forall l, forallb settled l = true -> f (VList l) = VList l) ->
  sized_or_settled settled (dict_get (VStr k) d) = true ->
  repaired_optional k f d = d.
Proof.
  intros Hf H. unfold repaired_optional.
  destruct (dict_get (VStr k) d) as [v|] eqn:E; [|reflexivity].
  destruct (truthy v) eqn:T; [|reflexivity].
  destruct v as [| | | |s|l|e]; try discriminate.
  - cbn in H, T. rewrite H in T. discriminate.
  - rewrite (Hf l H). now apply dict_set_same.
  - destruct e; discriminate.
Qed.

Lemma roadmap_fixed (steps : list value) :
  forallb settled_step steps = true ->
  _validate_roadmap (VList steps) = VList steps.
Proof. intros H. cbn [_validate_roadmap]. now rewrite roadmap_settled. Qed.

Lemma videos_fixed (videos : list value) :
  forallb settled_video videos = true ->
  _validate_reference_videos (VList videos) = VList videos.
Proof.
  intros H. cbn [_validate_reference_videos]. now rewrite videos_settled.
Qed.

(** A repaired payload goes through the repair with nothing but its
    metadata recomputed. *)
Lemma repaired_payload_fixed (now : string) (d : dict) :
  repaired_payload d = true ->
  repair_steps json_loads now (VDict d)
  = (metadata <- _generate_metadata now (VDict d) ;;
     setitem (VDict d) "metadata" metadata).
Proof.
  unfold repaired_payload. cbn [forallb]. rewrite !andb_true_iff.
  intros [[[[(Hu & Ht & Hs & _) Hq] Hr] Hv] _].
  destruct (dict_get (VStr "questions") d) as [[| | | | |[|q questions]|]|]
    eqn:Q; try discriminate.
  change (forallb settled_question (q :: questions) = true) in Hq.
  rewrite (repair_steps_dict json_loads now d _ Hu Ht Q).
  rewrite (survivors_settled _ 0 Hq).
  assert (B : repaired_body now d (q :: questions) = d).
  { unfold repaired_body, with_timestamp. rewrite Hs.
    rewrite (dict_set_same _ _ _ Q).
    rewrite (optional_fixed "roadmap" _ settled_step d roadmap_fixed Hr).
    apply (optional_fixed _ _ settled_video d videos_fixed Hv). }
  cbv beta iota zeta. now rewrite B.
Qed.

End RepairTwice.

(** What is returned comes from a repaired mapping. *)
Lemma validated_from_repaired (json_loads : string -> option value)
  (MCQResponse_dict : dict -> option value) (now : string)
  (mcq_json_str returned : value) :
  validate_mcq_json json_loads MCQResponse_dict now mcq_json_str
  = Ok returned ->
  exists d,
    repair_steps json_loads now mcq_json_str = Ok (VDict d)
    /\ repaired_payload d = true
    /\ returned = match MCQResponse_dict d with
                  | Some validated => validated
                  | None => VDict d
                  end.
Proof.
  unfold validate_mcq_json. intros H.
  destruct (repair_steps json_loads now mcq_json_str) as [out|e] eqn:R.
  - destruct (repair_steps_invariant _ _ _ _ R) as (d & -> & P).
    exists d. repeat split; [exact P|].
    cbn [bind final_validation] in H.
    destruct (forallb _ d); [|discriminate].
    destruct (MCQResponse_dict d); now injection H as <-.
  - cbn [bind] in H. destruct e; discriminate.
Qed.

(** X14.  Whatever [validate_mcq_json] returns comes from a repaired
    mapping: one that has [username], [topic] and [timestamp], a non-empty
    list of questions each with an id, the four required fields, a topic
    area, a hashable difficulty and four options of which exactly one is
    marked correct, a roadmap and videos that are absent, empty or lists of
    repaired items, and metadata with the seven computed keys.  The schema
    model's rendering of that mapping is returned when the model accepts it,
    the mapping itself otherwise. *)
Theorem X14_returned_from_repaired (json_loads : string -> option value)
  (MCQResponse_dict : dict -> option value) (now : string)
  (mcq_json_str returned : value) :
  validate_mcq_json json_loads MCQResponse_dict now mcq_json_str
  = Ok returned ->
  exists d,
    repair_steps json_loads now mcq_json_str = Ok (VDict d)
    /\ repaired_payload d = true
    /\ returned = match MCQResponse_dict d with
                  | Some validated => validated
                  | None => VDict d
                  end.
Proof. apply validated_from_repaired. Qed.

Lemma X14_returned_from_repaired_witness :
  exists d,
    repair_steps (fun _ => None) "2024-01-15T10:30:00" (VDict scenario_payload)
    = Ok (VDict d)
    /\ repaired_payload d = true
    /\ or_default
         (match validate_mcq_json (fun _ => None) Models.MCQResponse
                  "2024-01-15T10:30:00" (VDict scenario_payload) with
          | Ok v => Some v
          | Raise _ => None
          end) VNone
       = match Models.MCQResponse d with
         | Some validated => validated
         | None => VDict d
         end.
Proof.
  apply (X14_returned_from_repaired (fun _ => None) Models.MCQResponse
           "2024-01-15T10:30:00" (VDict scenario_payload)).
  reflexivity.
Defined.

(** X15.  The repair is idempotent: the mapping it produces, given to it
    again (at whatever later time, with whatever parser), is produced
    again unchanged, metadata and [validation_timestamp] included. *)
Theorem X15_repair_idempotent (json_loads json_loads' : string -> option value)
  (now now' : string) (mcq_json_str out : value) :
  repair_steps json_loads now mcq_json_str = Ok out ->
  repair_steps json_loads' now' out = Ok out.
Proof.
  intros H.
  destruct (repair_steps_invariant _ _ _ _ H) as (o & E & P).
  destruct (repair_steps_ok _ _ _ _ H)
    as (d & questions & q & kept & metadata & _ & _ & _ & _ & _ & Hm & E').
  rewrite E in E' |- *. injection E' as E'.
  rewrite (repaired_payload_fixed json_loads' now' o P).
  assert (M : _generate_metadata now' (VDict o) = Ok (VDict metadata)).
  { apply (metadata_again now now' _ _ _ Hm); rewrite E'.
    - now apply dict_get_set_neq.
    - now apply dict_get_set_neq.
    - now apply dict_get_set_neq.
    - apply dict_get_set_eq. }
  rewrite M. cbn [bind setitem]. do 2 f_equal.
  apply dict_set_same. rewrite E'. apply dict_get_set_eq.
Qed.

Lemma X15_repair_idempotent_witness :
  repair_steps (fun _ => Some VNone) "2024-02-01T08:00:00"
    (or_default
       (match repair_steps (fun _ => None) "2024-01-15T10:30:00"
                (VDict scenario_payload) with
        | Ok v => Some v
        | Raise _ => None
        end) VNone)
  = Ok (or_default
          (match repair_steps (fun _ => None) "2024-01-15T10:30:00"
                   (VDict scenario_payload) with
           | Ok v => Some v
           | Raise _ => None
           end) VNone).
Proof.
  apply (X15_repair_idempotent (fun _ => None) (fun _ => Some VNone)
           "2024-01-15T10:30:00" "2024-02-01T08:00:00"
           (VDict scenario_payload)).
  reflexivity.
Defined.

(** A false value under [roadmap] or [reference_videos] has to be an empty
    container for the repair to succeed. *)
Lemma false_optional_sized (json_loads : string -> option value)
  (now : string) (d : dict) (k : string) (v out : value) :
  repair_steps json_loads now (VDict d) = Ok out ->
  k = "roadmap" \/ k = "reference_videos" ->
  dict_get (VStr k) d = Some v ->
  truthy v = false ->
  empty_sized v = true.
Proof.
  intros E Hk Hv Tv.
  destruct (repair_steps_ok _ _ _ _ E)
    as (d0 & questions & q & kept & metadata & [= <-] & _ & _ & _ & _ & Hm & _).
  rewrite generate_metadata_dict in Hm.
  bind_inv Hm. bind_inv Hm. bind_inv Hm. bind_inv Hm. bind_inv Hm.
  assert (L : len v = Ok (if (k =? "roadmap")%string then a2 else a3)).
  { unfold repaired_body in Ha2, Ha3.
    rewrite optional_get_other, optional_get, dict_get_set_neq,
      with_timestamp_get in Ha2 by discriminate.
    rewrite optional_get, optional_get_other, dict_get_set_neq,
      with_timestamp_get in Ha3 by discriminate.
    destruct Hk as [-> | ->]; cbn [String.eqb Ascii.eqb Bool.eqb].
    - rewrite Hv, Tv in Ha2. exact Ha2.
    - rewrite Hv, Tv in Ha3. exact Ha3. }
  destruct v as [| | | |s|l|e]; try discriminate.
  - cbn in Tv |- *. now destruct (s =? "")%string.
  - now destruct l.
  - now destruct e.
Qed.

(** X16.  A payload is repaired only if its [roadmap] and its
    [reference_videos], when present and false ([null], [false], [0], an
    empty container), are empty containers: a [null], [false] or zero under
    either key makes the operation fail, since the length of the value is
    taken when the metadata is built. *)
Theorem X16_false_optional_must_be_sized
  (json_loads : string -> option value)
  (MCQResponse_dict : dict -> option value) (now : string) (d : dict)
  (k : string) (v returned : value) :
  validate_mcq_json json_loads MCQResponse_dict now (VDict d) = Ok returned ->
  k = "roadmap" \/ k = "reference_videos" ->
  dict_get (VStr k) d = Some v ->
  truthy v = false ->
  empty_sized v = true.
Proof.
  intros H Hk Hv Tv.
  destruct (repair_steps json_loads now (VDict d)) as [out|e] eqn:E.
  - exact (false_optional_sized _ _ _ _ _ _ E Hk Hv Tv).
  - unfold validate_mcq_json in H. rewrite E in H. cbn [bind] in H.
    destruct e; discriminate.
Qed.

Lemma X16_false_optional_must_be_sized_witness :
  empty_sized (VList []) = true.
Proof.
  eapply (X16_false_optional_must_be_sized (fun _ => None) Models.MCQResponse
            "2024-01-15T10:30:00" payload_with_empty_roadmap "roadmap"
            (VList [])).
  - reflexivity.
  - left. reflexivity.
  - reflexivity.
  - reflexivity.
Defined.

(** A true value that is not a list is replaced by the empty list. *)
Lemma non_list_optional_emptied (json_loads : string -> option value)
  (now : string) (d out : dict) (k : string) (v : value) :
  repair_steps json_loads now (VDict d) = Ok (VDict out) ->
  k = "roadmap" \/ k = "reference_videos" ->
  dict_get (VStr k) d = Some v ->
  truthy v = true ->
  isinstance_list v = false ->
  dict_get (VStr k) out = Some (VList []).
Proof.
  intros H Hk Hv Tv Lv.
  destruct (repair_steps_ok _ _ _ _ H)
    as (d0 & questions & q & kept & metadata & [= <-] & _ & _ & _ & _ & _ & E).
  injection E as ->.
  assert (F : forall f : value -> value,
             (forall x, isinstance_list x = false -> f x = VList []) ->
             Some (if truthy v then f v else v) = Some (VList [])).
  { intros f Hf. now rewrite Tv, (Hf v Lv). }
  unfold repaired_body.
  destruct Hk as [-> | ->]; rewrite dict_get_set_neq by discriminate.
  - rewrite optional_get_other, optional_get, dict_get_set_neq,
      with_timestamp_get, Hv by discriminate.
    apply F. now intros [].
  - rewrite optional_get, optional_get_other, dict_get_set_neq,
      with_timestamp_get, Hv by discriminate.
    apply F. now intros [].
Qed.

(** X17.  A [roadmap] or [reference_videos] that is true but not a list (a
    non-empty string such as a placeholder left in the payload, a number, a
    non-empty mapping) is replaced by the empty list, without any failure
    being reported. *)
Theorem X17_non_list_optional_emptied (json_loads : string -> option value)
  (now : string) (d out : dict) (k : string) (v : value) :
  repair_steps json_loads now (VDict d) = Ok (VDict out) ->
  k = "roadmap" \/ k = "reference_videos" ->
  dict_get (VStr k) d = Some v ->
  truthy v = true ->
  isinstance_list v = false ->
  dict_get (VStr k) out = Some (VList []).
Proof. apply non_list_optional_emptied. Qed.

Lemma X17_non_list_optional_emptied_witness :
  dict_get (VStr "reference_videos")
    [(VStr "username", VStr "a"); (VStr "topic", VStr "b");
     (VStr "questions", VList [scenario_question_repaired]);
     (VStr "reference_videos", VList []);
     (VStr "timestamp", VStr "2024-01-15T10:30:00");
     (VStr "metadata",
      VDict (computed_metadata "2024-01-15T10:30:00" 1
               [(VStr "basic", VInt 1)] VNone (VList []) 0 0))]
  = Some (VList []).
Proof.
  apply (X17_non_list_optional_emptied (fun _ => None) "2024-01-15T10:30:00"
           placeholder_payload _ "reference_videos" (VStr "<<SEARCH_VIDEOS>>")).
  - reflexivity.
  - right. reflexivity.
  - reflexivity.
  - reflexivity.
  - reflexivity.
Defined.

(** *** More on the request *)

Section MoreRequest.

(** Nothing but a dict gets through: a string or a list can hold the names
    of the required fields, and then cannot be indexed by them. *)
Lemma request_is_dict (v v' : value) :
  validate_request_data v = Ok v' -> exists d, v = VDict d.
Proof.
  unfold validate_request_data, request_steps.
  destruct v; try discriminate; [| |eauto].
  - repeat (cbn;
            match goal with
            | |- context [is_substring ?a ?b] => destruct (is_substring a b)
            end); cbn; discriminate.
  - repeat (cbn;
            match goal with
            | |- context [existsb ?f ?b] => destruct (existsb f b)
            end); cbn; discriminate.
Qed.

(** What a request that is accepted looks like. *)
Lemma request_ok (v v' : value) :
  validate_request_data v = Ok v' ->
  exists d username,
    v = VDict d
    /\ dict_get (VStr "username") d = Some (VStr username)
    /\ isalnum (bare_name username) = true
    /\ filled d "topic" = true
    /\ v' = VDict (normalized d).
Proof.
  intros H. destruct (request_is_dict _ _ H) as [d ->].
  assert (S : succeeds (validate_request_data (VDict d)) = true)
    by now rewrite H.
  destruct (dict_get (VStr "username") d) as [[| | | |username| |]|] eqn:Hu;
    try (exfalso; revert S; unfold validate_request_data, request_steps;
         rewrite require_present_dict; cbn [find]; unfold filled at 1;
         rewrite Hu; cbn [or_default truthy];
         repeat match goal with
                | |- context [if ?c then _ else _] => destruct c
                end;
         cbn [negb bind]; unfold getitem; rewrite ?Hu; cbn; discriminate).
  rewrite (request_verdict d username Hu) in S.
  apply andb_true_iff in S. destruct S as [T A].
  rewrite (request_accepted d username Hu A T) in H. injection H as <-.
  exists d, username. auto.
Qed.

Lemma normalized_keeps (k : string) (v : value) (d : dict) :
  k <> "question_count" ->
  dict_get (VStr k) d = Some v ->
  dict_get (VStr k) (normalized d) = Some v.
Proof.
  intros N H. unfold normalized.
  destruct (bad_question_count _);
    [rewrite dict_get_set_neq by exact N|]; now apply with_defaults_keeps.
Qed.

Lemma with_default_has (k : string) (x : value) (d : dict) :
  dict_has (VStr k) (with_default k x d) = true.
Proof. unfold dict_has. now rewrite with_default_get. Qed.

Lemma has_keeps (k : string) (d d' : dict) :
  (forall v, dict_get (VStr k) d = Some v -> dict_get (VStr k) d' = Some v) ->
  dict_has (VStr k) d = true -> dict_has (VStr k) d' = true.
Proof.
  unfold dict_has. intros H.
  destruct (dict_get (VStr k) d) as [v|]; [|discriminate].
  now rewrite (H v eq_refl).
Qed.

Lemma with_defaults_has (k : string) (d : dict) :
  In k ["difficulty"; "question_count"; "include_roadmap"; "include_videos"] ->
  dict_has (VStr k) (with_defaults d) = true.
Proof.
  unfold with_defaults.
  intros [<-|[<-|[<-|[<-|[]]]]].
  - do 3 (eapply has_keeps; [intros v; apply with_default_keeps|]).
    apply with_default_has.
  - do 2 (eapply has_keeps; [intros v; apply with_default_keeps|]).
    apply with_default_has.
  - eapply has_keeps; [intros v; apply with_default_keeps|].
    apply with_default_has.
  - apply with_default_has.
Qed.

Lemma good_question_count (question_count : value) :
  bad_question_count question_count = false ->
  exists n, question_count = VInt n /\ 5 <= n <= 50.
Proof.
  destruct question_count as [|[]|n| | | |]; try discriminate.
  cbn. intros H. apply orb_false_iff in H. exists n. split; [reflexivity|].
  lia.
Qed.

Lemma normalized_question_count (d : dict) :
  exists n, dict_get (VStr "question_count") (normalized d) = Some (VInt n)
            /\ 5 <= n <= 50.
Proof.
  unfold normalized.
  destruct (bad_question_count _) eqn:B.
  - exists 20. rewrite dict_get_set_eq. split; [reflexivity | lia].
  - destruct (good_question_count _ B) as (n & E & R). exists n.
    rewrite with_defaults_question_count in E |- *.
    cbn [or_default] in E. rewrite E. auto.
Qed.

Lemma with_default_present (k : string) (x : value) (d : dict) :
  dict_has (VStr k) d = true -> with_default k x d = d.
Proof. intros H. unfold with_default. now rewrite H. Qed.

Lemma normalized_has (k : string) (d : dict) :
  In k ["difficulty"; "question_count"; "include_roadmap"; "include_videos"] ->
  dict_has (VStr k) (normalized d) = true.
Proof.
  intros H. unfold normalized.
  destruct (bad_question_count _); [apply dict_has_set|];
    now apply with_defaults_has.
Qed.

Lemma normalized_twice (d : dict) : normalized (normalized d) = normalized d.
Proof.
  assert (W : with_defaults (normalized d) = normalized d).
  { unfold with_defaults.
    rewrite (with_default_present "difficulty")
      by (apply normalized_has; cbn; auto).
    rewrite (with_default_present "question_count")
      by (apply normalized_has; cbn; auto).
    rewrite (with_default_present "include_roadmap")
      by (apply normalized_has; cbn; auto).
    apply with_default_present, normalized_has. cbn. auto. }
  unfold normalized at 1. rewrite W.
  destruct (normalized_question_count d) as (n & -> & R).
  cbn [or_default bad_question_count].
  replace (n <? 5) with false by (symmetry; apply Z.ltb_ge; lia).
  replace (n >? 50) with false by (symmetry; rewrite Z.gtb_ltb;
                                      apply Z.ltb_ge; lia).
  reflexivity.
Qed.

End MoreRequest.

(** X18.  [validate_request_data] accepts exactly a mapping whose [username]
    is a string that, without its underscores and hyphens, is not empty and
    alphanumeric, and whose [topic] is present and true; the request is
    returned with the four defaults filled in and an unacceptable
    [question_count] replaced by 20. *)
Theorem X18_request_accepted_iff (request_data returned : value) :
  validate_request_data request_data = Ok returned <->
  exists d username,
    request_data = VDict d
    /\ dict_get (VStr "username") d = Some (VStr username)
    /\ isalnum (bare_name username) = true
    /\ filled d "topic" = true
    /\ returned = VDict (normalized d).
Proof.
  split; [apply request_ok|].
  intros (d & username & -> & Hu & A & T & ->).
  now apply (request_accepted d username).
Qed.

(** X19.  A request that is returned has [difficulty], [include_roadmap]
    and [include_videos], and under [question_count] an integer between 5
    and 50. *)
Theorem X19_returned_request_complete (request_data : value) (d' : dict) :
  validate_request_data request_data = Ok (VDict d') ->
  forallb (fun k => dict_has (VStr k) d')
    ["username"; "topic"; "difficulty"; "include_roadmap"; "include_videos"]
  = true
  /\ exists n, dict_get (VStr "question_count") d' = Some (VInt n)
               /\ 5 <= n <= 50.
Proof.
  intros H.
  destruct (request_ok _ _ H) as (d & username & _ & Hu & _ & T & [= ->]).
  split; [|apply normalized_question_count].
  cbn [forallb].
  rewrite (normalized_has "difficulty"), (normalized_has "include_roadmap"),
    (normalized_has "include_videos") by (cbn; auto).
  assert (U : dict_has (VStr "username") (normalized d) = true).
  { unfold dict_has. rewrite (normalized_keeps "username" (VStr username) d); auto.
    discriminate. }
  assert (P : dict_has (VStr "topic") (normalized d) = true).
  { unfold filled in T.
    destruct (dict_get (VStr "topic") d) as [v|] eqn:E; [|discriminate].
    unfold dict_has. rewrite (normalized_keeps "topic" v d); auto.
    discriminate. }
  now rewrite U, P.
Qed.

Lemma X19_returned_request_complete_witness :
  forallb (fun k => dict_has (VStr k) (normalized request_for_1000))
    ["username"; "topic"; "difficulty"; "include_roadmap"; "include_videos"]
  = true
  /\ exists n, dict_get (VStr "question_count") (normalized request_for_1000)
               = Some (VInt n)
               /\ 5 <= n <= 50.
Proof.
  apply (X19_returned_request_complete (VDict request_for_1000)).
  reflexivity.
Defined.

(** X20.  Apart from [question_count], whatever the request brings is
    returned as it came: [difficulty], [include_roadmap] and
    [include_videos] are not checked, whatever their values, and keys the
    function does not know stay. *)
Theorem X20_request_values_kept (d d' : dict) (k : string) (v : value) :
  validate_request_data (VDict d) = Ok (VDict d') ->
  k <> "question_count" ->
  dict_get (VStr k) d = Some v ->
  dict_get (VStr k) d' = Some v.
Proof.
  intros H N G.
  destruct (request_ok _ _ H) as (d0 & username & [= <-] & _ & _ & _ & [= ->]).
  now apply normalized_keeps.
Qed.

Lemma X20_request_values_kept_witness :
  dict_get (VStr "difficulty") (normalized request_with_odd_difficulty)
  = Some (VInt 7).
Proof.
  apply (X20_request_values_kept request_with_odd_difficulty
           (normalized request_with_odd_difficulty) "difficulty" (VInt 7)).
  - reflexivity.
  - discriminate.
  - reflexivity.
Defined.

(** X21.  Normalizing a request is idempotent: a request that was returned
    is accepted again and returned unchanged. *)
Theorem X21_request_idempotent (request_data returned : value) :
  validate_request_data request_data = Ok returned ->
  validate_request_data returned = Ok returned.
Proof.
  intros H.
  destruct (request_ok _ _ H) as (d & username & _ & Hu & A & T & ->).
  rewrite (request_accepted (normalized d) username).
  - now rewrite normalized_twice.
  - now apply normalized_keeps.
  - exact A.
  - unfold filled in T |- *.
    destruct (dict_get (VStr "topic") d) as [v|] eqn:E; [|discriminate].
    rewrite (normalized_keeps "topic" v d); auto. discriminate.
Qed.

Lemma X21_request_idempotent_witness :
  validate_request_data (VDict (normalized request_for_1000))
  = Ok (VDict (normalized request_for_1000)).
Proof.
  apply (X21_request_idempotent (VDict request_for_1000)).
  reflexivity.
Defined.

(** *** The video search of the chain *)

Section ChainFacts.

Variable title : string -> string.
Variable py_str : value -> string.
Variable search : result (string -> result string).

Lemma found_video_str (s : string) :
  Chain.found_video title py_str (VStr s) = Ok (search_entry title s).
Proof. reflexivity. Qed.

Lemma found_video_not_str (topic : value) :
  isinstance_str topic = false ->
  Chain.found_video title py_str topic = Raise AttributeError.
Proof. destruct topic; try reflexivity; discriminate. Qed.

Lemma fallback_not_str (topic : value) :
  isinstance_str topic = false ->
  Chain._get_fallback_videos title py_str topic = Raise AttributeError.
Proof. destruct topic; try reflexivity; discriminate. Qed.

Lemma fallback_str (s : string) :
  exists l,
    Chain._get_fallback_videos title py_str (VStr s) = Ok (VList l)
    /\ List.length l = 3%nat
    /\ forallb settled_video l = true.
Proof. eexists. repeat split. Qed.

Lemma search_entry_settled (s : string) :
  settled_video (search_entry title s) = true.
Proof. reflexivity. Qed.

(** The loop appends copies of one entry, at most one for each query. *)
Lemma search_loop_copies (run : string -> result string) (s : string)
  (queries : list string) (videos : list value) :
  exists n,
    (n <= List.length queries)%nat
    /\ Chain.search_loop title py_str run (VStr s) queries videos
       = videos ++ repeat (search_entry title s) n.
Proof.
  revert videos. induction queries as [|query rest IH]; intros videos.
  - exists 0%nat. cbn. now rewrite app_nil_r.
  - cbn [Chain.search_loop]. unfold Chain.search_query.
    destruct (run query) as [results|e]; cbn [bind].
    + destruct (is_substring "youtube.com" results
                || is_substring "coursera.org" results).
      * rewrite found_video_str. cbn [bind].
        destruct (IH (videos ++ [search_entry title s])) as (n & Hn & E).
        exists (S n). split; [cbn; lia|].
        rewrite E, <- app_assoc. reflexivity.
      * destruct (IH videos) as (n & Hn & E).
        exists n. split; [cbn; lia | exact E].
    + destruct (IH videos) as (n & Hn & E).
      exists n. split; [cbn; lia | exact E].
Qed.

(** On a topic that is not a string the loop appends nothing. *)
Lemma search_loop_not_str (run : string -> result string) (topic : value)
  (queries : list string) (videos : list value) :
  isinstance_str topic = false ->
  Chain.search_loop title py_str run topic queries videos = videos.
Proof.
  intros H. induction queries as [|query rest IH]; [reflexivity|].
  cbn [Chain.search_loop]. unfold Chain.search_query.
  destruct (run query) as [results|e]; cbn [bind]; [|exact IH].
  destruct (is_substring "youtube.com" results
            || is_substring "coursera.org" results); [|exact IH].
  rewrite (found_video_not_str _ H). exact IH.
Qed.

Lemma slice_to_length {A : Type} (count : Z) (l : list A) :
  (List.length (Chain.slice_to count l) <= List.length l)%nat.
Proof.
  unfold Chain.slice_to.
  destruct (0 <=? count); rewrite length_firstn; lia.
Qed.

Lemma repeat_settled (v : value) (n : nat) :
  settled_video v = true -> forallb settled_video (repeat v n) = true.
Proof.
  intros H. induction n as [|n IH]; [reflexivity|]. cbn. now rewrite H, IH.
Qed.

(** What the search returns for a topic that is a string. *)
Lemma search_str (s : string) (count : Z) :
  Chain._search_educational_videos title py_str search (VStr s) count
  = Chain._get_fallback_videos title py_str (VStr s)
  \/ exists n,
       (1 <= n <= 3)%nat
       /\ Chain._search_educational_videos title py_str search (VStr s) count
          = Ok (VList (repeat (search_entry title s) n)).
Proof.
  unfold Chain._search_educational_videos.
  destruct search as [run|e]; cbn [bind]; [|now left].
  destruct (search_loop_copies run s
              (Chain.slice_to count
                 (Chain.search_queries py_str (VStr s))) [])
    as (n & Hn & E).
  rewrite E. cbn [app].
  pose proof (slice_to_length count (Chain.search_queries py_str (VStr s)))
    as L.
  cbn [Chain.search_queries List.length] in L.
  destruct n as [|n]; cbn [repeat truthy].
  - left. now destruct (Chain._get_fallback_videos title py_str (VStr s)).
  - right. exists (S n). split; [lia | reflexivity].
Qed.

(** What the search returns at all. *)
Lemma search_result (topic : value) (count : Z) (videos : value) :
  Chain._search_educational_videos title py_str search topic count
  = Ok videos ->
  exists l,
    videos = VList l
    /\ l <> []
    /\ (List.length l <= 3)%nat
    /\ forallb settled_video l = true.
Proof.
  destruct (isinstance_str topic) eqn:S.
  - destruct topic; try discriminate.
    destruct (search_str s count) as [E | (n & Hn & E)]; rewrite E.
    + destruct (fallback_str s) as (l & -> & L & F). intros [= <-].
      exists l. repeat split; auto; [|lia].
      intros ->. discriminate.
    + intros [= <-]. eexists. repeat split.
      * destruct n; [lia | discriminate].
      * rewrite repeat_length. lia.
      * apply repeat_settled, search_entry_settled.
  - unfold Chain._search_educational_videos.
    destruct search as [run|e]; cbn [bind].
    + rewrite (search_loop_not_str _ _ _ _ S). cbn [truthy].
      now rewrite (fallback_not_str _ S).
    + now rewrite (fallback_not_str _ S).
Qed.

End ChainFacts.

(** X22.  [_search_educational_videos] returns a list of videos for every
    topic that is a string, whatever the search tool does (it may fail to be
    built, and each query may raise), and raises for every topic that is not
    a string. *)
Theorem X22_search_returns_for_strings (title : string -> string)
  (py_str : value -> string) (search : result (string -> result string))
  (topic : value) (count : Z) :
  succeeds (Chain._search_educational_videos title py_str search topic count)
  = isinstance_str topic.
Proof.
  destruct (isinstance_str topic) eqn:S.
  - destruct topic; try discriminate.
    destruct (search_str title py_str search s count) as [E | (n & _ & E)];
      now rewrite E.
  - unfold Chain._search_educational_videos.
    destruct search as [run|e]; cbn [bind].
    + rewrite (search_loop_not_str _ _ _ _ _ _ S). cbn [truthy].
      now rewrite (fallback_not_str _ _ _ S).
    + now rewrite (fallback_not_str _ _ _ S).
Qed.

(** X23.  The videos the search returns are never an empty list, are at
    most three, and pass [_validate_reference_videos] unchanged: each has
    an https [url], a [duration] and a [description]. *)
Theorem X23_search_videos_pass_validation (title : string -> string)
  (py_str : value -> string) (search : result (string -> result string))
  (topic : value) (count : Z) (videos : value) :
  Chain._search_educational_videos title py_str search topic count
  = Ok videos ->
  exists l,
    videos = VList l
    /\ l <> []
    /\ (List.length l <= 3)%nat
    /\ _validate_reference_videos videos = videos.
Proof.
  intros H.
  destruct (search_result _ _ _ _ _ _ H) as (l & -> & N & L & F).
  exists l. repeat split; auto. now apply videos_fixed.
Qed.

Lemma X23_search_videos_pass_validation_witness :
  exists l,
    VList (repeat (search_entry as_is "linear algebra") 3) = VList l
    /\ l <> []
    /\ (List.length l <= 3)%nat
    /\ _validate_reference_videos
         (VList (repeat (search_entry as_is "linear algebra") 3))
       = VList (repeat (search_entry as_is "linear algebra") 3).
Proof.
  apply (X23_search_videos_pass_validation as_is no_text search_that_finds
           (VStr "linear algebra") 3).
  reflexivity.
Defined.

(** X24.  Nothing of what the search tool finds reaches the result: for a
    topic [s] the search returns either the three fallback entries, or one
    to three copies of a single entry whose [url] is YouTube's search page
    for [s]; the text found only decides how many copies there are. *)
Theorem X24_search_results_unused (title : string -> string)
  (py_str : value -> string) (search : result (string -> result string))
  (s : string) (count : Z) :
  Chain._search_educational_videos title py_str search (VStr s) count
  = Chain._get_fallback_videos title py_str (VStr s)
  \/ exists n,
       (1 <= n <= 3)%nat
       /\ Chain._search_educational_videos title py_str search (VStr s) count
          = Ok (VList (repeat (search_entry title s) n)).
Proof. apply search_str. Qed.

(** X25.  [post_process_output] returns its argument as it is, unless the
    argument is a mapping whose [include_videos] is true and which has a
    [reference_videos] key: then only that key changes, to a non-empty list
    of videos that pass [_validate_reference_videos] unchanged.  It never
    adds a key. *)
Theorem X25_post_process_changes_videos_only (title : string -> string)
  (py_str : value -> string) (search : result (string -> result string))
  (output output' : value) :
  Chain.post_process_output title py_str search output = Ok output' ->
  output' = output
  \/ exists d l,
       output = VDict d
       /\ filled d "include_videos" = true
       /\ dict_has (VStr "reference_videos") d = true
       /\ l <> []
       /\ _validate_reference_videos (VList l) = VList l
       /\ output' = VDict (dict_set (VStr "reference_videos") (VList l) d).
Proof.
  unfold Chain.post_process_output.
  destruct output as [| | | | | |d]; cbn [isinstance_dict];
    try (intros [= <-]; now left).
  cbn [get]. unfold filled.
  replace (match dict_get (VStr "include_videos") d with
           | Some v => Ok v
           | None => Ok VNone
           end)
    with (@Ok value (or_default (dict_get (VStr "include_videos") d) VNone))
    by now destruct (dict_get (VStr "include_videos") d).
  cbn [bind].
  destruct (truthy (or_default (dict_get (VStr "include_videos") d) VNone))
    eqn:T; cbn [andb]; [|intros [= <-]; now left].
  destruct (is_substring Chain.placeholder (py_str (VDict d)));
    [|intros [= <-]; now left].
  intros H. bind_inv H. bind_inv H.
  destruct (search_result _ _ _ _ _ _ Ha0) as (l & -> & N & _ & F).
  cbn [py_in hashable bind] in H.
  destruct (dict_has (VStr "reference_videos") d) eqn:P;
    injection H as <-; [right | now left].
  exists d, l. repeat split; auto. now apply videos_fixed.
Qed.

Lemma X25_post_process_changes_videos_only_witness :
  VDict (dict_set (VStr "reference_videos")
           (VList (repeat (search_entry as_is "b") 3)) payload_wanting_videos)
  = VDict payload_wanting_videos
  \/ exists d l,
       VDict payload_wanting_videos = VDict d
       /\ filled d "include_videos" = true
       /\ dict_has (VStr "reference_videos") d = true
       /\ l <> []
       /\ _validate_reference_videos (VList l) = VList l
       /\ VDict (dict_set (VStr "reference_videos")
                   (VList (repeat (search_entry as_is "b") 3))
                   payload_wanting_videos)
          = VDict (dict_set (VStr "reference_videos") (VList l) d).
Proof.
  apply (X25_post_process_changes_videos_only as_is
           (fun _ => Chain.placeholder) search_that_finds
           (VDict payload_wanting_videos)).
  reflexivity.
Defined.

(** X26.  A payload that follows the structure the prompt asks for has the
    placeholder under [reference_videos] and no [include_videos] key: the
    post-processing leaves it as it is, without searching, and the repair
    then replaces the placeholder by the empty list.  The same holds
    whenever [include_videos] is absent or false and [reference_videos] is
    any non-empty string. *)
Theorem X26_placeholder_becomes_empty (title : string -> string)
  (py_str : value -> string) (search : result (string -> result string))
  (json_loads : string -> option value) (now : string) (d : dict)
  (s : string) :
  filled d "include_videos" = false ->
  dict_get (VStr "reference_videos") d = Some (VStr s) ->
  s <> "" ->
  Chain.post_process_output title py_str search (VDict d) = Ok (VDict d)
  /\ forall out,
       repair_steps json_loads now (VDict d) = Ok (VDict out) ->
       dict_get (VStr "reference_videos") out = Some (VList []).
Proof.
  intros F Hv Hs. split.
  - unfold Chain.post_process_output. cbn [isinstance_dict get].
    unfold filled in F.
    destruct (dict_get (VStr "include_videos") d) as [v|];
      cbn [or_default bind] in F |- *; now rewrite F.
  - intros out H.
    apply (non_list_optional_emptied json_loads now d out "reference_videos"
             (VStr s)); auto.
    cbn. apply String.eqb_neq in Hs. now rewrite Hs.
Qed.

Lemma X26_placeholder_becomes_empty_witness :
  Chain.post_process_output as_is no_text search_that_finds
    (VDict placeholder_payload) = Ok (VDict placeholder_payload)
  /\ forall out,
       repair_steps (fun _ => None) "2024-01-15T10:30:00"
         (VDict placeholder_payload) = Ok (VDict out) ->
       dict_get (VStr "reference_videos") out = Some (VList []).
Proof.
  apply (X26_placeholder_becomes_empty as_is no_text search_that_finds
           (fun _ => None) "2024-01-15T10:30:00" placeholder_payload
           "<<SEARCH_VIDEOS>>").
  - reflexivity.
  - reflexivity.
  - discriminate.
Defined.

(** X27.  The chain input built from a request that [validate_request_data]
    returned takes all its six values from the request, none from the
    [None] default of the lookups: an accepted [username], a true [topic],
    a [question_count] between 5 and 50, and the [difficulty],
    [include_roadmap] and [include_videos] of the request. *)
Theorem X27_chain_input_of_validated_request (request_data validated : value) :
  validate_request_data request_data = Ok validated ->
  exists username topic difficulty n include_roadmap include_videos,
    Chain.process_chain_input validated
    = Ok (VDict [(VStr "topic", topic);
                 (VStr "username", VStr username);
                 (VStr "difficulty", difficulty);
                 (VStr "question_count", VInt n);
                 (VStr "include_roadmap", include_roadmap);
                 (VStr "include_videos", include_videos)])
    /\ isalnum (bare_name username) = true
    /\ truthy topic = true
    /\ 5 <= n <= 50
    /\ getitem validated "difficulty" = Ok difficulty
    /\ getitem validated "include_roadmap" = Ok include_roadmap
    /\ getitem validated "include_videos" = Ok include_videos.
Proof.
  intros H.
  destruct (request_ok _ _ H) as (d & username & _ & Hu & A & T & ->).
  destruct (normalized_question_count d) as (n & Hn & R).
  pose proof (normalized_has "difficulty" d ltac:(cbn; auto)) as Hd.
  pose proof (normalized_has "include_roadmap" d ltac:(cbn; auto)) as Hr.
  pose proof (normalized_has "include_videos" d ltac:(cbn; auto)) as Hv.
  unfold dict_has in Hd, Hr, Hv. unfold filled in T.
  destruct (dict_get (VStr "topic") d) as [topic|] eqn:Ht; [|discriminate].
  destruct (dict_get (VStr "difficulty") (normalized d)) as [difficulty|] eqn:Ed;
    [|discriminate].
  destruct (dict_get (VStr "include_roadmap") (normalized d))
    as [include_roadmap|] eqn:Er; [|discriminate].
  destruct (dict_get (VStr "include_videos") (normalized d))
    as [include_videos|] eqn:Ev; [|discriminate].
  exists username, topic, difficulty, n, include_roadmap, include_videos.
  unfold Chain.process_chain_input, get, getitem.
  rewrite (normalized_keeps "topic" topic d), (normalized_keeps "username" (VStr username) d), Ed, Hn, Er, Ev
    by (assumption || discriminate).
  cbn [bind]. repeat split; auto; apply R.
Qed.

Lemma X27_chain_input_of_validated_request_witness :
  exists username topic difficulty n include_roadmap include_videos,
    Chain.process_chain_input (VDict (normalized request_for_1000))
    = Ok (VDict [(VStr "topic", topic);
                 (VStr "username", VStr username);
                 (VStr "difficulty", difficulty);
                 (VStr "question_count", VInt n);
                 (VStr "include_roadmap", include_roadmap);
                 (VStr "include_videos", include_videos)])
    /\ isalnum (bare_name username) = true
    /\ truthy topic = true
    /\ 5 <= n <= 50
    /\ getitem (VDict (normalized request_for_1000)) "difficulty"
       = Ok difficulty
    /\ getitem (VDict (normalized request_for_1000)) "include_roadmap"
       = Ok include_roadmap
    /\ getitem (VDict (normalized request_for_1000)) "include_videos"
       = Ok include_videos.
Proof.
  apply (X27_chain_input_of_validated_request (VDict request_for_1000)).
  reflexivity.
Defined.

(** *** The endpoint *)

Section Endpoint.

Variable json_loads : string -> option value.
Variable MCQResponse_dict : dict -> option value.
Variable request_timestamp now : string.
Variable generation_time_seconds : Q.

Lemma request_dict_username (request : Routes.MCQRequest) :
  dict_get (VStr "username") (Routes.request_dict request)
  = Some (Routes.username request).
Proof. reflexivity. Qed.

Lemma request_dict_topic (request : Routes.MCQRequest) :
  dict_get (VStr "topic") (Routes.request_dict request)
  = Some (Routes.topic request).
Proof. reflexivity. Qed.

(** Every failure of [validate_request_data] is a [MCQValidationError]. *)
Lemma request_failure_typed (request_data : value) (e : exn) :
  validate_request_data request_data = Raise e ->
  exists m, e = MCQValidationError m.
Proof.
  unfold validate_request_data.
  destruct (request_steps request_data); [discriminate|].
  intros [= <-]. eauto.
Qed.

Lemma len_raises (v : value) (e : exn) : len v = Raise e -> e = TypeError.
Proof. destruct v; cbn; congruence. Qed.

(** What the completion of the metadata went through when it succeeds. *)
Lemma complete_metadata_ok (request : Routes.MCQRequest)
  (raw_result mcq_data : value) :
  Routes.complete_metadata json_loads MCQResponse_dict request_timestamp now
    generation_time_seconds request raw_result = Ok mcq_data ->
  exists d metadata metadata',
    validate_mcq_json json_loads MCQResponse_dict now raw_result = Ok (VDict d)
    /\ dict_get (VStr "metadata") d = Some (VDict metadata)
    /\ incl (map fst metadata) (map fst metadata')
    /\ mcq_data = VDict (dict_set (VStr "metadata") (VDict metadata') d)
    /\ succeeds (len (or_default (dict_get (VStr "roadmap") d) (VList [])))
       = true
    /\ succeeds (len (or_default (dict_get (VStr "reference_videos") d)
                        (VList []))) = true.
Proof.
  unfold Routes.complete_metadata. intros H.
  bind_inv H. bind_inv H. bind_inv H. bind_inv H. bind_inv H.
  bind_inv H. bind_inv H. bind_inv H. bind_inv H. bind_inv H. bind_inv H.
  injection H as <-.
  destruct a as [| | | | | |d]; try discriminate.
  cbn [getitem] in Ha0.
  destruct (dict_get (VStr "metadata") d) as [m|] eqn:Hm; [|discriminate].
  injection Ha0 as ->.
  destruct a0 as [| | | | | |metadata]; try discriminate.
  injection Ha1 as <-. cbn [dict_update bind] in Ha2. injection Ha2 as <-.
  injection Ha3 as <-.
  cbn [get] in Ha6, Ha8.
  rewrite dict_get_set_neq in Ha6, Ha8 by discriminate.
  eexists d, metadata, _.
  split; [exact Ha|]. split; [exact Hm|].
  split; [|split; [reflexivity|split]].
  - intros k Hk. cbn [fold_left fst snd].
    rewrite !dict_set_keys, !in_app_iff. auto.
  - destruct (dict_get (VStr "roadmap") d); injection Ha6 as <-;
      cbn [or_default]; now rewrite Ha7.
  - destruct (dict_get (VStr "reference_videos") d); injection Ha8 as <-;
      cbn [or_default]; now rewrite Ha9.
Qed.

(** With a [null] under [roadmap] or [reference_videos] in the validated
    mapping, the completion raises, and not a [MCQValidationError]. *)
Lemma null_optional_raises (request : Routes.MCQRequest)
  (raw_result : value) (mcq_data : dict) (k : string) :
  validate_mcq_json json_loads MCQResponse_dict now raw_result
  = Ok (VDict mcq_data) ->
  k = "roadmap" \/ k = "reference_videos" ->
  dict_get (VStr k) mcq_data = Some VNone ->
  exists e,
    Routes.complete_metadata json_loads MCQResponse_dict request_timestamp now
      generation_time_seconds request raw_result = Raise e
    /\ forall m, e <> MCQValidationError m.
Proof.
  intros Hv Hk Hn. unfold Routes.complete_metadata. rewrite Hv.
  cbn [bind getitem].
  destruct (dict_get (VStr "metadata") mcq_data) as [metadata|];
    [|eexists; split; [reflexivity | discriminate]].
  destruct metadata as [| | | | | |m]; cbn [setitem bind];
    try (eexists; split; [reflexivity | discriminate]).
  cbn [dict_update bind get]. rewrite !dict_get_set_neq by discriminate.
  assert (L : forall (o : option value) (rest : result value),
             (exists e, rest = Raise e /\ forall m, e <> MCQValidationError m) ->
             exists e,
               (v <- match o with Some v => Ok v | None => Ok (VList []) end ;;
                len v ;;; rest) = Raise e
               /\ forall m, e <> MCQValidationError m).
  { intros o rest (e & -> & He).
    destruct o as [v|]; cbn [bind].
    - destruct (len v) as [n|e'] eqn:E; cbn [bind].
      + exists e. split; [reflexivity | exact He].
      + apply len_raises in E. subst e'. eexists. split; [reflexivity|].
        discriminate.
    - exists e. split; [reflexivity | exact He]. }
  apply L.
  destruct Hk as [-> | ->].
  - rewrite Hn. cbn [bind len]. eexists. split; [reflexivity | discriminate].
  - apply L. rewrite Hn. cbn [bind len].
    eexists. split; [reflexivity | discriminate].
Qed.

End Endpoint.

Section SchemaModel.

Lemma models_accepts_shape (d : dict) (v : value) :
  Models.MCQResponse d = Some v ->
  exists username topic timestamp questions roadmap reference_videos metadata,
    v = VDict [(VStr "username", username);
               (VStr "topic", topic);
               (VStr "timestamp", timestamp);
               (VStr "questions", questions);
               (VStr "roadmap", roadmap);
               (VStr "reference_videos", reference_videos);
               (VStr "metadata", metadata)]
    /\ Models.optional_list Models.RoadmapStep (dict_get (VStr "roadmap") d)
       = Some roadmap
    /\ Models.optional_list Models.ReferenceVideo
         (dict_get (VStr "reference_videos") d) = Some reference_videos.
Proof.
  unfold Models.MCQResponse, Models.field.
  destruct (Models.any_str (dict_get (VStr "username") d)); [|discriminate].
  destruct (Models.any_str (dict_get (VStr "topic") d)); [|discriminate].
  destruct (Models.any_str (dict_get (VStr "timestamp") d)); [|discriminate].
  destruct (Models.list_field Models.MCQQuestion _); [|discriminate].
  destruct (Models.optional_list Models.RoadmapStep _); [|discriminate].
  destruct (Models.optional_list Models.ReferenceVideo _); [|discriminate].
  destruct (Models.metadata_field _); [|discriminate].
  intros [= <-]. do 7 eexists. repeat split.
Qed.

Lemma string_keys_incl (a b : dict) :
  incl (map fst a) (map fst b) ->
  forallb (fun kv => isinstance_str (fst kv)) b = true ->
  forallb (fun kv => isinstance_str (fst kv)) a = true.
Proof.
  intros I H. rewrite forallb_forall in H |- *. intros kv Hkv.
  assert (K : In (fst kv) (map fst b)) by now apply I, in_map.
  apply in_map_iff in K. destruct K as (kv' & <- & Hkv'). now apply H.
Qed.

(** A mapping the model rejects is rejected again once its metadata has
    been given more keys. *)
Lemma models_rejects_stable (d metadata metadata' : dict) :
  Models.MCQResponse d = None ->
  dict_get (VStr "metadata") d = Some (VDict metadata) ->
  incl (map fst metadata) (map fst metadata') ->
  Models.MCQResponse (dict_set (VStr "metadata") (VDict metadata') d) = None.
Proof.
  unfold Models.MCQResponse, Models.field. intros H Hm I.
  rewrite !dict_get_set_neq by discriminate. rewrite dict_get_set_eq.
  rewrite Hm in H.
  destruct (Models.any_str (dict_get (VStr "username") d)); [|reflexivity].
  destruct (Models.any_str (dict_get (VStr "topic") d)); [|reflexivity].
  destruct (Models.any_str (dict_get (VStr "timestamp") d)); [|reflexivity].
  destruct (Models.list_field Models.MCQQuestion _); [|reflexivity].
  destruct (Models.optional_list Models.RoadmapStep _); [|reflexivity].
  destruct (Models.optional_list Models.ReferenceVideo _); [|reflexivity].
  cbn [Models.metadata_field] in H |- *.
  destruct (forallb _ metadata) eqn:F; [discriminate|].
  destruct (forallb _ metadata') eqn:F'; [|reflexivity].
  now rewrite (string_keys_incl _ _ I F') in F.
Qed.

Lemma models_renders_absent : renders_absent_as_null Models.MCQResponse.
Proof.
  intros d rendered k M Hk G.
  destruct (models_accepts_shape _ _ M)
    as (? & ? & ? & ? & ro & rv & ? & -> & Hro & Hrv).
  eexists. split; [reflexivity|].
  destruct Hk as [-> | ->]; rewrite G in *; cbn in Hro, Hrv.
  - injection Hro as <-. reflexivity.
  - injection Hrv as <-. reflexivity.
Qed.

Lemma models_rejection_survives : rejection_survives_metadata Models.MCQResponse.
Proof. intros d metadata metadata'. apply models_rejects_stable. Qed.

End SchemaModel.

(** X28.  For a request whose [username] is a string and whose [topic] is
    true, [generate_mcq] answers 400 exactly when the name, without its
    underscores and hyphens, is empty or not alphanumeric; so a name of
    underscores only, which the pattern of the request model admits, is
    answered 400.  Every other request is answered 200, 500 or 504 (the
    time-out). *)
Theorem X28_bad_request_iff (json_loads : string -> option value)
  (MCQResponse_dict : dict -> option value) (request_timestamp now : string)
  (generation_time_seconds : Q)
  (create_mcq_chain : result (value -> Routes.outcome))
  (request : Routes.MCQRequest) (username : string) :
  Routes.username request = VStr username ->
  truthy (Routes.topic request) = true ->
  ((exists text,
       Routes.generate_mcq json_loads MCQResponse_dict request_timestamp now
         generation_time_seconds create_mcq_chain request
       = Routes.HTTPException 400 text)
   <-> isalnum (bare_name username) = false)
  /\ (isalnum (bare_name username) = true ->
      (exists body,
          Routes.generate_mcq json_loads MCQResponse_dict request_timestamp
            now generation_time_seconds create_mcq_chain request
          = Routes.Returned body)
      \/ (exists text,
             Routes.generate_mcq json_loads MCQResponse_dict
               request_timestamp now generation_time_seconds
               create_mcq_chain request
             = Routes.HTTPException 500 text)
      \/ Routes.generate_mcq json_loads MCQResponse_dict request_timestamp
           now generation_time_seconds create_mcq_chain request
         = Routes.HTTPException 504 Routes.GenerationTimedOut).
Proof.
  intros Hu Ht.
  assert (U : dict_get (VStr "username") (Routes.request_dict request)
              = Some (VStr username))
    by now rewrite request_dict_username, Hu.
  assert (T : filled (Routes.request_dict request) "topic" = true)
    by (unfold filled; now rewrite request_dict_topic).
  pose proof (request_verdict _ _ U) as V. rewrite T in V. cbn [andb] in V.
  assert (O : isalnum (bare_name username) = true ->
              (exists body,
                  Routes.generate_mcq json_loads MCQResponse_dict
                    request_timestamp now generation_time_seconds
                    create_mcq_chain request
                  = Routes.Returned body)
              \/ (exists text,
                     Routes.generate_mcq json_loads MCQResponse_dict
                       request_timestamp now generation_time_seconds
                       create_mcq_chain request
                     = Routes.HTTPException 500 text)
              \/ Routes.generate_mcq json_loads MCQResponse_dict
                   request_timestamp now generation_time_seconds
                   create_mcq_chain request
                 = Routes.HTTPException 504 Routes.GenerationTimedOut).
  { intros A. unfold Routes.generate_mcq.
    rewrite (request_accepted _ _ U A T).
    destruct create_mcq_chain as [invoke|]; [|right; left; eauto].
    destruct (invoke _); [|now right; right | right; left; eauto].
    destruct (Routes.complete_metadata _ _ _ _ _ _ _) as [mcq_data|[]];
      try (right; left; eauto; fail).
    destruct (Routes.build_response _ _); [left | right; left]; eauto. }
  split; [|exact O].
  destruct (isalnum (bare_name username)) eqn:A.
  - split; [|discriminate]. intros [text H]. exfalso.
    destruct (O eq_refl) as [[body E] | [[text' E] | E]];
      rewrite E in H; discriminate.
  - split; [reflexivity|]. intros _. unfold Routes.generate_mcq.
    destruct (validate_request_data _) as [|e] eqn:E; [discriminate|].
    destruct (request_failure_typed _ _ E) as [m ->]. eauto.
Qed.

Lemma X28_bad_request_iff_witness :
  ((exists text,
       Routes.generate_mcq (fun _ => None) Models.MCQResponse
         "2024-01-15T10:29:00" "2024-01-15T10:30:00" 1
         (Ok (chain_returning (VDict payload_with_empty_lists)))
         underscore_request
       = Routes.HTTPException 400 text)
   <-> isalnum (bare_name "___") = false)
  /\ (isalnum (bare_name "___") = true ->
      (exists body,
          Routes.generate_mcq (fun _ => None) Models.MCQResponse
            "2024-01-15T10:29:00" "2024-01-15T10:30:00" 1
            (Ok (chain_returning (VDict payload_with_empty_lists)))
            underscore_request
          = Routes.Returned body)
      \/ (exists text,
             Routes.generate_mcq (fun _ => None) Models.MCQResponse
               "2024-01-15T10:29:00" "2024-01-15T10:30:00" 1
               (Ok (chain_returning (VDict payload_with_empty_lists)))
               underscore_request
             = Routes.HTTPException 500 text)
      \/ Routes.generate_mcq (fun _ => None) Models.MCQResponse
           "2024-01-15T10:29:00" "2024-01-15T10:30:00" 1
           (Ok (chain_returning (VDict payload_with_empty_lists)))
           underscore_request
         = Routes.HTTPException 504 Routes.GenerationTimedOut).
Proof.
  apply (X28_bad_request_iff (fun _ => None) Models.MCQResponse
           "2024-01-15T10:29:00" "2024-01-15T10:30:00" 1
           (Ok (chain_returning (VDict payload_with_empty_lists)))
           underscore_request "___").
  - reflexivity.
  - reflexivity.
Defined.

(** X29.  When the mapping that [validate_mcq_json] returns has [null] under
    [roadmap] or [reference_videos], [generate_mcq] answers 500 "Error
    processing generated content": the endpoint takes the length of both
    values before it builds the response.  The rendering of the schema
    model has [null] there whenever the payload had no such key. *)
Theorem X29_null_optional_is_500 (json_loads : string -> option value)
  (MCQResponse_dict : dict -> option value) (request_timestamp now : string)
  (generation_time_seconds : Q) (invoke : value -> Routes.outcome)
  (request : Routes.MCQRequest) (validated_request raw_result : value)
  (mcq_data : dict) (k : string) :
  validate_request_data (VDict (Routes.request_dict request))
  = Ok validated_request ->
  invoke validated_request = Routes.Result raw_result ->
  validate_mcq_json json_loads MCQResponse_dict now raw_result
  = Ok (VDict mcq_data) ->
  k = "roadmap" \/ k = "reference_videos" ->
  dict_get (VStr k) mcq_data = Some VNone ->
  Routes.generate_mcq json_loads MCQResponse_dict request_timestamp now
    generation_time_seconds (Ok invoke) request
  = Routes.HTTPException 500 Routes.ErrorProcessingContent.
Proof.
  intros Hr Hi Hv Hk Hn. unfold Routes.generate_mcq. rewrite Hr, Hi.
  destruct (null_optional_raises json_loads MCQResponse_dict
              request_timestamp now generation_time_seconds request
              raw_result mcq_data k Hv Hk Hn) as (e & -> & He).
  destruct e; try reflexivity. now destruct (He m).
Qed.

Lemma X29_null_optional_is_500_witness :
  Routes.generate_mcq (fun _ => None) Models.MCQResponse
    "2024-01-15T10:29:00" "2024-01-15T10:30:00" 1
    (Ok (chain_returning (VDict payload_without_roadmap))) scenario_request
  = Routes.HTTPException 500 Routes.ErrorProcessingContent.
Proof.
  eapply (X29_null_optional_is_500 (fun _ => None) Models.MCQResponse
            "2024-01-15T10:29:00" "2024-01-15T10:30:00" 1
            (chain_returning (VDict payload_without_roadmap))
            scenario_request _ (VDict payload_without_roadmap) _ "roadmap").
  - reflexivity.
  - reflexivity.
  - reflexivity.
  - left. reflexivity.
  - reflexivity.
Defined.

(** X30.  Let the schema model render an optional list that is absent as
    [null], and reject again a mapping it rejected once its metadata has
    more keys, as the [MCQResponse] of [models.py] does.  Then
    [generate_mcq] answers 200 only if the chain returned a mapping (or a
    text that parses to one) that has both [roadmap] and
    [reference_videos], each true or an empty container: a payload without
    one of the two keys, or with [null] under it, is answered 500, although
    the model declares both optional. *)
Theorem X30_success_needs_both_lists (json_loads : string -> option value)
  (MCQResponse_dict : dict -> option value)
  (request_timestamp now : string) (generation_time_seconds : Q)
  (create_mcq_chain : result (value -> Routes.outcome))
  (request : Routes.MCQRequest) (body : value) :
  renders_absent_as_null MCQResponse_dict ->
  rejection_survives_metadata MCQResponse_dict ->
  Routes.generate_mcq json_loads MCQResponse_dict request_timestamp now
    generation_time_seconds create_mcq_chain request = Routes.Returned body ->
  exists validated_request invoke raw_result d,
    validate_request_data (VDict (Routes.request_dict request))
    = Ok validated_request
    /\ create_mcq_chain = Ok invoke
    /\ invoke validated_request = Routes.Result raw_result
    /\ _parse_json_input json_loads raw_result = Ok (VDict d)
    /\ forall k, k = "roadmap" \/ k = "reference_videos" ->
                 exists v, dict_get (VStr k) d = Some v
                           /\ (truthy v = true \/ empty_sized v = true).
Proof.
  unfold Routes.generate_mcq. intros H1 H2 H.
  destruct (validate_request_data _) as [validated_request|[]] eqn:R;
    try discriminate.
  destruct create_mcq_chain as [invoke|]; [|discriminate].
  destruct (invoke validated_request) as [raw_result| |] eqn:I;
    try discriminate.
  destruct (Routes.complete_metadata _ _ _ _ _ _ _) as [mcq_data|[]] eqn:C;
    try discriminate.
  destruct (Routes.build_response _ mcq_data) as [body'|] eqn:B;
    [|discriminate].
  destruct (complete_metadata_ok _ _ _ _ _ _ _ _ C)
    as (dv & metadata & metadata' & Hv & Hm & Hi & -> & Lr & Lv).
  destruct (validated_from_repaired _ _ _ _ _ Hv) as (dr & Hrep & _ & Hret).
  destruct (repair_steps_ok _ _ _ _ Hrep)
    as (d & questions & q & kept & mdr & Hp & _ & _ & _ & _ & _ & E).
  injection E as E.
  assert (Hd : repair_steps json_loads now (VDict d) = Ok (VDict dr)).
  { unfold repair_steps in Hrep |- *. rewrite Hp in Hrep. exact Hrep. }
  exists validated_request, invoke, raw_result, d.
  repeat split; auto.
  assert (P : forall k, k = "roadmap" \/ k = "reference_videos" ->
                        exists x, dict_get (VStr k) dr = Some x).
  { destruct (MCQResponse_dict dr) as [v|] eqn:M.
    - subst v. intros k Hk.
      destruct (dict_get (VStr k) dr) as [x|] eqn:G; [eauto|]. exfalso.
      destruct (H1 dr (VDict dv) k M Hk G) as (r & [= <-] & Hn).
      destruct Hk as [-> | ->].
      + rewrite Hn in Lr. discriminate.
      + rewrite Hn in Lv. discriminate.
    - injection Hret as ->. exfalso.
      unfold Routes.build_response in B.
      destruct (forallb _ _); [|discriminate].
      now rewrite (H2 _ _ _ M Hm Hi) in B. }
  intros k Hk. destruct (P k Hk) as [x Hx].
  assert (G : dict_get (VStr k) dr
              = match dict_get (VStr k) d with
                | Some v =>
                    Some (if truthy v
                          then (if (k =? "roadmap")%string
                                then _validate_roadmap v
                                else _validate_reference_videos v)
                          else v)
                | None => None
                end).
  { rewrite E. unfold repaired_body.
    destruct Hk as [-> | ->]; rewrite dict_get_set_neq by discriminate.
    - now rewrite optional_get_other, optional_get, dict_get_set_neq,
        with_timestamp_get by discriminate.
    - now rewrite optional_get, optional_get_other, dict_get_set_neq,
        with_timestamp_get by discriminate. }
  rewrite Hx in G.
  destruct (dict_get (VStr k) d) as [v|] eqn:Dv; [|discriminate].
  exists v. split; [reflexivity|].
  destruct (truthy v) eqn:T; [now left | right].
  exact (false_optional_sized _ _ _ _ _ _ Hd Hk Dv T).
Qed.

Lemma X30_success_needs_both_lists_witness :
  renders_absent_as_null Models.MCQResponse
  /\ rejection_survives_metadata Models.MCQResponse
  /\ exists validated_request invoke raw_result d,
       validate_request_data (VDict (Routes.request_dict scenario_request))
       = Ok validated_request
       /\ Ok (chain_returning (VDict payload_with_empty_lists)) = Ok invoke
       /\ invoke validated_request = Routes.Result raw_result
       /\ _parse_json_input (fun _ => None) raw_result = Ok (VDict d)
       /\ forall k, k = "roadmap" \/ k = "reference_videos" ->
                    exists v, dict_get (VStr k) d = Some v
                              /\ (truthy v = true \/ empty_sized v = true).
Proof.
  split; [exact models_renders_absent|].
  split; [exact models_rejection_survives|].
  eapply (X30_success_needs_both_lists (fun _ => None) Models.MCQResponse
            "2024-01-15T10:29:00" "2024-01-15T10:30:00" 1
            (Ok (chain_returning (VDict payload_with_empty_lists)))
            scenario_request).
  - exact models_renders_absent.
  - exact models_rejection_survives.
  - reflexivity.
Defined.
